(** * linear-copilot: webhook validation, event classification, label
    extraction, priority scoring and dispatch error handling

    A shallow embedding of the TypeScript sources

      - [src/types/index.ts]        (module [Types])
      - [src/utils/tools.ts]        (module [Tools])
      - [src/utils/agent-tools.ts]  (module [AgentTools]; the sources hold
                                     it as [unnamed/part_002])
      - [src/utils/webhook.ts]      (module [Webhook])
      - [src/utils/agent-utils.ts]  (module [AgentUtils])
      - [src/api/webhook.ts]        (module [Api])
      - [src/index.ts]              (module [Index]; the sources hold it
                                     as [unnamed/part_001])

    followed by the properties proved about them.

    Conventions of the embedding.
      - A JavaScript string is a [string]; [undefined] for an optional
        field is [None].
      - An object literal used as a table is a [gmap] from its own keys;
        reading a property goes through [JS.get_property], which also
        accounts for the members every object inherits from
        [Object.prototype].
      - A [number] holding a priority or a time stamp in milliseconds is
        an integer of [Z] (all the values involved are integers far
        below 2^53, where JavaScript arithmetic is exact).
      - [async] code is sequential: every [await] is a bind of the monad
        [Run.M], which records the observable calls (console output, calls
        to the issue tracker, the task run) in a trace and ends in a
        returned value or a thrown error.
      - What the program obtains from its host ([createHmac], [JSON.parse],
        [Date.now], the Linear client, the agent task) is a field of
        [Run.host]. *)

From Stdlib Require Import ZArith String Ascii List Bool Lia DecimalString.
From stdpp Require Import base tactics option list gmap strings.

#[local] Open Scope string_scope.
#[local] Open Scope Z_scope.

(* ================================================================== *)
(** * Part I: the program *)
(* ================================================================== *)

Module JS.

(** A thrown value.  Every [throw] of the sources throws an [Error]
    object, and so do the host's calls; [error_name] is
    [error.constructor.name] and [error_message] is [error.message]. *)
Record js_error : Type := mk_error {
  error_name : string;
  error_message : string
}.

Definition Error (msg : string) : js_error := mk_error "Error" msg.
Definition TypeError (msg : string) : js_error := mk_error "TypeError" msg.
Definition SyntaxError (msg : string) : js_error := mk_error "SyntaxError" msg.

(** How an evaluation ends.  [HostDefined] marks an evaluation that
    reached a member inherited from [Object.prototype]: its value, or
    exception, is decided by the host's built-in objects and is not
    described here. *)
Inductive outcome (A : Type) : Type :=
| Returned (a : A)
| Thrown (e : js_error)
| HostDefined.

Arguments Returned {A} a.
Arguments Thrown {A} e.
Arguments HostDefined {A}.

(** What a call to the host comes back with: a value, or an error it
    throws. *)
Inductive completion (A : Type) : Type :=
| Gives (a : A)
| Fails (e : js_error).

Arguments Gives {A} a.
Arguments Fails {A} e.

Definition settled {A : Type} (c : completion A) : outcome A :=
  match c with
  | Gives a => Returned a
  | Fails e => Thrown e
  end.

(** ** Strings *)

(** Truthiness of a string-or-undefined value: [undefined] and the
    empty string are falsy. *)
Definition truthy (v : option string) : bool :=
  match v with
  | Some s => negb (s =? "")%string
  | None => false
  end.

(** [v || d] for a string-or-undefined [v] and a string [d]. *)
Definition or_else (v : option string) (d : string) : string :=
  match v with
  | Some s => if (s =? "")%string then d else s
  | None => d
  end.

(** [x?.f]: optional chaining. *)
Definition optional {A B : Type} (x : option A) (f : A -> option B) : option B :=
  match x with
  | Some a => f a
  | None => None
  end.

(** [`${v}`] for a string-or-undefined value. *)
Definition interpolate (v : option string) : string :=
  match v with
  | Some s => s
  | None => "undefined"
  end.

(** The line feed of a template literal. *)
Definition LF : string := String (ascii_of_nat 10) EmptyString.

(** [`${n}`] for an integer. *)
Definition string_of_Z (n : Z) : string :=
  NilZero.string_of_int (Z.to_int n).

Definition is_upper (c : ascii) : bool :=
  let n := nat_of_ascii c in (65 <=? n)%nat && (n <=? 90)%nat.

Definition lower_char (c : ascii) : ascii :=
  if is_upper c then ascii_of_nat (nat_of_ascii c + 32) else c.

(** [s.toLowerCase()], on the letters A to Z. *)
Fixpoint toLowerCase (s : string) : string :=
  match s with
  | EmptyString => EmptyString
  | String c r => String (lower_char c) (toLowerCase r)
  end.

(** White space removed by [trim], among the 8-bit code units. *)
Definition is_space (c : ascii) : bool :=
  let n := nat_of_ascii c in
  ((9 <=? n)%nat && (n <=? 13)%nat) || (n =? 32)%nat || (n =? 160)%nat.

Fixpoint trimStart (s : string) : string :=
  match s with
  | EmptyString => EmptyString
  | String c r => if is_space c then trimStart r else s
  end.

Fixpoint trimEnd (s : string) : string :=
  match s with
  | EmptyString => EmptyString
  | String c r =>
      match trimEnd r with
      | EmptyString => if is_space c then EmptyString else String c EmptyString
      | r' => String c r'
      end
  end.

Definition trim (s : string) : string := trimEnd (trimStart s).

(** [s.split(",")[0]]: the part of [s] before its first comma. *)
Fixpoint split_comma_first (s : string) : string :=
  match s with
  | EmptyString => EmptyString
  | String c r =>
      if Ascii.eqb c ","%char then EmptyString else String c (split_comma_first r)
  end.

(** ** Object literals as tables *)

(** An object literal with the given own properties. *)
Definition object {A : Type} (props : list (string * A)) : gmap string A :=
  list_to_map props.

(** The first binding of a key in a list of properties. *)
Fixpoint assoc {A : Type} (k : string) (props : list (string * A)) : option A :=
  match props with
  | [] => None
  | (k', v) :: rest => if (k =? k')%string then Some v else assoc k rest
  end.

(** The property names every plain object inherits from
    [Object.prototype]. *)
Definition Object_prototype_keys : list string :=
  [ "constructor"; "__defineGetter__"; "__defineSetter__"; "hasOwnProperty";
    "__lookupGetter__"; "__lookupSetter__"; "isPrototypeOf";
    "propertyIsEnumerable"; "toString"; "valueOf"; "__proto__";
    "toLocaleString" ].

(** The result of [o[k]] on an object literal [o]: an own property, a
    member inherited from [Object.prototype], or [undefined]. *)
Inductive property (A : Type) : Type :=
| Own (a : A)
| Inherited
| Absent.

Arguments Own {A} a.
Arguments Inherited {A}.
Arguments Absent {A}.

Definition get_property {A : Type} (o : gmap string A) (k : string) : property A :=
  match o !! k with
  | Some a => Own a
  | None => if bool_decide (k ∈ Object_prototype_keys) then Inherited else Absent
  end.

(** [m[a]?.[b] ?? d] on a table of tables of numbers. *)
Definition optional_index_or (m : gmap string (gmap string Z)) (a b : string) (d : Z)
  : outcome Z :=
  match get_property m a with
  | Own row =>
      match get_property row b with
      | Own n => Returned n
      | Inherited => HostDefined
      | Absent => Returned d
      end
  | Inherited => HostDefined
  | Absent => Returned d
  end.

(** [m[a][b]] on a table of tables of numbers: the result is a number or
    [undefined] ([None]); indexing [undefined] throws a [TypeError]. *)
Definition index_index (m : gmap string (gmap string Z)) (a b : string)
  : outcome (option Z) :=
  match get_property m a with
  | Own row =>
      match get_property row b with
      | Own n => Returned (Some n)
      | Inherited => HostDefined
      | Absent => Returned None
      end
  | Inherited => HostDefined
  | Absent =>
      Thrown (TypeError ("Cannot read properties of undefined (reading '" +:+ b +:+ "')"))
  end.

End JS.

Import JS.

(** [src/types/index.ts], with the fields [src/utils/webhook.ts] adds to
    the payload.  A field the sources read through [?.] or test for
    truthiness is optional. *)
Module Types.

Record label_node : Type := mk_label_node {
  name : option string
}.

Record label_connection : Type := mk_labels {
  nodes : option (list label_node)
}.

Record issue_data : Type := mk_data {
  id : option string;
  title : option string;
  description : option string;
  labels : option label_connection
}.

Record updated_from : Type := mk_updatedFrom {
  labelIds : option (list string)
}.

(** [LinearWebhookPayload & WebhookTimestampPayload &
    { updatedFrom?: { labelIds?: string[] } }]: the object [JSON.parse]
    yields for a request body. *)
Record LinearWebhookPayload : Type := mk_payload {
  action : string;
  type : string;
  data : option issue_data;
  updatedFrom : option updated_from;
  webhookTimestamp : option Z
}.

(** [new LinearClient({ apiKey })] *)
Record LinearClient : Type := mk_client {
  apiKey : string
}.

(** The prompt of the agent task is a fixed template with the
    interpolations [issueId] (twice), [title], [description] and
    [issueLabel]; it is represented by the interpolated strings. *)
Record task_prompt : Type := mk_prompt {
  prompt_issueId : string;
  prompt_title : string;
  prompt_description : string;
  prompt_label : string
}.

End Types.

(** Sequential evaluation against a host, with a trace of the
    observable calls. *)
Module Run.

Inductive log_arg : Type :=
| LogNothing
| LogText (s : string)
| LogError (e : js_error).

Inductive event : Type :=
| ConsoleError (label : string) (arg : log_arg)
| ClientIssue (apiKey issueId : string)
| IssueUpdate (apiKey issueId : string) (priority : option Z)
| ClientCreateComment (apiKey issueId body : string)
| TaskRun (prompt : Types.task_prompt).

Record host : Type := mk_host {
  (** [createHmac("sha256", secret).update(payload).digest("hex")] *)
  hmac_sha256_hex : string -> string -> string;
  (** [JSON.parse(body)]; it throws a [SyntaxError] *)
  JSON_parse : string -> completion Types.LinearWebhookPayload;
  (** [Date.now()] *)
  Date_now : Z;
  (** [client.issue(issueId)]: [true] when an issue object comes back *)
  client_issue : string -> string -> completion bool;
  (** [issue.update({ priority })] *)
  issue_update : string -> string -> option Z -> completion unit;
  (** [client.createComment({ issueId, body })] *)
  client_createComment : string -> string -> string -> completion unit;
  (** [task.run()], giving [result.text] *)
  task_run : Types.task_prompt -> completion string
}.

Definition M (A : Type) : Type := (list event * outcome A)%type.

Definition ret {A : Type} (a : A) : M A := ([], Returned a).

Definition throw {A : Type} (e : js_error) : M A := ([], Thrown e).

Definition bind {A B : Type} (m : M A) (k : A -> M B) : M B :=
  match m with
  | (t, Returned a) => let '(t', r) := k a in ((t ++ t')%list, r)
  | (t, Thrown e) => (t, Thrown e)
  | (t, HostDefined) => (t, HostDefined)
  end.

(** [try { m } catch (e) { handler e }] *)
Definition try_catch {A : Type} (m : M A) (handler : js_error -> M A) : M A :=
  match m with
  | (t, Thrown e) => let '(t', r) := handler e in ((t ++ t')%list, r)
  | other => other
  end.

(** A pure evaluation, without observable call. *)
Definition pure {A : Type} (o : outcome A) : M A := ([], o).

(** An observable call with the host's answer. *)
Definition call {A : Type} (ev : event) (c : completion A) : M A := ([ev], settled c).

Definition console_error (label : string) (arg : log_arg) : M unit :=
  call (ConsoleError label arg) (Gives tt).

(** The issue tracker answers every call made for [issueId] through the
    client with key [apiKey]. *)
Definition tracker_accepts (h : host) (apiKey issueId : string) : Prop :=
  client_issue h apiKey issueId = Gives true
  /\ (forall priority, issue_update h apiKey issueId priority = Gives tt)
  /\ (forall body, client_createComment h apiKey issueId body = Gives tt).

(** The number of comments the trace attempts to post. *)
Definition comment_attempts (t : list event) : nat :=
  List.length (List.filter (fun ev => match ev with
                                      | ClientCreateComment _ _ _ => true
                                      | _ => false
                                      end) t).

(** The value an evaluation returned, [d] if it did not return. *)
Definition result_value {A : Type} (m : M A) (d : A) : A :=
  match snd m with
  | Returned a => a
  | _ => d
  end.

Definition trace {A : Type} (m : M A) : list event := fst m.
Definition result {A : Type} (m : M A) : outcome A := snd m.

End Run.

Import Run.

Notation "'let*' x ':=' m 'in' k" := (Run.bind m (fun x => k))
  (at level 10, x name, m at level 100, k at level 200).

(* ------------------------------------------------------------------ *)
(** ** [src/utils/tools.ts] *)
(* ------------------------------------------------------------------ *)

Module Tools.

(** [prioritySchema]: the levels [z.enum] admits for [impact] and
    [urgency]. *)
Definition prioritySchema_levels : list string :=
  [ "low"; "medium"; "high"; "critical" ].

(** The [priorityMatrix] of [createPriorityAssessmentTool]. *)
Definition priorityMatrix : gmap string (gmap string Z) :=
  object
    [ ("critical", object [ ("critical", 1); ("high", 2); ("medium", 2); ("low", 3) ]);
      ("high", object [ ("critical", 2); ("high", 2); ("medium", 3); ("low", 3) ]);
      ("medium", object [ ("critical", 2); ("high", 3); ("medium", 3); ("low", 4) ]);
      ("low", object [ ("critical", 3); ("high", 3); ("medium", 4); ("low", 4) ]) ].

(** [const priority = priorityMatrix[impact][urgency]] *)
Definition createPriorityAssessmentTool_priority (impact urgency : string)
  : outcome (option Z) :=
  index_index priorityMatrix impact urgency.

Record PriorityAssessmentResult : Type := mk_assessment {
  newPriority : option Z;
  impact : string;
  urgency : string
}.

Section WithHost.
Context (h : host).

(** [createCommentTool(client, agentName).invoke({ issueId, content })] *)
Definition createCommentTool (client : Types.LinearClient) (agentName : string)
    (issueId content : string) : M string :=
  let body := "[" +:+ agentName +:+ "] " +:+ content in
  let* _ := call (ClientCreateComment (Types.apiKey client) issueId body)
                 (client_createComment h (Types.apiKey client) issueId body) in
  ret "Comment added successfully".

(** [createPriorityAssessmentTool(client).invoke({ issueId, impact, urgency })] *)
Definition createPriorityAssessmentTool (client : Types.LinearClient)
    (issueId impact urgency : string) : M PriorityAssessmentResult :=
  let* priority := pure (createPriorityAssessmentTool_priority impact urgency) in
  let* issue := call (ClientIssue (Types.apiKey client) issueId)
                     (client_issue h (Types.apiKey client) issueId) in
  if issue : bool then
    let* _ := call (IssueUpdate (Types.apiKey client) issueId priority)
                   (issue_update h (Types.apiKey client) issueId priority) in
    ret (mk_assessment priority impact urgency)
  else
    throw (TypeError "Cannot read properties of undefined (reading 'update')").

End WithHost.

End Tools.

(* ------------------------------------------------------------------ *)
(** ** [src/utils/agent-tools.ts] *)
(* ------------------------------------------------------------------ *)

Module AgentTools.

(** [withErrorHandling(tool, errorMessage)], on the tool's [invoke]. *)
Definition withErrorHandling {A : Type} (invoke : M A) (errorMessage : string) : M A :=
  try_catch invoke (fun error =>
    let* _ := console_error (errorMessage +:+ ":") (LogError error) in
    throw (Error (errorMessage +:+ ": " +:+ error_message error))).

Module createBugAgentTools.

Definition priorityMatrix : gmap string (gmap string Z) :=
  object
    [ ("critical", object [ ("critical", 1); ("high", 1); ("medium", 2); ("low", 2) ]);
      ("high", object [ ("critical", 1); ("high", 2); ("medium", 2); ("low", 3) ]);
      ("medium", object [ ("critical", 2); ("high", 2); ("medium", 3); ("low", 3) ]);
      ("low", object [ ("critical", 2); ("high", 3); ("medium", 3); ("low", 4) ]) ].

(** The schema of the tool: [z.enum] for [impact] and for [urgency]. *)
Definition schema_impact : list string := [ "critical"; "high"; "medium"; "low" ].
Definition schema_urgency : list string := [ "critical"; "high"; "medium"; "low" ].

(** [const priority = priorityMatrix[impact]?.[urgency] ?? 3] *)
Definition updatePriority_priority (impact urgency : string) : outcome Z :=
  optional_index_or priorityMatrix impact urgency 3.

Record updated : Type := mk_updated {
  newPriority : Z;
  impact : string;
  urgency : string
}.

Section WithHost.
Context (h : host).

Definition updatePriority_invoke (client : Types.LinearClient)
    (issueId impact urgency reason : string) : M updated :=
  let* issue := call (ClientIssue (Types.apiKey client) issueId)
                     (client_issue h (Types.apiKey client) issueId) in
  if negb issue then throw (Error ("Issue " +:+ issueId +:+ " not found"))
  else
    let* priority := pure (updatePriority_priority impact urgency) in
    let* _ := call (IssueUpdate (Types.apiKey client) issueId (Some priority))
                   (issue_update h (Types.apiKey client) issueId (Some priority)) in
    let* _ := Tools.createCommentTool h client "Bug Bot" issueId
                ("Priority updated to P" +:+ string_of_Z priority +:+ LF +:+ "Impact: " +:+ impact +:+ LF +:+ "Urgency: " +:+ urgency +:+ LF +:+ "Reason: " +:+ reason) in
    ret (mk_updated priority impact urgency).

Definition updatePriority (client : Types.LinearClient)
    (issueId impact urgency reason : string) : M updated :=
  withErrorHandling (updatePriority_invoke client issueId impact urgency reason)
    "Failed to update priority".

End WithHost.

End createBugAgentTools.

Module createFeatureAgentTools.

Definition priorityMatrix : gmap string (gmap string Z) :=
  object
    [ ("critical", object [ ("small", 1); ("medium", 1); ("large", 2); ("xlarge", 2) ]);
      ("high", object [ ("small", 1); ("medium", 2); ("large", 2); ("xlarge", 3) ]);
      ("medium", object [ ("small", 2); ("medium", 2); ("large", 3); ("xlarge", 3) ]);
      ("low", object [ ("small", 3); ("medium", 3); ("large", 4); ("xlarge", 4) ]) ].

(** The schema of the tool: [z.enum] for [businessValue] and for
    [implementationEffort]. *)
Definition schema_businessValue : list string := [ "critical"; "high"; "medium"; "low" ].
Definition schema_implementationEffort : list string :=
  [ "small"; "medium"; "large"; "xlarge" ].

(** [const priority = priorityMatrix[businessValue]?.[implementationEffort] ?? 3] *)
Definition updatePriority_priority (businessValue implementationEffort : string)
  : outcome Z :=
  optional_index_or priorityMatrix businessValue implementationEffort 3.

Record updated : Type := mk_updated {
  newPriority : Z;
  businessValue : string;
  implementationEffort : string
}.

Section WithHost.
Context (h : host).

Definition updatePriority_invoke (client : Types.LinearClient)
    (issueId businessValue implementationEffort reason : string) : M updated :=
  let* issue := call (ClientIssue (Types.apiKey client) issueId)
                     (client_issue h (Types.apiKey client) issueId) in
  if negb issue then throw (Error ("Issue " +:+ issueId +:+ " not found"))
  else
    let* priority := pure (updatePriority_priority businessValue implementationEffort) in
    let* _ := call (IssueUpdate (Types.apiKey client) issueId (Some priority))
                   (issue_update h (Types.apiKey client) issueId (Some priority)) in
    let* _ := Tools.createCommentTool h client "Feature Bot" issueId
                ("Priority updated to P" +:+ string_of_Z priority +:+ LF +:+ "Business Value: " +:+ businessValue +:+ LF +:+ "Implementation Effort: " +:+ implementationEffort +:+ LF +:+ "Reason: " +:+ reason) in
    ret (mk_updated priority businessValue implementationEffort).

Definition updatePriority (client : Types.LinearClient)
    (issueId businessValue implementationEffort reason : string) : M updated :=
  withErrorHandling
    (updatePriority_invoke client issueId businessValue implementationEffort reason)
    "Failed to update priority".

End WithHost.

End createFeatureAgentTools.

Module createImprovementAgentTools.

Definition priorityMatrix : gmap string (gmap string Z) :=
  object
    [ ("critical", object [ ("low", 1); ("medium", 1); ("high", 2) ]);
      ("high", object [ ("low", 1); ("medium", 2); ("high", 3) ]);
      ("medium", object [ ("low", 2); ("medium", 3); ("high", 3) ]);
      ("low", object [ ("low", 3); ("medium", 3); ("high", 4) ]) ].

(** The schema of the tool: [z.enum] for [technicalImpact] and for
    [implementationRisk]. *)
Definition schema_technicalImpact : list string := [ "critical"; "high"; "medium"; "low" ].
Definition schema_implementationRisk : list string := [ "high"; "medium"; "low" ].

(** [const priority = priorityMatrix[technicalImpact]?.[implementationRisk] ?? 3] *)
Definition updatePriority_priority (technicalImpact implementationRisk : string)
  : outcome Z :=
  optional_index_or priorityMatrix technicalImpact implementationRisk 3.

Record updated : Type := mk_updated {
  newPriority : Z;
  technicalImpact : string;
  implementationRisk : string
}.

Section WithHost.
Context (h : host).

Definition updatePriority_invoke (client : Types.LinearClient)
    (issueId technicalImpact implementationRisk reason : string) : M updated :=
  let* issue := call (ClientIssue (Types.apiKey client) issueId)
                     (client_issue h (Types.apiKey client) issueId) in
  if negb issue then throw (Error ("Issue " +:+ issueId +:+ " not found"))
  else
    let* priority := pure (updatePriority_priority technicalImpact implementationRisk) in
    let* _ := call (IssueUpdate (Types.apiKey client) issueId (Some priority))
                   (issue_update h (Types.apiKey client) issueId (Some priority)) in
    let* _ := Tools.createCommentTool h client "Improvement Bot" issueId
                ("Priority updated to P" +:+ string_of_Z priority +:+ LF +:+ "Technical Impact: " +:+ technicalImpact +:+ LF +:+ "Implementation Risk: " +:+ implementationRisk +:+ LF +:+ "Reason: " +:+ reason) in
    ret (mk_updated priority technicalImpact implementationRisk).

Definition updatePriority (client : Types.LinearClient)
    (issueId technicalImpact implementationRisk reason : string) : M updated :=
  withErrorHandling
    (updatePriority_invoke client issueId technicalImpact implementationRisk reason)
    "Failed to update priority".

End WithHost.

End createImprovementAgentTools.

End AgentTools.

(* ------------------------------------------------------------------ *)
(** ** [src/utils/webhook.ts] *)
(* ------------------------------------------------------------------ *)

Module Webhook.

Record WebhookHeaders : Type := mk_headers {
  linear_delivery : string;
  linear_event : string;
  linear_signature : string
}.

Definition ALLOWED_IPS : list string :=
  [ "35.231.147.226";
    "35.243.134.228";
    "34.140.253.14";
    "34.38.87.206" ].

(** [ALLOWED_IPS.includes(ip)] *)
Definition verifyWebhookIp (ip : string) : bool :=
  existsb (String.eqb ip) ALLOWED_IPS.

(** [x !== undefined] *)
Definition defined {A : Type} (x : option A) : bool :=
  match x with
  | Some _ => true
  | None => false
  end.

Definition isIssueCreationEvent (payload : Types.LinearWebhookPayload) : bool :=
  (Types.type payload =? "Issue")%string
  && (Types.action payload =? "create")%string
  && truthy (optional (Types.data payload) Types.id)
  && truthy (optional (Types.data payload) Types.title).

Definition isIssueLabelUpdateEvent (payload : Types.LinearWebhookPayload) : bool :=
  (Types.type payload =? "Issue")%string
  && (Types.action payload =? "update")%string
  && truthy (optional (Types.data payload) Types.id)
  && (defined (optional (Types.updatedFrom payload) Types.labelIds)
      || defined (optional (optional (Types.data payload) Types.labels) Types.nodes)).

Section WithHost.
Context (h : host).

Definition verifyWebhookSignature (payload signature secret : string) : bool :=
  let computedSignature := hmac_sha256_hex h secret payload in
  (signature =? computedSignature)%string.

(** [Math.abs(currentTime - webhookTime) <= 60 * 1000]; with no
    [webhookTimestamp] the difference is [NaN] and the comparison is
    false. *)
Definition verifyWebhookTimestamp (payload : Types.LinearWebhookPayload) : bool :=
  match Types.webhookTimestamp payload with
  | Some webhookTime =>
      let currentTime := Date_now h in
      Z.abs (currentTime - webhookTime) <=? 60 * 1000
  | None => false
  end.

(** [webhookSecret] is what the caller read from its environment
    object: a string or [undefined]. *)
Definition validateWebhookRequest (headers : WebhookHeaders) (body ip : string)
    (webhookSecret : option string) : M bool :=
  match webhookSecret with
  | None => throw (Error "LINEAR_WEBHOOK_SECRET is not configured")
  | Some secret =>
      if (secret =? "")%string then
        throw (Error "LINEAR_WEBHOOK_SECRET is not configured")
      else if negb (verifyWebhookIp ip) then
        let* _ := console_error "Invalid webhook IP:" (LogText ip) in
        ret false
      else if negb (verifyWebhookSignature body (linear_signature headers) secret) then
        let* _ := console_error "Invalid webhook signature" LogNothing in
        ret false
      else
        let* payload := pure (settled (JSON_parse h body)) in
        if negb (verifyWebhookTimestamp payload) then
          let* _ := console_error "Webhook timestamp is too old" LogNothing in
          ret false
        else ret true
  end.

End WithHost.

End Webhook.

(* ------------------------------------------------------------------ *)
(** ** [src/utils/agent-utils.ts] *)
(* ------------------------------------------------------------------ *)

Module AgentUtils.

Definition required : list string :=
  [ "LINEAR_WEBHOOK_SECRET";
    "MANAGER_API_KEY";
    "BUG_API_KEY";
    "FEATURE_API_KEY";
    "IMPROVEMENT_API_KEY" ].

(** An object literal whose property values may be [undefined]. *)
Definition object_of_optional (props : list (string * option string)) : gmap string string :=
  list_to_map (omap (fun kv => match snd kv with
                               | Some v => Some (fst kv, v)
                               | None => None
                               end) props).

(** [validateEnv(env)]: the environment read by the two entry points
    is the object it returns. *)
Definition validateEnv (env : gmap string string) : M (gmap string string) :=
  let missing := List.filter (fun key => negb (truthy (env !! key))) required in
  if (0 <? Z.of_nat (List.length missing)) then
    throw (Error ("Missing required environment variables: " +:+ String.concat ", " missing))
  else
    ret (object_of_optional
           [ ("upstashRedisUrl", env !! "UPSTASH_REDIS_URL");
             ("upstashRedisToken", env !! "UPSTASH_REDIS_TOKEN");
             ("linearWebhookSecret", env !! "LINEAR_WEBHOOK_SECRET");
             ("managerApiKey", env !! "MANAGER_API_KEY");
             ("bugApiKey", env !! "BUG_API_KEY");
             ("featureApiKey", env !! "FEATURE_API_KEY");
             ("improvementApiKey", env !! "IMPROVEMENT_API_KEY") ]).

(** [initializeLinearClient(apiKey, role)]; the constructor of
    [LinearClient] keeps the key and does not throw on a non-empty one. *)
Definition initializeLinearClient (apiKey : option string) (role : string)
  : M Types.LinearClient :=
  match apiKey with
  | None => throw (Error ("Missing API key for " +:+ role +:+ " role"))
  | Some key =>
      if (key =? "")%string then throw (Error ("Missing API key for " +:+ role +:+ " role"))
      else ret (Types.mk_client key)
  end.

End AgentUtils.

(** What both entry points compute from [payload.data.labels]:
    [labels?.nodes?.[0]?.name || ""] and its lower-case form. *)
Module Label.

Definition firstLabel (labels : option Types.label_connection) : string :=
  or_else (optional (optional (optional labels Types.nodes) head) Types.name) "".

Definition issueLabel (labels : option Types.label_connection) : string :=
  toLowerCase (firstLabel labels).

Definition error_notice : string :=
  "An error occurred while processing this issue. The team has been notified.".

(** The body of the comment [createCommentTool(client, "Manager Bot")]
    posts for that notice. *)
Definition notice_body : string := "[Manager Bot] " +:+ error_notice.

End Label.

(* ------------------------------------------------------------------ *)
(** ** [src/api/webhook.ts] *)
(* ------------------------------------------------------------------ *)

Module Api.

(** A [Request]: its text and its headers, by lower-case name. *)
Record Request : Type := mk_request {
  req_text : string;
  req_headers : gmap string string
}.

(** A [Response] with a JSON object of string fields as body (the
    [Content-Type] header is the same on all of them). *)
Record Response : Type := mk_response {
  status : Z;
  json : list (string * string)
}.

(** [a || b] for two string-or-undefined values. *)
Definition or_undefined (a b : option string) : option string :=
  if truthy a then a else b.

(** Lines 25 to 29: the three headers of the webhook, [""] when absent. *)
Definition request_headers (req : Request) : Webhook.WebhookHeaders :=
  Webhook.mk_headers
    (or_else (req_headers req !! "linear-delivery") "")
    (or_else (req_headers req !! "linear-event") "")
    (or_else (req_headers req !! "linear-signature") "").

(** Lines 31 to 34:
    [x-forwarded-for?.split(",")[0].trim() || x-real-ip || "0.0.0.0"]. *)
Definition request_ip (req : Request) : string :=
  or_else
    (or_undefined
       (option_map (fun v => trim (split_comma_first v))
          (req_headers req !! "x-forwarded-for"))
       (req_headers req !! "x-real-ip"))
    "0.0.0.0".

Section WithHost.
Context (h : host).

(** Lines 199 to 230: the task is run; on an error a comment is
    attempted through the manager's client and the error of the task is
    thrown again. *)
Definition dispatch (managerClient : Types.LinearClient) (issueId : string)
    (prompt : Types.task_prompt) : M Response :=
  try_catch
    (let* text := call (TaskRun prompt) (task_run h prompt) in
     ret (mk_response 200
            [ ("message", "Issue processed successfully"); ("taskResult", text) ]))
    (fun taskError =>
       let* _ := console_error "Task execution error:" (LogError taskError) in
       let* _ :=
         try_catch
           (let* _ := Tools.createCommentTool h managerClient "Manager Bot" issueId
                        Label.error_notice in
            ret tt)
           (fun commentError =>
              console_error "Failed to comment error on issue:" (LogError commentError)) in
       throw taskError).

(** The request handler, with the statement of the branch
    [if (!issueId)] left open. *)
Definition handler_with (missing_id : M Response) (env : gmap string string)
    (req : Request) : M Response :=
  try_catch
    (let body := req_text req in
     let headers := request_headers req in
     let ip := request_ip req in
     let* valid := Webhook.validateWebhookRequest h headers body ip
                     (env !! "linearWebhookSecret") in
     if negb valid then
       ret (mk_response 401
              [ ("error", "Invalid webhook request");
                ("details", "Failed to validate webhook signature or request") ])
     else
       let* payload := pure (settled (JSON_parse h body)) in
       if negb (Webhook.isIssueCreationEvent payload)
          && negb (Webhook.isIssueLabelUpdateEvent payload) then
         ret (mk_response 200
                [ ("message", "Event ignored"); ("details", "Event type not supported") ])
       else
         match Types.data payload with
         | None =>
             throw (TypeError
               "Cannot destructure property 'id' of 'payload.data' as it is undefined.")
         | Some d =>
             if negb (truthy (Types.id d)) then missing_id
             else
               let issueId := interpolate (Types.id d) in
               let* managerClient :=
                 AgentUtils.initializeLinearClient (env !! "managerLinearApiKey") "manager" in
               let* bugClient :=
                 AgentUtils.initializeLinearClient (env !! "bugLinearApiKey") "bug" in
               let* featureClient :=
                 AgentUtils.initializeLinearClient (env !! "featureLinearApiKey") "feature" in
               let* improvementClient :=
                 AgentUtils.initializeLinearClient (env !! "improvementLinearApiKey")
                   "improvement" in
               let issueLabel := Label.issueLabel (Types.labels d) in
               let prompt :=
                 Types.mk_prompt issueId (interpolate (Types.title d))
                   (interpolate (Types.description d)) issueLabel in
               dispatch managerClient issueId prompt
         end)
    (fun error =>
       let* _ := console_error "Error processing webhook:" (LogError error) in
       ret (mk_response 500
              [ ("error", "Error processing webhook");
                ("details", error_message error);
                ("type", error_name error) ])).

Definition handler (env : gmap string string) (req : Request) : M Response :=
  handler_with (throw (Error "Invalid payload: missing issue ID")) env req.

(** [POST]: the environment is validated, then the request is handled. *)
Definition POST (context_env : gmap string string) (req : Request) : M Response :=
  let* env := AgentUtils.validateEnv context_env in
  handler env req.

End WithHost.

End Api.

(* ------------------------------------------------------------------ *)
(** ** [src/index.ts] *)
(* ------------------------------------------------------------------ *)

Module Index.

Record WebhookRequest : Type := mk_request {
  headers : gmap string string;
  body : string
}.

Record ValidationResult : Type := mk_validation {
  status : string;
  message : option string;
  payload : option Types.LinearWebhookPayload
}.

(** What the workflow returns: the validation result of an ignored
    event, or [{ message, result }]. *)
Inductive served : Type :=
| Validation (v : ValidationResult)
| Processed (message result : string).

(** Lines 44 to 48: the three headers of the webhook, [""] when absent. *)
Definition request_headers (request : WebhookRequest) : Webhook.WebhookHeaders :=
  Webhook.mk_headers
    (or_else (headers request !! "linear-delivery") "")
    (or_else (headers request !! "linear-event") "")
    (or_else (headers request !! "linear-signature") "").

(** Line 50: [request.headers["cf-connecting-ip"] || "0.0.0.0"]. *)
Definition request_ip (request : WebhookRequest) : string :=
  or_else (headers request !! "cf-connecting-ip") "0.0.0.0".

Section WithHost.
Context (h : host).

(** The step [validate-webhook]. *)
Definition validate_webhook (headers : Webhook.WebhookHeaders) (body ip : string)
    (env : gmap string string) : M ValidationResult :=
  let* valid := Webhook.validateWebhookRequest h headers body ip
                  (env !! "linearWebhookSecret") in
  if negb valid then throw (Error "Invalid webhook request")
  else
    let* payload := pure (settled (JSON_parse h body)) in
    if negb (Webhook.isIssueCreationEvent payload || Webhook.isIssueLabelUpdateEvent payload)
    then ret (mk_validation "ignored" (Some "Event type not supported") None)
    else ret (mk_validation "valid" None (Some payload)).

(** The step [initialize-clients]; the result is the manager's client
    (the other three clients only reach the agents' tools). *)
Definition initialize_clients (env : gmap string string) : M Types.LinearClient :=
  let* manager := AgentUtils.initializeLinearClient (env !! "managerApiKey") "manager" in
  let* bug := AgentUtils.initializeLinearClient (env !! "bugApiKey") "bug" in
  let* feature := AgentUtils.initializeLinearClient (env !! "featureApiKey") "feature" in
  let* improvement :=
    AgentUtils.initializeLinearClient (env !! "improvementApiKey") "improvement" in
  ret manager.

(** The step [process-issue], lines 206 to 217. *)
Definition process_issue (manager : Types.LinearClient) (issueId : string)
    (prompt : Types.task_prompt) : M string :=
  try_catch
    (call (TaskRun prompt) (task_run h prompt))
    (fun error =>
       let* _ := Tools.createCommentTool h manager "Manager Bot" issueId
                   Label.error_notice in
       throw error).

(** The workflow, with the statement of the branch [if (!issueId)] left
    open.  [context.run(name, step)] runs [step]. *)
Definition serve_with (missing_id : M served) (context_env : gmap string string)
    (request : WebhookRequest) : M served :=
  let* env := AgentUtils.validateEnv context_env in
  let headers' := request_headers request in
  let body' := body request in
  let ip := request_ip request in
  let* validationResult := validate_webhook headers' body' ip env in
  if (status validationResult =? "ignored")%string then ret (Validation validationResult)
  else
    match payload validationResult with
    | None => throw (Error "Validation succeeded but no payload was returned")
    | Some payload =>
        match Types.data payload with
        | None =>
            throw (TypeError
              "Cannot destructure property 'id' of 'payload.data' as it is undefined.")
        | Some d =>
            if negb (truthy (Types.id d)) then missing_id
            else
              let issueId := interpolate (Types.id d) in
              let* manager := initialize_clients env in
              let issueLabel := Label.issueLabel (Types.labels d) in
              let prompt :=
                Types.mk_prompt issueId (interpolate (Types.title d))
                  (interpolate (Types.description d)) issueLabel in
              let* text := process_issue manager issueId prompt in
              ret (Processed "Issue processed successfully" text)
        end
    end.

Definition serve (context_env : gmap string string) (request : WebhookRequest) : M served :=
  serve_with (throw (Error "Invalid payload: missing issue ID")) context_env request.

End WithHost.

End Index.

(* ------------------------------------------------------------------ *)
(** ** The tables of the specification, section 4.4 *)
(* ------------------------------------------------------------------ *)

(** These definitions follow the words of the specification, not the
    sources: its levels and its three literal matrices.  They are what
    the tools of [AgentTools] are compared with. *)
Module Spec.

Inductive level : Type := critical | high | medium | low.
Inductive effort : Type := small | medium_effort | large | xlarge.
Inductive risk : Type := low_risk | medium_risk | high_risk.

Definition level_name (l : level) : string :=
  match l with
  | critical => "critical"
  | high => "high"
  | medium => "medium"
  | low => "low"
  end.

Definition effort_name (e : effort) : string :=
  match e with
  | small => "small"
  | medium_effort => "medium"
  | large => "large"
  | xlarge => "xlarge"
  end.

Definition risk_name (r : risk) : string :=
  match r with
  | low_risk => "low"
  | medium_risk => "medium"
  | high_risk => "high"
  end.

(** Bug: rows impact, columns urgency (critical, high, medium, low). *)
Definition bug_matrix (impact urgency : level) : Z :=
  match impact, urgency with
  | critical, critical => 1 | critical, high => 1 | critical, medium => 2 | critical, low => 2
  | high, critical => 1     | high, high => 2     | high, medium => 2     | high, low => 3
  | medium, critical => 2   | medium, high => 2   | medium, medium => 3   | medium, low => 3
  | low, critical => 2      | low, high => 3      | low, medium => 3      | low, low => 4
  end.

(** Feature: rows value, columns effort (small, medium, large, xlarge). *)
Definition feature_matrix (value : level) (e : effort) : Z :=
  match value, e with
  | critical, small => 1 | critical, medium_effort => 1 | critical, large => 2 | critical, xlarge => 2
  | high, small => 1     | high, medium_effort => 2     | high, large => 2     | high, xlarge => 3
  | medium, small => 2   | medium, medium_effort => 2   | medium, large => 3   | medium, xlarge => 3
  | low, small => 3      | low, medium_effort => 3      | low, large => 4      | low, xlarge => 4
  end.

(** Improvement: rows impact, columns risk (low, medium, high). *)
Definition improvement_matrix (impact : level) (r : risk) : Z :=
  match impact, r with
  | critical, low_risk => 1 | critical, medium_risk => 1 | critical, high_risk => 2
  | high, low_risk => 1     | high, medium_risk => 2     | high, high_risk => 3
  | medium, low_risk => 2   | medium, medium_risk => 3   | medium, high_risk => 3
  | low, low_risk => 3      | low, medium_risk => 3      | low, high_risk => 4
  end.

(** The position of a level, from the most to the least pressing. *)
Definition rank (l : level) : Z :=
  match l with
  | critical => 0
  | high => 1
  | medium => 2
  | low => 3
  end.

(** Section 4.2: a field is non-empty. *)
Definition non_empty (v : option string) : Prop :=
  exists s, v = Some s /\ s <> "".

(** Section 4.2, the predicate "issue created". *)
Definition issue_created (p : Types.LinearWebhookPayload) : Prop :=
  Types.type p = "Issue" /\ Types.action p = "create"
  /\ exists d, Types.data p = Some d
               /\ non_empty (Types.id d) /\ non_empty (Types.title d).

(** Section 4.2, the predicate "issue label updated": the field
    [updatedFrom.labelIds] is present or the collection
    [data.labels.nodes] is present. *)
Definition issue_label_updated (p : Types.LinearWebhookPayload) : Prop :=
  Types.type p = "Issue" /\ Types.action p = "update"
  /\ exists d, Types.data p = Some d
               /\ non_empty (Types.id d)
               /\ ((exists u ids, Types.updatedFrom p = Some u /\ Types.labelIds u = Some ids)
                   \/ (exists l ns, Types.labels d = Some l /\ Types.nodes l = Some ns)).




End Spec.

(* ------------------------------------------------------------------ *)
(** ** Hosts and requests to run the program on *)
(* ------------------------------------------------------------------ *)

Module Sample.

Definition issue (label : string) : Types.issue_data :=
  Types.mk_data (Some "ISS-1") (Some "Crash on save") (Some "The editor crashes.")
    (Some (Types.mk_labels (Some [ Types.mk_label_node (Some label) ]))).

Definition created (label : string) : Types.LinearWebhookPayload :=
  Types.mk_payload "create" "Issue" (Some (issue label)) None (Some 1700000000000).

Definition comment_created : Types.LinearWebhookPayload :=
  Types.mk_payload "create" "Comment" None None (Some 1700000000000).

(** Request bodies are named, and parsed by name; any other body is
    not JSON. *)
Definition parse (body : string) : completion Types.LinearWebhookPayload :=
  if (body =? "issue-created-Bug")%string then Gives (created "Bug")
  else if (body =? "issue-created-urgent")%string then Gives (created "urgent")
  else if (body =? "comment-created")%string then Gives comment_created
  else Fails (SyntaxError "Unexpected token in JSON at position 0").

(** A keyed digest standing for the HMAC. *)
Definition digest (secret payload : string) : string :=
  "hmac:" +:+ secret +:+ ":" +:+ payload.

(** A host on which every call succeeds, at the time [now]. *)
Definition host_at (now : Z) : host :=
  mk_host digest parse now
    (fun _ _ => Gives true)
    (fun _ _ _ => Gives tt)
    (fun _ _ _ => Gives tt)
    (fun _ => Gives "Analysis complete").

(** The same, 30 seconds after the events were sent. *)
Definition host_ok : host := host_at 1700000030000.

(** The task fails. *)
Definition host_task_fails : host :=
  mk_host digest parse 1700000030000
    (fun _ _ => Gives true)
    (fun _ _ _ => Gives tt)
    (fun _ _ _ => Gives tt)
    (fun _ => Fails (Error "task failed")).

(** The task fails and so does the comment that reports it. *)
Definition host_task_and_comment_fail : host :=
  mk_host digest parse 1700000030000
    (fun _ _ => Gives true)
    (fun _ _ _ => Gives tt)
    (fun _ _ _ => Fails (Error "comment failed"))
    (fun _ => Fails (Error "task failed")).

Definition secret : string := "s3cret".

Definition process_env : gmap string string :=
  object
    [ ("LINEAR_WEBHOOK_SECRET", secret);
      ("MANAGER_API_KEY", "key-manager");
      ("BUG_API_KEY", "key-bug");
      ("FEATURE_API_KEY", "key-feature");
      ("IMPROVEMENT_API_KEY", "key-improvement") ].

(** A signed request from an allowed address, for each entry point. *)
Definition api_request (body : string) : Api.Request :=
  Api.mk_request body
    (object
       [ ("linear-delivery", "d-1");
         ("linear-event", "Issue");
         ("linear-signature", digest secret body);
         ("x-forwarded-for", " 35.231.147.226 , 10.0.0.1") ]).

Definition index_request (body : string) : Index.WebhookRequest :=
  Index.mk_request
    (object
       [ ("linear-delivery", "d-1");
         ("linear-event", "Issue");
         ("linear-signature", digest secret body);
         ("cf-connecting-ip", "35.231.147.226") ])
    body.

Definition manager : Types.LinearClient := Types.mk_client "key-manager".

(** The environment object of the entry points for [process_env]. *)
Definition env : gmap string string :=
  result_value (AgentUtils.validateEnv process_env) ∅.

(** The answers of [src/api/webhook.ts] to an ignored event and to an
    error. *)
Definition ignored_response : Api.Response :=
  Api.mk_response 200
    [ ("message", "Event ignored"); ("details", "Event type not supported") ].

Definition error_response (e : js_error) : Api.Response :=
  Api.mk_response 500
    [ ("error", "Error processing webhook");
      ("details", error_message e);
      ("type", error_name e) ].

End Sample.

(* ------------------------------------------------------------------ *)
(** ** More of the sources: strings, keys of the agents, analyses *)
(* ------------------------------------------------------------------ *)

(** String and array methods the analyses use. *)
Module Text.

(** [s.includes(sub)] *)
Fixpoint includes (s sub : string) : bool :=
  String.prefix sub s
  || match s with
     | EmptyString => false
     | String _ rest => includes rest sub
     end.

(** [xs.includes(x)] on an array of strings. *)
Definition array_includes (xs : list string) (x : string) : bool :=
  existsb (String.eqb x) xs.

Definition is_lower (c : ascii) : bool :=
  let n := nat_of_ascii c in (97 <=? n)%nat && (n <=? 122)%nat.

Definition upper_char (c : ascii) : ascii :=
  if is_lower c then ascii_of_nat (nat_of_ascii c - 32) else c.

(** [s.charAt(0).toUpperCase() + s.slice(1)], on the letters a to z. *)
Definition capitalize (s : string) : string :=
  match s with
  | EmptyString => EmptyString
  | String c rest => String (upper_char c) rest
  end.

(** [b ? [x] : []], the effect of a guarded [push] on an array under
    construction. *)
Definition pushed (b : bool) (xs : list string) : list string :=
  if b then xs else [].

End Text.

(** [src/utils/agent-utils.ts], lines 228 to 243. *)
Module AgentKeys.

Definition Bug : string := "bug".
Definition Feature : string := "feature".
Definition Improvement : string := "improvement".


End AgentKeys.

(** [src/utils/agent-tools.ts]: the analyses of the three agents, that
    is the object [analysis] and the array [recommendations] their tools
    [analyzeBug], [analyzeFeature] and [analyzeImprovement] compute
    from the arguments, with the helper functions of the file.  The
    calls to the issue tracker around them are not part of these
    definitions. *)
Module Analysis.

Import Text.

(** *** Bug *)

(** [extractImpactedAreas(description)] *)
Definition extractImpactedAreas (description : string) : list string :=
  let lowerDesc := toLowerCase description in
  pushed (includes lowerDesc "api" || includes lowerDesc "endpoint") [ "api" ]
  ++ pushed (includes lowerDesc "database" || includes lowerDesc "data") [ "database" ]
  ++ pushed (includes lowerDesc "ui" || includes lowerDesc "interface") [ "ui" ]
  ++ pushed (includes lowerDesc "auth" || includes lowerDesc "login") [ "authentication" ]
  ++ pushed (includes lowerDesc "integration") [ "integrations" ]
  ++ pushed (includes lowerDesc "workflow" || includes lowerDesc "process") [ "workflows" ].

Record BugAnalysis : Type := mk_bug {
  bug_type : string;
  severity : string;
  hasStackTrace : bool;
  hasEnvironmentInfo : bool;
  bug_impactedAreas : list string
}.

(** [generateRecommendations(analysis)] *)
Definition generateRecommendations (analysis : BugAnalysis) : list string :=
  pushed (bug_type analysis =? "crash")%string
    [ "Gather crash reports and logs"; "Check for recent deployments or changes" ]
  ++ pushed (bug_type analysis =? "security")%string
       [ "Assess potential data exposure"; "Review authentication/authorization flows" ]
  ++ pushed (bug_type analysis =? "performance")%string
       [ "Collect performance metrics"; "Review resource utilization" ]
  ++ pushed (array_includes (bug_impactedAreas analysis) "api")
       [ "Review API logs and error rates" ]
  ++ pushed (array_includes (bug_impactedAreas analysis) "database")
       [ "Check database performance and queries" ].

(** The object [analysis] of [analyzeBug]. *)
Definition analyzeBug_analysis (description : string) (stackTrace environment : option string)
  : BugAnalysis :=
  mk_bug
    (if includes (toLowerCase description) "crash" then "crash"
     else if includes (toLowerCase description) "security" then "security"
     else if includes (toLowerCase description) "performance" then "performance"
     else "functional")
    (if includes (toLowerCase description) "critical" then "critical"
     else if includes (toLowerCase description) "high" then "high"
     else if includes (toLowerCase description) "medium" then "medium"
     else "low")
    (truthy stackTrace)
    (truthy environment)
    (extractImpactedAreas description).

(** The array [recommendations] of [analyzeBug]. *)
Definition analyzeBug_recommendations (analysis : BugAnalysis) : list string :=
  [ if hasStackTrace analysis then "Stack trace provided for debugging"
    else "Request stack trace if reproducible";
    if hasEnvironmentInfo analysis then "Environment info available"
    else "Request environment details" ]
  ++ generateRecommendations analysis.

(** *** Feature *)

(** [extractFeatureImpact(description)] *)
Definition extractFeatureImpact (description : string) : list string :=
  let lowerDesc := toLowerCase description in
  pushed (includes lowerDesc "performance" || includes lowerDesc "speed") [ "performance" ]
  ++ pushed (includes lowerDesc "memory" || includes lowerDesc "resource") [ "resource-usage" ]
  ++ pushed (includes lowerDesc "maintainability" || includes lowerDesc "code quality")
       [ "maintainability" ]
  ++ pushed (includes lowerDesc "security" || includes lowerDesc "vulnerability")
       [ "security" ]
  ++ pushed (includes lowerDesc "scalability" || includes lowerDesc "scale")
       [ "scalability" ]
  ++ pushed (includes lowerDesc "reliability" || includes lowerDesc "stability")
       [ "reliability" ].

Record FeatureAnalysis : Type := mk_feature {
  feature_type : string;
  feature_scope : string;
  hasUserStory : bool;
  hasAcceptanceCriteria : bool;
  feature_impactedAreas : list string
}.

(** [generateFeatureRecommendations(analysis)] *)
Definition generateFeatureRecommendations (analysis : FeatureAnalysis) : list string :=
  pushed (feature_type analysis =? "integration")%string
    [ "Document integration requirements"; "Define data exchange formats" ]
  ++ pushed (feature_type analysis =? "optimization")%string
       [ "Define performance metrics"; "Set optimization targets" ]
  ++ pushed (array_includes (feature_impactedAreas analysis) "api")
       [ "Design API endpoints"; "Document API changes" ]
  ++ pushed (array_includes (feature_impactedAreas analysis) "ui/ux")
       [ "Create wireframes/mockups"; "Plan user testing" ]
  ++ pushed (array_includes (feature_impactedAreas analysis) "database")
       [ "Design data schema changes"; "Plan data migration if needed" ].

(** The object [analysis] of [analyzeFeature]. *)
Definition analyzeFeature_analysis (description : string) (userStory : option string)
    (acceptanceCriteria : option (list string)) : FeatureAnalysis :=
  mk_feature
    (if includes (toLowerCase description) "enhancement" then "enhancement"
     else if includes (toLowerCase description) "integration" then "integration"
     else if includes (toLowerCase description) "optimization" then "optimization"
     else "new-feature")
    (if includes (toLowerCase description) "core" then "core"
     else if includes (toLowerCase description) "api" then "api"
     else if includes (toLowerCase description) "ui" then "ui"
     else "general")
    (truthy userStory)
    (match acceptanceCriteria with
     | Some criteria => (0 <? Z.of_nat (List.length criteria))
     | None => false
     end)
    (extractFeatureImpact description).

(** The array [recommendations] of [analyzeFeature]. *)
Definition analyzeFeature_recommendations (analysis : FeatureAnalysis) : list string :=
  [ if hasUserStory analysis then "User story provided" else "Define clear user story";
    if hasAcceptanceCriteria analysis then "Acceptance criteria defined"
    else "Define acceptance criteria" ]
  ++ generateFeatureRecommendations analysis.

(** *** Improvement *)

(** [extractImprovementAreas(description)] *)
Definition extractImprovementAreas (description : string) : list string :=
  let lowerDesc := toLowerCase description in
  pushed (includes lowerDesc "performance" || includes lowerDesc "speed") [ "performance" ]
  ++ pushed (includes lowerDesc "memory" || includes lowerDesc "resource") [ "resource-usage" ]
  ++ pushed (includes lowerDesc "maintainability" || includes lowerDesc "code quality")
       [ "maintainability" ]
  ++ pushed (includes lowerDesc "security" || includes lowerDesc "vulnerability")
       [ "security" ]
  ++ pushed (includes lowerDesc "scalability" || includes lowerDesc "scale")
       [ "scalability" ]
  ++ pushed (includes lowerDesc "reliability" || includes lowerDesc "stability")
       [ "reliability" ].

Record ImprovementAnalysis : Type := mk_improvement {
  improvement_type : string;
  improvement_scope : string;
  hasCurrentMetrics : bool;
  hasTargetMetrics : bool;
  improvement_impactedAreas : list string
}.

(** [generateImprovementRecommendations(analysis)] *)
Definition generateImprovementRecommendations (analysis : ImprovementAnalysis)
  : list string :=
  pushed (improvement_type analysis =? "performance")%string
    [ "Profile current performance bottlenecks"; "Set up performance monitoring" ]
  ++ pushed (improvement_type analysis =? "security")%string
       [ "Conduct security audit"; "Review security best practices" ]
  ++ pushed (improvement_type analysis =? "maintainability")%string
       [ "Review code complexity metrics"; "Identify refactoring opportunities" ]
  ++ pushed (array_includes (improvement_impactedAreas analysis) "resource-usage")
       [ "Monitor resource utilization"; "Identify optimization opportunities" ]
  ++ pushed (array_includes (improvement_impactedAreas analysis) "scalability")
       [ "Review scaling bottlenecks"; "Plan capacity improvements" ].

(** The object [analysis] of [analyzeImprovement]; of the two records
    of metrics only their presence is used. *)
Definition analyzeImprovement_analysis {A : Type} (description : string)
    (currentMetrics targetMetrics : option A) : ImprovementAnalysis :=
  mk_improvement
    (if includes (toLowerCase description) "performance" then "performance"
     else if includes (toLowerCase description) "security" then "security"
     else if includes (toLowerCase description) "maintainability" then "maintainability"
     else "technical-debt")
    (if includes (toLowerCase description) "system-wide" then "system-wide"
     else if includes (toLowerCase description) "component" then "component"
     else "localized")
    (Webhook.defined currentMetrics)
    (Webhook.defined targetMetrics)
    (extractImprovementAreas description).

(** The array [recommendations] of [analyzeImprovement]. *)
Definition analyzeImprovement_recommendations (analysis : ImprovementAnalysis)
  : list string :=
  [ if hasCurrentMetrics analysis then "Current metrics provided"
    else "Define current performance metrics";
    if hasTargetMetrics analysis then "Target metrics defined"
    else "Set target performance goals" ]
  ++ generateImprovementRecommendations analysis.

End Analysis.

(** [src/utils/tools.ts], lines 63 to 171:
    [createRequirementsAnalysisTool().invoke({ description, type })]. *)
Module Requirements.

Import Text.

Record Aspects : Type := mk_aspects {
  sections : list string;
  metrics : list (string * list string)
}.

Definition defaultBugSections : list string :=
  [ "Root Cause Analysis";
    "Impact Assessment";
    "Reproduction Steps";
    "Potential Fixes";
    "Testing Requirements";
    "Dependencies Affected" ].

Definition aspects (descriptionLower : string) : gmap string Aspects :=
  object
    [ ("bug",
       mk_aspects
         (if includes descriptionLower "critical"
          then [ "Immediate Impact Analysis";
                 "Emergency Response Steps";
                 "Critical Path Resolution" ] ++ defaultBugSections
          else defaultBugSections)
         [ ("severity", [ "low"; "medium"; "high"; "critical" ]);
           ("scope", [ "isolated"; "component"; "system-wide" ]);
           ("reproducibility", [ "always"; "intermittent"; "rare" ]) ]);
      ("feature",
       mk_aspects
         [ "Business Requirements";
           "Technical Requirements";
           "User Experience";
           "Implementation Approach";
           "Integration Points";
           "Testing Strategy";
           "Performance Considerations";
           "Security Implications" ]
         [ ("complexity", [ "low"; "medium"; "high" ]);
           ("impact", [ "minimal"; "moderate"; "significant" ]);
           ("userValue", [ "low"; "medium"; "high" ]) ]);
      ("improvement",
       mk_aspects
         [ "Current State Analysis";
           "Pain Points";
           "Proposed Changes";
           "Expected Benefits";
           "Migration Strategy";
           "Rollback Plan";
           "Performance Impact" ]
         [ ("effort", [ "small"; "medium"; "large" ]);
           ("risk", [ "low"; "medium"; "high" ]);
           ("technicalDebt", [ "reduces"; "neutral"; "increases" ]) ]) ].

Definition effortMatrix : gmap string (gmap string string) :=
  object
    [ ("high",
       object [ ("bug", "3-5 days"); ("feature", "2-3 weeks"); ("improvement", "1-2 weeks") ]);
      ("medium",
       object [ ("bug", "1-2 days"); ("feature", "1-2 weeks"); ("improvement", "3-5 days") ]);
      ("low",
       object [ ("bug", "4-8 hours"); ("feature", "2-3 days"); ("improvement", "1-2 days") ]) ].

(** [typeAspects.sections.length > 6 ? "high" : ... > 4 ? "medium" : "low"] *)
Definition complexity_of (typeAspects : Aspects) : string :=
  if (6 <? Z.of_nat (List.length (sections typeAspects))) then "high"
  else if (4 <? Z.of_nat (List.length (sections typeAspects))) then "medium"
  else "low".

Record RequirementsAnalysisResult : Type := mk_result {
  analysis : string;
  complexity : string;
  estimatedEffort : option string;
  result_metrics : list (string * list string)
}.

(** The tool's [invoke].  [aspects[type]] of a type that is no key of
    [aspects] is [undefined], and reading its [sections] throws. *)
Definition invoke (description type : string) : outcome RequirementsAnalysisResult :=
  let descriptionLower := toLowerCase description in
  match get_property (aspects descriptionLower) type with
  | Own typeAspects =>
      let analysisPoints :=
        String.concat (LF +:+ LF)
          (List.map (fun section => "### " +:+ section +:+ LF +:+ "- Needs detailed assessment")
             (sections typeAspects)) in
      let complexity := complexity_of typeAspects in
      match get_property effortMatrix complexity with
      | Own row =>
          match get_property row type with
          | Own effort =>
              Returned
                (mk_result
                   ("# " +:+ capitalize type +:+ " Analysis" +:+ LF +:+ LF +:+ analysisPoints)
                   complexity (Some effort) (metrics typeAspects))
          | Inherited => HostDefined
          | Absent =>
              Returned
                (mk_result
                   ("# " +:+ capitalize type +:+ " Analysis" +:+ LF +:+ LF +:+ analysisPoints)
                   complexity None (metrics typeAspects))
          end
      | Inherited => HostDefined
      | Absent =>
          Thrown (TypeError
            ("Cannot read properties of undefined (reading '" +:+ type +:+ "')"))
      end
  | Inherited => HostDefined
  | Absent =>
      Thrown (TypeError "Cannot read properties of undefined (reading 'sections')")
  end.

End Requirements.

(** [src/utils/tools.ts], lines 401 to 476:
    [createDependencyAnalysisTool().invoke({ packageJson, type })]. *)
Module Dependencies.

Import Text.

(** What [JSON.parse(packageJson)] gives for the text of a
    [package.json]: an object whose [dependencies] and
    [devDependencies], when present, are objects from package names to
    version strings.  The entries of each are in the order
    [Object.entries] lists them. *)
Record Package : Type := mk_package {
  pkg_dependencies : option (list (string * string));
  pkg_devDependencies : option (list (string * string))
}.

(** [o || {}] on an object or [undefined]. *)
Definition or_empty (o : option (list (string * string))) : list (string * string) :=
  match o with
  | Some entries => entries
  | None => []
  end.

(** [{ ...a, ...b }]: the names of [a] in their order, with the value
    [b] gives them if it has one, then the names only [b] has. *)
Definition spread (a b : list (string * string)) : list (string * string) :=
  (List.map (fun kv => (fst kv, match assoc (fst kv) b with
                                | Some v => v
                                | None => snd kv
                                end)) a
   ++ List.filter (fun kv => negb (array_includes (List.map fst a) (fst kv))) b)%list.

(** What one pass of the loop pushes to [results.recommendations]. *)
Definition entry_recommendations (dep versionStr : string) : list string :=
  pushed (String.prefix "^" versionStr || String.prefix "~" versionStr)
    [ "Consider pinning " +:+ dep +:+ " to exact version for better stability" ]
  ++ pushed (includes versionStr "alpha" || includes versionStr "beta")
       [ dep +:+ " is using a pre-release version. Consider using stable release" ].

(** What one pass of the loop pushes to [results.security]. *)
Definition entry_security (dep versionStr : string) : list string :=
  pushed ((versionStr =? "*")%string || (versionStr =? "latest")%string)
    [ dep +:+ " uses an unpinned version, which is a security risk" ].

Record Metrics : Type := mk_metrics {
  total : Z;
  directDeps : Z;
  devDeps : Z
}.

Record DependencyAnalysisResult : Type := mk_result {
  outdated : list string;
  security : list string;
  recommendations : list string;
  metrics : Metrics;
  summary : string
}.

(** The tool's [invoke], on what [JSON.parse(packageJson)] gives.
    [dependencies[type]] of a type that is no key of [dependencies] is
    [undefined], and [Object.keys] throws on it. *)
Definition invoke (parsed : completion Package) (type : string)
  : outcome DependencyAnalysisResult :=
  match parsed with
  | Fails e => Thrown e
  | Gives pkg =>
      let dependencies : gmap string (list (string * string)) :=
        object
          [ ("direct", or_empty (pkg_dependencies pkg));
            ("dev", or_empty (pkg_devDependencies pkg));
            ("all", spread (or_empty (pkg_dependencies pkg))
                      (or_empty (pkg_devDependencies pkg))) ] in
      match get_property dependencies type with
      | Own depsToAnalyze =>
          let metrics :=
            mk_metrics (Z.of_nat (List.length depsToAnalyze))
              (Z.of_nat (List.length (or_empty (pkg_dependencies pkg))))
              (Z.of_nat (List.length (or_empty (pkg_devDependencies pkg)))) in
          let security :=
            List.flat_map (fun kv => entry_security (fst kv) (snd kv)) depsToAnalyze in
          let recommendations :=
            (List.flat_map (fun kv => entry_recommendations (fst kv) (snd kv)) depsToAnalyze
             ++ pushed (50 <? total metrics)
                  [ "Consider auditing dependencies to reduce bundle size" ]
             ++ pushed (directDeps metrics * 2 <? devDeps metrics)
                  [ "Large number of dev dependencies. Consider consolidating development tools" ])%list in
          Returned
            (mk_result [] security recommendations metrics
               ("Analyzed " +:+ string_of_Z (total metrics) +:+ " dependencies:" +:+ LF
                +:+ "- Direct dependencies: " +:+ string_of_Z (directDeps metrics) +:+ LF
                +:+ "- Dev dependencies: " +:+ string_of_Z (devDeps metrics) +:+ LF
                +:+ "- Security concerns: "
                +:+ string_of_Z (Z.of_nat (List.length security)) +:+ LF
                +:+ "- Recommendations: "
                +:+ string_of_Z (Z.of_nat (List.length recommendations))))
      | Inherited => HostDefined
      | Absent => Thrown (TypeError "Cannot convert undefined or null to object")
      end
  end.


End Dependencies.

(** What a run did and how it ended, for the statements of Part II. *)
Module Observed.

(** The event is a line of console output. *)
Definition is_console (ev : event) : bool :=
  match ev with
  | ConsoleError _ _ => true
  | _ => false
  end.

(** The run wrote to the console at most: it called neither the issue
    tracker nor the agent task. *)
Definition only_console {A : Type} (m : M A) : Prop :=
  forallb is_console (trace m) = true.



(** The run ends by returning a value that satisfies [R] or by throwing
    an error that satisfies [T]. *)
Definition ends {A : Type} (m : M A) (R : A -> Prop) (T : js_error -> Prop) : Prop :=
  match result m with
  | Returned a => R a
  | Thrown e => T e
  | HostDefined => False
  end.

(** The ranks of the efforts and of the risks, from the least to the
    most. *)
Definition effort_rank (e : Spec.effort) : Z :=
  match e with
  | Spec.small => 0
  | Spec.medium_effort => 1
  | Spec.large => 2
  | Spec.xlarge => 3
  end.

Definition risk_rank (r : Spec.risk) : Z :=
  match r with
  | Spec.low_risk => 0
  | Spec.medium_risk => 1
  | Spec.high_risk => 2
  end.

(** The properties of the object literal [validateEnv] returns, for the
    environment [context_env]. *)
Definition env_properties (context_env : gmap string string)
  : list (string * option string) :=
  [ ("upstashRedisUrl", context_env !! "UPSTASH_REDIS_URL");
    ("upstashRedisToken", context_env !! "UPSTASH_REDIS_TOKEN");
    ("linearWebhookSecret", context_env !! "LINEAR_WEBHOOK_SECRET");
    ("managerApiKey", context_env !! "MANAGER_API_KEY");
    ("bugApiKey", context_env !! "BUG_API_KEY");
    ("featureApiKey", context_env !! "FEATURE_API_KEY");
    ("improvementApiKey", context_env !! "IMPROVEMENT_API_KEY") ].

(** The shape of a run of an [updatePriority] tool for [issueId] through
    the client with key [apiKey]: a run that returns has posted one
    comment and has set the priority it reports; a run that throws has
    logged the cause last and throws it wrapped. *)
Definition reported {A : Type} (apiKey issueId : string) (newPriority : A -> Z)
    (run : M A) : Prop :=
  match result run with
  | Returned r =>
      comment_attempts (trace run) = 1%nat
      /\ IssueUpdate apiKey issueId (Some (newPriority r)) ∈ trace run
  | Thrown e =>
      exists cause,
        e = Error ("Failed to update priority: " +:+ error_message cause)
        /\ last (trace run)
           = Some (ConsoleError "Failed to update priority:" (LogError cause))
  | HostDefined => False
  end.

End Observed.

(** More requests and environments to run the program on. *)
Module Cases.

(** A request that names no address. *)
Definition anonymous_request (body : string) : Api.Request :=
  Api.mk_request body
    (object
       [ ("linear-delivery", "d-2");
         ("linear-event", "Issue");
         ("linear-signature", Sample.digest Sample.secret body) ]).

(** A request from an address that is not allowed. *)
Definition foreign_index_request (body : string) : Index.WebhookRequest :=
  Index.mk_request
    (object
       [ ("linear-signature", Sample.digest Sample.secret body);
         ("cf-connecting-ip", "203.0.113.7") ])
    body.

(** An environment without the key of the bug agent. *)
Definition env_without_bug_key : gmap string string :=
  object
    [ ("LINEAR_WEBHOOK_SECRET", Sample.secret);
      ("MANAGER_API_KEY", "key-manager");
      ("BUG_API_KEY", "");
      ("FEATURE_API_KEY", "key-feature") ].

(** A host whose tracker takes the priority and refuses the comment. *)
Definition host_comment_fails : host :=
  mk_host Sample.digest Sample.parse 1700000030000
    (fun _ _ => Gives true)
    (fun _ _ _ => Gives tt)
    (fun _ _ _ => Fails (Error "rate limited"))
    (fun _ => Gives "Analysis complete").

(** A host whose tracker does not know the issue. *)
Definition host_no_issue : host :=
  mk_host Sample.digest Sample.parse 1700000030000
    (fun _ _ => Gives false)
    (fun _ _ _ => Gives tt)
    (fun _ _ _ => Gives tt)
    (fun _ => Gives "Analysis complete").

End Cases.

(* ================================================================== *)
(** * Part II: properties *)
(* ================================================================== *)

(** ** Reading object literals *)

Module TableFacts.

Lemma object_lookup {A : Type} (props : list (string * A)) (k : string) :
  object props !! k = assoc k props.
Proof.
  unfold object.
  induction props as [| [k' v] rest IH]; cbn [assoc].
  - apply lookup_empty.
  - cbn [list_to_map foldr].
    destruct (String.eqb_spec k k') as [-> | Hne].
    + apply lookup_insert_eq.
    + rewrite lookup_insert_ne; [exact IH | intros Heq; apply Hne; symmetry; exact Heq].
Qed.

Lemma list_to_map_lookup {A : Type} (props : list (string * A)) (k : string) :
  (list_to_map props : gmap string A) !! k = assoc k props.
Proof. apply object_lookup. Qed.

Lemma get_property_object {A : Type} (props : list (string * A)) (k : string) :
  get_property (object props) k =
  match assoc k props with
  | Some a => Own a
  | None => if bool_decide (k ∈ Object_prototype_keys) then Inherited else Absent
  end.
Proof. unfold get_property. now rewrite object_lookup. Qed.

Lemma elem_of_existsb (k : string) (l : list string) :
  k ∈ l <-> existsb (String.eqb k) l = true.
Proof.
  rewrite existsb_exists, list_elem_of_In. split.
  - intros Hk. exists k. split; [exact Hk | apply String.eqb_refl].
  - intros (x & Hx & Heq). apply String.eqb_eq in Heq. now subst.
Qed.

Lemma not_elem_of_existsb (k : string) (l : list string) :
  existsb (String.eqb k) l = false -> k ∉ l.
Proof.
  intros Hf Hk. apply elem_of_existsb in Hk. congruence.
Qed.

End TableFacts.

(** Case analysis on a key against the literal keys of a table. *)
Ltac key_cases k :=
  repeat match goal with
         | |- context [String.eqb k ?lit] =>
             destruct (String.eqb_spec k lit) as [-> | ?]
         end.

Ltac table_lookup a b :=
  unfold optional_index_or, index_index;
  rewrite TableFacts.get_property_object; cbn [assoc]; key_cases a;
  try rewrite TableFacts.get_property_object; cbn [assoc]; key_cases b.

Ltac in_schema := apply TableFacts.elem_of_existsb; reflexivity.

Ltac not_listed := apply TableFacts.not_elem_of_existsb; reflexivity.

Ltac run_tool :=
  unfold AgentTools.withErrorHandling, Tools.createCommentTool, result, try_catch,
    bind, call, pure, ret, throw, console_error, settled.

(** ** Priority scoring *)

Module PriorityFacts.

Import TableFacts.
Module Bug := AgentTools.createBugAgentTools.
Module Feature := AgentTools.createFeatureAgentTools.
Module Improvement := AgentTools.createImprovementAgentTools.

Lemma bug_priority_on_levels (impact urgency : Spec.level) :
  Bug.updatePriority_priority (Spec.level_name impact) (Spec.level_name urgency)
  = Returned (Spec.bug_matrix impact urgency).
Proof. destruct impact, urgency; vm_compute; reflexivity. Qed.

Lemma feature_priority_on_levels (value : Spec.level) (e : Spec.effort) :
  Feature.updatePriority_priority (Spec.level_name value) (Spec.effort_name e)
  = Returned (Spec.feature_matrix value e).
Proof. destruct value, e; vm_compute; reflexivity. Qed.

Lemma improvement_priority_on_levels (impact : Spec.level) (r : Spec.risk) :
  Improvement.updatePriority_priority (Spec.level_name impact) (Spec.risk_name r)
  = Returned (Spec.improvement_matrix impact r).
Proof. destruct impact, r; vm_compute; reflexivity. Qed.

Lemma bug_matrix_range (a b : Spec.level) : 1 <= Spec.bug_matrix a b <= 4.
Proof. destruct a, b; cbn; lia. Qed.

Lemma feature_matrix_range (a : Spec.level) (b : Spec.effort) :
  1 <= Spec.feature_matrix a b <= 4.
Proof. destruct a, b; cbn; lia. Qed.

Lemma improvement_matrix_range (a : Spec.level) (b : Spec.risk) :
  1 <= Spec.improvement_matrix a b <= 4.
Proof. destruct a, b; cbn; lia. Qed.

(** The enumerations of the schemas are the names of the levels of the
    specification. *)
Lemma level_names (s : string) :
  s ∈ [ "critical"; "high"; "medium"; "low" ] <-> exists l, s = Spec.level_name l.
Proof.
  split.
  - intros Hs. repeat (apply elem_of_cons in Hs as [-> | Hs]).
    + now exists Spec.critical.
    + now exists Spec.high.
    + now exists Spec.medium.
    + now exists Spec.low.
    + now apply elem_of_nil in Hs.
  - intros [[] ->]; in_schema.
Qed.

Lemma effort_names (s : string) :
  s ∈ Feature.schema_implementationEffort <-> exists e, s = Spec.effort_name e.
Proof.
  split.
  - intros Hs. repeat (apply elem_of_cons in Hs as [-> | Hs]).
    + now exists Spec.small.
    + now exists Spec.medium_effort.
    + now exists Spec.large.
    + now exists Spec.xlarge.
    + now apply elem_of_nil in Hs.
  - intros [[] ->]; in_schema.
Qed.

Lemma risk_names (s : string) :
  s ∈ Improvement.schema_implementationRisk <-> exists r, s = Spec.risk_name r.
Proof.
  split.
  - intros Hs. repeat (apply elem_of_cons in Hs as [-> | Hs]).
    + now exists Spec.high_risk.
    + now exists Spec.medium_risk.
    + now exists Spec.low_risk.
    + now apply elem_of_nil in Hs.
  - intros [[] ->]; in_schema.
Qed.

Lemma level_names_of_schema (s : string) :
  s ∈ Tools.prioritySchema_levels <-> exists l, s = Spec.level_name l.
Proof.
  split.
  - intros Hs. repeat (apply elem_of_cons in Hs as [-> | Hs]).
    + now exists Spec.low.
    + now exists Spec.medium.
    + now exists Spec.high.
    + now exists Spec.critical.
    + now apply elem_of_nil in Hs.
  - intros [[] ->]; in_schema.
Qed.

Section Tools.
Context (h : host) (client : Types.LinearClient) (issueId reason : string).

(** The wrapped tools, once the priority is known: what they return
    if they return, and that they return when the tracker answers. *)

Lemma bug_updatePriority_result impact urgency n r :
  Bug.updatePriority_priority impact urgency = Returned n ->
  result (Bug.updatePriority h client issueId impact urgency reason) = Returned r ->
  r = Bug.mk_updated n impact urgency.
Proof.
  intros Hn. unfold Bug.updatePriority, Bug.updatePriority_invoke. run_tool.
  rewrite Hn.
  destruct (client_issue h _ _) as [[] |]; cbn;
    try destruct (issue_update h _ _ _) as [[] |]; cbn;
    try destruct (client_createComment h _ _ _) as [[] |]; cbn; congruence.
Qed.

Lemma bug_updatePriority_runs impact urgency n :
  Bug.updatePriority_priority impact urgency = Returned n ->
  tracker_accepts h (Types.apiKey client) issueId ->
  result (Bug.updatePriority h client issueId impact urgency reason)
  = Returned (Bug.mk_updated n impact urgency).
Proof.
  intros Hn (Hissue & Hupdate & Hcomment).
  unfold Bug.updatePriority, Bug.updatePriority_invoke. run_tool.
  rewrite Hn, Hissue. cbn. rewrite Hupdate. cbn. rewrite Hcomment. reflexivity.
Qed.

Lemma feature_updatePriority_result value e n r :
  Feature.updatePriority_priority value e = Returned n ->
  result (Feature.updatePriority h client issueId value e reason) = Returned r ->
  r = Feature.mk_updated n value e.
Proof.
  intros Hn. unfold Feature.updatePriority, Feature.updatePriority_invoke. run_tool.
  rewrite Hn.
  destruct (client_issue h _ _) as [[] |]; cbn;
    try destruct (issue_update h _ _ _) as [[] |]; cbn;
    try destruct (client_createComment h _ _ _) as [[] |]; cbn; congruence.
Qed.

Lemma feature_updatePriority_runs value e n :
  Feature.updatePriority_priority value e = Returned n ->
  tracker_accepts h (Types.apiKey client) issueId ->
  result (Feature.updatePriority h client issueId value e reason)
  = Returned (Feature.mk_updated n value e).
Proof.
  intros Hn (Hissue & Hupdate & Hcomment).
  unfold Feature.updatePriority, Feature.updatePriority_invoke. run_tool.
  rewrite Hn, Hissue. cbn. rewrite Hupdate. cbn. rewrite Hcomment. reflexivity.
Qed.

Lemma improvement_updatePriority_result impact r n u :
  Improvement.updatePriority_priority impact r = Returned n ->
  result (Improvement.updatePriority h client issueId impact r reason) = Returned u ->
  u = Improvement.mk_updated n impact r.
Proof.
  intros Hn. unfold Improvement.updatePriority, Improvement.updatePriority_invoke. run_tool.
  rewrite Hn.
  destruct (client_issue h _ _) as [[] |]; cbn;
    try destruct (issue_update h _ _ _) as [[] |]; cbn;
    try destruct (client_createComment h _ _ _) as [[] |]; cbn; congruence.
Qed.

Lemma improvement_updatePriority_runs impact r n :
  Improvement.updatePriority_priority impact r = Returned n ->
  tracker_accepts h (Types.apiKey client) issueId ->
  result (Improvement.updatePriority h client issueId impact r reason)
  = Returned (Improvement.mk_updated n impact r).
Proof.
  intros Hn (Hissue & Hupdate & Hcomment).
  unfold Improvement.updatePriority, Improvement.updatePriority_invoke. run_tool.
  rewrite Hn, Hissue. cbn. rewrite Hupdate. cbn. rewrite Hcomment. reflexivity.
Qed.

(** C1.  On every pair of the declared levels the three [updatePriority]
    tools compute the entry of the matrix of the specification,
    section 4.4: the expression that scores gives it, the tool returns
    it as [newPriority] whenever the issue tracker answers its calls, can
    return nothing else, and the entry is one of 1, 2, 3, 4.  The
    declared levels are the enumerations of the tools' schemas. *)
Theorem updatePriority_tools_follow_the_matrices :
  (forall impact urgency : Spec.level,
     let i := Spec.level_name impact in
     let u := Spec.level_name urgency in
     let p := Spec.bug_matrix impact urgency in
     Bug.updatePriority_priority i u = Returned p
     /\ (tracker_accepts h (Types.apiKey client) issueId ->
         result (Bug.updatePriority h client issueId i u reason)
         = Returned (Bug.mk_updated p i u))
     /\ (forall r, result (Bug.updatePriority h client issueId i u reason) = Returned r ->
                   Bug.newPriority r = p)
     /\ 1 <= p <= 4)
  /\ (forall (value : Spec.level) (effort : Spec.effort),
     let v := Spec.level_name value in
     let e := Spec.effort_name effort in
     let p := Spec.feature_matrix value effort in
     Feature.updatePriority_priority v e = Returned p
     /\ (tracker_accepts h (Types.apiKey client) issueId ->
         result (Feature.updatePriority h client issueId v e reason)
         = Returned (Feature.mk_updated p v e))
     /\ (forall r, result (Feature.updatePriority h client issueId v e reason) = Returned r ->
                   Feature.newPriority r = p)
     /\ 1 <= p <= 4)
  /\ (forall (impact : Spec.level) (risk : Spec.risk),
     let i := Spec.level_name impact in
     let k := Spec.risk_name risk in
     let p := Spec.improvement_matrix impact risk in
     Improvement.updatePriority_priority i k = Returned p
     /\ (tracker_accepts h (Types.apiKey client) issueId ->
         result (Improvement.updatePriority h client issueId i k reason)
         = Returned (Improvement.mk_updated p i k))
     /\ (forall r, result (Improvement.updatePriority h client issueId i k reason) = Returned r ->
                   Improvement.newPriority r = p)
     /\ 1 <= p <= 4)
  /\ (forall s, (s ∈ Bug.schema_impact <-> exists l, s = Spec.level_name l)
             /\ (s ∈ Bug.schema_urgency <-> exists l, s = Spec.level_name l)
             /\ (s ∈ Feature.schema_businessValue <-> exists l, s = Spec.level_name l)
             /\ (s ∈ Feature.schema_implementationEffort <-> exists e, s = Spec.effort_name e)
             /\ (s ∈ Improvement.schema_technicalImpact <-> exists l, s = Spec.level_name l)
             /\ (s ∈ Improvement.schema_implementationRisk <-> exists r, s = Spec.risk_name r)).
Proof.
  repeat split.
  - apply bug_priority_on_levels.
  - intros Hok. apply bug_updatePriority_runs; [apply bug_priority_on_levels | exact Hok].
  - intros r Hr.
    now rewrite (bug_updatePriority_result _ _ _ _ (bug_priority_on_levels _ _) Hr).
  - apply bug_matrix_range.
  - apply bug_matrix_range.
  - apply feature_priority_on_levels.
  - intros Hok.
    apply feature_updatePriority_runs; [apply feature_priority_on_levels | exact Hok].
  - intros r Hr.
    now rewrite (feature_updatePriority_result _ _ _ _ (feature_priority_on_levels _ _) Hr).
  - apply feature_matrix_range.
  - apply feature_matrix_range.
  - apply improvement_priority_on_levels.
  - intros Hok.
    apply improvement_updatePriority_runs; [apply improvement_priority_on_levels | exact Hok].
  - intros r Hr.
    now rewrite (improvement_updatePriority_result _ _ _ _
                   (improvement_priority_on_levels _ _) Hr).
  - apply improvement_matrix_range.
  - apply improvement_matrix_range.
  - apply level_names.
  - apply level_names.
  - apply level_names.
  - apply level_names.
  - apply level_names.
  - apply level_names.
  - apply effort_names.
  - apply effort_names.
  - apply level_names.
  - apply level_names.
  - apply risk_names.
  - apply risk_names.
Qed.

End Tools.

Lemma updatePriority_tools_follow_the_matrices_witness :
  tracker_accepts Sample.host_ok (Types.apiKey Sample.manager) "ISS-1"
  /\ result (Bug.updatePriority Sample.host_ok Sample.manager "ISS-1"
               "high" "critical" "because")
     = Returned (Bug.mk_updated 1 "high" "critical").
Proof.
  assert (Hok : tracker_accepts Sample.host_ok (Types.apiKey Sample.manager) "ISS-1")
    by (repeat split).
  split; [exact Hok |].
  exact (proj1 (proj2 (proj1 (updatePriority_tools_follow_the_matrices
                                Sample.host_ok Sample.manager "ISS-1" "because")
                         Spec.high Spec.critical)) Hok).
Defined.

(** *** The two matrices over impact and urgency *)

Lemma bug_priority_by_rank (impact urgency : Spec.level) :
  Bug.updatePriority_priority (Spec.level_name impact) (Spec.level_name urgency)
  = Returned (1 + (Spec.rank impact + Spec.rank urgency) / 2).
Proof. destruct impact, urgency; vm_compute; reflexivity. Qed.

Lemma assessment_priority_by_rank (impact urgency : Spec.level) :
  Tools.createPriorityAssessmentTool_priority
    (Spec.level_name impact) (Spec.level_name urgency)
  = Returned (Some (1 + (Spec.rank impact + Spec.rank urgency + 1) / 2)).
Proof. destruct impact, urgency; vm_compute; reflexivity. Qed.

(** C3, as the sources have it.  Over impact and urgency there are two
    different matrices.  With the levels ranked critical 0, high 1,
    medium 2, low 3 and [s] the sum of the two ranks, the Bug agent's
    [updatePriority] gives [1 + s / 2] rounded down and
    [createPriorityAssessmentTool] gives [1 + s / 2] rounded up: they
    agree on the eight pairs where [s] is even, and on the other eight
    the assessment tool is one step less pressing. *)
Theorem impact_urgency_has_two_matrices (impact urgency : Spec.level) :
  let s := Spec.rank impact + Spec.rank urgency in
  exists b a : Z,
    Bug.updatePriority_priority (Spec.level_name impact) (Spec.level_name urgency)
    = Returned b
    /\ Tools.createPriorityAssessmentTool_priority
         (Spec.level_name impact) (Spec.level_name urgency)
       = Returned (Some a)
    /\ b = 1 + s / 2
    /\ a = b + s mod 2
    /\ (a = b <-> Z.even s = true).
Proof.
  intros s. exists (1 + s / 2), (1 + (s + 1) / 2).
  split; [apply bug_priority_by_rank |].
  split; [apply assessment_priority_by_rank |].
  subst s. destruct impact, urgency; vm_compute; repeat split; congruence.
Qed.

(** C3 fails on impact high, urgency critical (scenario 2 of the
    specification): the Bug agent's tool gives 1 and the assessment tool
    gives 2. *)
Lemma assessment_differs_from_bug_matrix :
  Bug.updatePriority_priority "high" "critical" = Returned 1
  /\ Tools.createPriorityAssessmentTool_priority "high" "critical" = Returned (Some 2)
  /\ ~ (forall impact urgency : Spec.level,
          exists n,
            Tools.createPriorityAssessmentTool_priority
              (Spec.level_name impact) (Spec.level_name urgency) = Returned (Some n)
            /\ Bug.updatePriority_priority
                 (Spec.level_name impact) (Spec.level_name urgency) = Returned n).
Proof.
  split; [reflexivity |]. split; [reflexivity |].
  intros Hall. destruct (Hall Spec.high Spec.critical) as (n & Ha & Hb).
  vm_compute in Ha, Hb. congruence.
Qed.

(** *** Pairs outside the tables *)

Lemma bug_priority_default (a b : string) :
  a ∉ Object_prototype_keys -> b ∉ Object_prototype_keys ->
  exists n, Bug.updatePriority_priority a b = Returned n /\ 1 <= n <= 4
    /\ (~ (a ∈ Bug.schema_impact /\ b ∈ Bug.schema_urgency) -> n = 3).
Proof.
  intros Ha Hb.
  unfold Bug.updatePriority_priority, Bug.priorityMatrix.
  table_lookup a b.
  all: try rewrite (bool_decide_eq_false_2 _ Ha).
  all: try rewrite (bool_decide_eq_false_2 _ Hb).
  all: eexists; split; [reflexivity | split; [lia |] ].
  all: intros Hnot; try reflexivity; exfalso; apply Hnot; split; in_schema.
Qed.

Lemma feature_priority_default (a b : string) :
  a ∉ Object_prototype_keys -> b ∉ Object_prototype_keys ->
  exists n, Feature.updatePriority_priority a b = Returned n /\ 1 <= n <= 4
    /\ (~ (a ∈ Feature.schema_businessValue /\ b ∈ Feature.schema_implementationEffort)
        -> n = 3).
Proof.
  intros Ha Hb.
  unfold Feature.updatePriority_priority, Feature.priorityMatrix.
  table_lookup a b.
  all: try rewrite (bool_decide_eq_false_2 _ Ha).
  all: try rewrite (bool_decide_eq_false_2 _ Hb).
  all: eexists; split; [reflexivity | split; [lia |] ].
  all: intros Hnot; try reflexivity; exfalso; apply Hnot; split; in_schema.
Qed.

Lemma improvement_priority_default (a b : string) :
  a ∉ Object_prototype_keys -> b ∉ Object_prototype_keys ->
  exists n, Improvement.updatePriority_priority a b = Returned n /\ 1 <= n <= 4
    /\ (~ (a ∈ Improvement.schema_technicalImpact
           /\ b ∈ Improvement.schema_implementationRisk) -> n = 3).
Proof.
  intros Ha Hb.
  unfold Improvement.updatePriority_priority, Improvement.priorityMatrix.
  table_lookup a b.
  all: try rewrite (bool_decide_eq_false_2 _ Ha).
  all: try rewrite (bool_decide_eq_false_2 _ Hb).
  all: eexists; split; [reflexivity | split; [lia |] ].
  all: intros Hnot; try reflexivity; exfalso; apply Hnot; split; in_schema.
Qed.

Lemma assessment_priority_in_schema (a b : string) :
  a ∈ Tools.prioritySchema_levels -> b ∈ Tools.prioritySchema_levels ->
  exists n, Tools.createPriorityAssessmentTool_priority a b = Returned (Some n)
            /\ 1 <= n <= 4.
Proof.
  intros Ha Hb.
  apply level_names_of_schema in Ha as [i ->].
  apply level_names_of_schema in Hb as [u ->].
  rewrite assessment_priority_by_rank. eexists. split; [reflexivity |].
  destruct i, u; vm_compute; split; congruence.
Qed.

Lemma assessment_priority_no_row (a b : string) :
  a ∉ Object_prototype_keys -> a ∉ Tools.prioritySchema_levels ->
  Tools.createPriorityAssessmentTool_priority a b
  = Thrown (TypeError ("Cannot read properties of undefined (reading '" +:+ b +:+ "')")).
Proof.
  intros Ha Hnot.
  unfold Tools.createPriorityAssessmentTool_priority, Tools.priorityMatrix, index_index.
  rewrite get_property_object; cbn [assoc]; key_cases a.
  all: first [ rewrite (bool_decide_eq_false_2 _ Ha); reflexivity
             | exfalso; apply Hnot; in_schema ].
Qed.

Lemma assessment_priority_no_column (a b : string) :
  b ∉ Object_prototype_keys ->
  a ∈ Tools.prioritySchema_levels -> b ∉ Tools.prioritySchema_levels ->
  Tools.createPriorityAssessmentTool_priority a b = Returned None.
Proof.
  intros Hb Ha Hnot.
  apply level_names_of_schema in Ha as [i ->].
  unfold Tools.createPriorityAssessmentTool_priority, Tools.priorityMatrix, index_index.
  destruct i; cbn [Spec.level_name].
  all: rewrite get_property_object; cbn [assoc String.eqb Ascii.eqb Bool.eqb];
    rewrite get_property_object; cbn [assoc]; key_cases b.
  all: first [ rewrite (bool_decide_eq_false_2 _ Hb); reflexivity
             | exfalso; apply Hnot; in_schema ].
Qed.

(** C6, as the sources have it.  Keys that name a member of
    [Object.prototype] apart: the three [updatePriority] tools score
    every pair of strings without throwing, with a priority from 1 to 4
    that is 3 whenever the pair is not in the tool's table;
    [createPriorityAssessmentTool] has no default: it scores the pairs
    of its schema's enumeration, from 1 to 4, while a row key outside it
    throws a [TypeError] and a column key outside it gives
    [undefined]. *)
Theorem scoring_outside_the_tables (a b : string) :
  a ∉ Object_prototype_keys -> b ∉ Object_prototype_keys ->
  (exists n, Bug.updatePriority_priority a b = Returned n /\ 1 <= n <= 4
     /\ (~ (a ∈ Bug.schema_impact /\ b ∈ Bug.schema_urgency) -> n = 3))
  /\ (exists n, Feature.updatePriority_priority a b = Returned n /\ 1 <= n <= 4
     /\ (~ (a ∈ Feature.schema_businessValue /\ b ∈ Feature.schema_implementationEffort)
         -> n = 3))
  /\ (exists n, Improvement.updatePriority_priority a b = Returned n /\ 1 <= n <= 4
     /\ (~ (a ∈ Improvement.schema_technicalImpact
            /\ b ∈ Improvement.schema_implementationRisk) -> n = 3))
  /\ (a ∈ Tools.prioritySchema_levels -> b ∈ Tools.prioritySchema_levels ->
      exists n, Tools.createPriorityAssessmentTool_priority a b = Returned (Some n)
                /\ 1 <= n <= 4)
  /\ (a ∉ Tools.prioritySchema_levels ->
      Tools.createPriorityAssessmentTool_priority a b
      = Thrown (TypeError ("Cannot read properties of undefined (reading '" +:+ b +:+ "')")))
  /\ (a ∈ Tools.prioritySchema_levels -> b ∉ Tools.prioritySchema_levels ->
      Tools.createPriorityAssessmentTool_priority a b = Returned None).
Proof.
  intros Ha Hb.
  split; [now apply bug_priority_default |].
  split; [now apply feature_priority_default |].
  split; [now apply improvement_priority_default |].
  split; [apply assessment_priority_in_schema |].
  split; [now apply assessment_priority_no_row |].
  now apply assessment_priority_no_column.
Qed.

Lemma scoring_outside_the_tables_witness :
  Bug.updatePriority_priority "unknown" "critical" = Returned 3
  /\ Tools.createPriorityAssessmentTool_priority "unknown" "critical"
     = Thrown (TypeError "Cannot read properties of undefined (reading 'critical')").
Proof.
  assert (Ha : "unknown" ∉ Object_prototype_keys) by not_listed.
  assert (Hb : "critical" ∉ Object_prototype_keys) by not_listed.
  assert (Hl : "unknown" ∉ Tools.prioritySchema_levels) by not_listed.
  pose proof (scoring_outside_the_tables "unknown" "critical" Ha Hb)
    as (_ & _ & _ & _ & Hthrows & _).
  split; [reflexivity | exact (Hthrows Hl)].
Defined.

(** C6 fails on [createPriorityAssessmentTool]: an impact that is not a
    row of its matrix makes the scoring throw, and an urgency that is
    not a column gives [undefined]; neither gives 3. *)
Lemma assessment_has_no_default :
  Tools.createPriorityAssessmentTool_priority "blocker" "high"
  = Thrown (TypeError "Cannot read properties of undefined (reading 'high')")
  /\ Tools.createPriorityAssessmentTool_priority "high" "blocker" = Returned None
  /\ result (Tools.createPriorityAssessmentTool Sample.host_ok Sample.manager "ISS-1"
               "blocker" "high")
     = Thrown (TypeError "Cannot read properties of undefined (reading 'high')").
Proof. repeat split. Qed.

End PriorityFacts.

(** ** Sequential evaluation *)

Module RunFacts.

(** Two continuations that agree on the value returned give the same
    evaluation. *)
Lemma bind_ext {A B : Type} (m : M A) (k1 k2 : A -> M B) :
  (forall a, result m = Returned a -> k1 a = k2 a) -> bind m k1 = bind m k2.
Proof.
  destruct m as [t [a | e |]]; intros Hk; cbn; [| reflexivity | reflexivity].
  now rewrite (Hk a eq_refl).
Qed.

Lemma bind_returned {A B : Type} (a : A) (k : A -> M B) :
  bind ([], Returned a) k = k a.
Proof. cbn. now destruct (k a). Qed.

Lemma bind_ret {A B : Type} (a : A) (k : A -> M B) : bind (ret a) k = k a.
Proof. apply bind_returned. Qed.

End RunFacts.

(** ** Authentication of a request *)

Module WebhookFacts.

Import TableFacts.

(** The allow list is the four literal addresses. *)
Lemma verifyWebhookIp_true (ip : string) :
  Webhook.verifyWebhookIp ip = true <->
  ip = "35.231.147.226" \/ ip = "35.243.134.228"
  \/ ip = "34.140.253.14" \/ ip = "34.38.87.206".
Proof.
  unfold Webhook.verifyWebhookIp, Webhook.ALLOWED_IPS. cbn [existsb].
  rewrite !orb_true_iff, !String.eqb_eq. intuition discriminate.
Qed.

Section WithHost.
Context (h : host).

Lemma verifyWebhookSignature_true (payload signature secret : string) :
  Webhook.verifyWebhookSignature h payload signature secret = true <->
  signature = hmac_sha256_hex h secret payload.
Proof. unfold Webhook.verifyWebhookSignature. apply String.eqb_eq. Qed.

Lemma verifyWebhookTimestamp_true (p : Types.LinearWebhookPayload) :
  Webhook.verifyWebhookTimestamp h p = true <->
  exists ts, Types.webhookTimestamp p = Some ts /\ Z.abs (Date_now h - ts) <= 60000.
Proof.
  unfold Webhook.verifyWebhookTimestamp.
  destruct (Types.webhookTimestamp p) as [ts |].
  - rewrite Z.leb_le. split.
    + intros Hle. exists ts. split; [reflexivity | lia].
    + intros (ts' & Heq & Hle). injection Heq as <-. lia.
  - split; [discriminate | intros (ts & Heq & _); discriminate].
Qed.

(** C5.  For a payload carrying the time stamp [ts],
    [verifyWebhookTimestamp] is true exactly when the current time and
    [ts] are at most 60000 ms apart; exactly 60000 passes, 60001
    fails. *)
Theorem verifyWebhookTimestamp_window (p : Types.LinearWebhookPayload) (ts : Z) :
  Types.webhookTimestamp p = Some ts ->
  (Webhook.verifyWebhookTimestamp h p = true <-> Z.abs (Date_now h - ts) <= 60000)
  /\ (Z.abs (Date_now h - ts) = 60000 -> Webhook.verifyWebhookTimestamp h p = true)
  /\ (Z.abs (Date_now h - ts) = 60001 -> Webhook.verifyWebhookTimestamp h p = false).
Proof.
  intros Hts. unfold Webhook.verifyWebhookTimestamp. rewrite Hts.
  repeat split.
  - intros Hle. apply Z.leb_le in Hle. lia.
  - intros Hle. apply Z.leb_le. lia.
  - intros Heq. apply Z.leb_le. lia.
  - intros Heq. apply Z.leb_gt. lia.
Qed.

(** A request that validates leaves no trace. *)
Lemma validateWebhookRequest_true_silent headers body ip webhookSecret :
  result (Webhook.validateWebhookRequest h headers body ip webhookSecret) = Returned true ->
  Webhook.validateWebhookRequest h headers body ip webhookSecret = ([], Returned true).
Proof.
  unfold Webhook.validateWebhookRequest, result, bind, pure, console_error, call, ret, throw,
    settled.
  destruct webhookSecret as [secret |]; [| discriminate].
  destruct (secret =? "")%string; [discriminate |].
  destruct (Webhook.verifyWebhookIp ip); [| discriminate].
  destruct (Webhook.verifyWebhookSignature h body _ secret); [| discriminate].
  cbn. destruct (JSON_parse h body) as [p | e]; [| discriminate].
  destruct (Webhook.verifyWebhookTimestamp h p); cbn; [reflexivity | discriminate].
Qed.

(** With a secret, the value returned once the body parses. *)
Lemma validateWebhookRequest_returns headers body ip secret p :
  secret <> "" -> JSON_parse h body = Gives p ->
  result (Webhook.validateWebhookRequest h headers body ip (Some secret))
  = Returned (Webhook.verifyWebhookIp ip
              && Webhook.verifyWebhookSignature h body (Webhook.linear_signature headers) secret
              && Webhook.verifyWebhookTimestamp h p).
Proof.
  intros Hsecret Hparse.
  unfold Webhook.validateWebhookRequest, result, bind, pure, console_error, call, ret, throw,
    settled.
  apply String.eqb_neq in Hsecret. rewrite Hsecret.
  destruct (Webhook.verifyWebhookIp ip); [| reflexivity].
  destruct (Webhook.verifyWebhookSignature h body _ secret); [| reflexivity].
  cbn. rewrite Hparse.
  destruct (Webhook.verifyWebhookTimestamp h p); reflexivity.
Qed.

(** With a secret, a refused address or signature returns [false]
    without reading the body. *)
Lemma validateWebhookRequest_refused headers body ip secret :
  secret <> "" ->
  Webhook.verifyWebhookIp ip = false
  \/ Webhook.linear_signature headers <> hmac_sha256_hex h secret body ->
  result (Webhook.validateWebhookRequest h headers body ip (Some secret)) = Returned false.
Proof.
  intros Hsecret Hfails.
  unfold Webhook.validateWebhookRequest, result, bind, console_error, call, ret, settled.
  apply String.eqb_neq in Hsecret. rewrite Hsecret.
  destruct (Webhook.verifyWebhookIp ip); [| reflexivity].
  destruct (Webhook.verifyWebhookSignature h body _ secret) eqn:Hsig; [| reflexivity].
  apply verifyWebhookSignature_true in Hsig.
  destruct Hfails as [Hip | Hne]; [discriminate | contradiction].
Qed.

Lemma validateWebhookRequest_true_iff headers body ip secret :
  secret <> "" ->
  result (Webhook.validateWebhookRequest h headers body ip (Some secret)) = Returned true
  <-> Webhook.verifyWebhookIp ip = true
      /\ Webhook.verifyWebhookSignature h body (Webhook.linear_signature headers) secret = true
      /\ exists p, JSON_parse h body = Gives p /\ Webhook.verifyWebhookTimestamp h p = true.
Proof.
  intros Hsecret.
  unfold Webhook.validateWebhookRequest, result, bind, pure, console_error, call, ret, throw,
    settled.
  apply String.eqb_neq in Hsecret. rewrite Hsecret.
  destruct (Webhook.verifyWebhookIp ip);
    [| cbn; split; [discriminate | intros (? & _); discriminate] ].
  destruct (Webhook.verifyWebhookSignature h body _ secret);
    [| cbn; split; [discriminate | intros (_ & ? & _); discriminate] ].
  cbn. destruct (JSON_parse h body) as [p | e].
  - destruct (Webhook.verifyWebhookTimestamp h p) eqn:Hts; cbn.
    + split; [| reflexivity]. intros _. repeat split. exists p. now split.
    + split; [discriminate |]. intros (_ & _ & p' & Hp & Hts'). congruence.
  - split; [discriminate |]. intros (_ & _ & p' & Hp & _). discriminate.
Qed.

(** C2.  Without a secret (empty or undefined) [validateWebhookRequest]
    throws the configuration error, whatever the request, before
    anything else is looked at.  With a secret it returns [true] exactly
    when the address is one of the four allowed literals, the
    [linear-signature] header equals the HMAC of the body under the
    secret, and the body parses to a payload whose [webhookTimestamp] is
    within 60000 ms of the current time; on a body that parses, the
    value returned is the conjunction of the three checks, and a
    refused address or signature gives [false] whatever the body. *)
Theorem validateWebhookRequest_conjunction
    (headers : Webhook.WebhookHeaders) (body ip : string) (webhookSecret : option string) :
  (truthy webhookSecret = false ->
   Webhook.validateWebhookRequest h headers body ip webhookSecret
   = ([], Thrown (Error "LINEAR_WEBHOOK_SECRET is not configured")))
  /\ (forall secret, webhookSecret = Some secret -> secret <> "" ->
      (result (Webhook.validateWebhookRequest h headers body ip webhookSecret) = Returned true
       <-> (ip = "35.231.147.226" \/ ip = "35.243.134.228"
            \/ ip = "34.140.253.14" \/ ip = "34.38.87.206")
           /\ Webhook.linear_signature headers = hmac_sha256_hex h secret body
           /\ exists p ts, JSON_parse h body = Gives p
                           /\ Types.webhookTimestamp p = Some ts
                           /\ Z.abs (Date_now h - ts) <= 60000)
      /\ (forall p, JSON_parse h body = Gives p ->
          result (Webhook.validateWebhookRequest h headers body ip webhookSecret)
          = Returned (Webhook.verifyWebhookIp ip
                      && Webhook.verifyWebhookSignature h body
                           (Webhook.linear_signature headers) secret
                      && Webhook.verifyWebhookTimestamp h p))
      /\ (Webhook.verifyWebhookIp ip = false
          \/ Webhook.linear_signature headers <> hmac_sha256_hex h secret body ->
          result (Webhook.validateWebhookRequest h headers body ip webhookSecret)
          = Returned false)).
Proof.
  split.
  - unfold truthy, Webhook.validateWebhookRequest.
    destruct webhookSecret as [secret |]; [| reflexivity].
    destruct (secret =? "")%string; [reflexivity | discriminate].
  - intros secret -> Hsecret. split.
    + rewrite (validateWebhookRequest_true_iff _ _ _ _ Hsecret).
      rewrite verifyWebhookIp_true, verifyWebhookSignature_true.
      split.
      * intros (Hip & Hsig & p & Hp & Hts).
        apply verifyWebhookTimestamp_true in Hts as (ts & Hts & Hle).
        repeat split; [exact Hip | exact Hsig |]. now exists p, ts.
      * intros (Hip & Hsig & p & ts & Hp & Hts & Hle).
        repeat split; [exact Hip | exact Hsig |]. exists p. split; [exact Hp |].
        apply verifyWebhookTimestamp_true. now exists ts.
    + split; [intros p Hp; now apply validateWebhookRequest_returns |].
      now apply validateWebhookRequest_refused.
Qed.

End WithHost.

Lemma verifyWebhookTimestamp_window_witness :
  Types.webhookTimestamp (Sample.created "Bug") = Some 1700000000000
  /\ Webhook.verifyWebhookTimestamp (Sample.host_at 1700000060000) (Sample.created "Bug")
     = true
  /\ Webhook.verifyWebhookTimestamp (Sample.host_at 1700000060001) (Sample.created "Bug")
     = false.
Proof.
  assert (Hts : Types.webhookTimestamp (Sample.created "Bug") = Some 1700000000000)
    by reflexivity.
  split; [exact Hts |]. split.
  - apply (proj1 (proj2 (verifyWebhookTimestamp_window (Sample.host_at 1700000060000)
                           (Sample.created "Bug") 1700000000000 Hts))).
    reflexivity.
  - apply (proj2 (proj2 (verifyWebhookTimestamp_window (Sample.host_at 1700000060001)
                           (Sample.created "Bug") 1700000000000 Hts))).
    reflexivity.
Defined.

Lemma validateWebhookRequest_conjunction_witness :
  result (Webhook.validateWebhookRequest Sample.host_ok
            (Api.request_headers (Sample.api_request "issue-created-Bug"))
            "issue-created-Bug" "35.231.147.226" (Some Sample.secret))
  = Returned true.
Proof.
  assert (Hsecret : Sample.secret <> "") by discriminate.
  pose proof (validateWebhookRequest_conjunction Sample.host_ok
                (Api.request_headers (Sample.api_request "issue-created-Bug"))
                "issue-created-Bug" "35.231.147.226" (Some Sample.secret)) as [_ Hwith].
  destruct (Hwith Sample.secret eq_refl Hsecret) as [Hiff _].
  apply Hiff.
  split; [left; reflexivity |]. split; [reflexivity |].
  exists (Sample.created "Bug"), 1700000000000.
  split; [reflexivity |]. split; [reflexivity |]. vm_compute. discriminate.
Defined.

End WebhookFacts.

(** ** Classification of events and the handlers *)

Module ClassifierFacts.

Lemma truthy_true (v : option string) : truthy v = true <-> Spec.non_empty v.
Proof.
  unfold truthy, Spec.non_empty. destruct v as [s |].
  - rewrite negb_true_iff, String.eqb_neq. split.
    + intros Hs. now exists s.
    + intros (s' & Heq & Hs'). now injection Heq as ->.
  - split; [discriminate | intros (s & Heq & _); discriminate].
Qed.

Lemma truthy_optional {A : Type} (x : option A) (f : A -> option string) :
  truthy (optional x f) = true <-> exists a, x = Some a /\ Spec.non_empty (f a).
Proof.
  destruct x as [a |]; cbn [optional].
  - rewrite truthy_true. split.
    + intros Hf. now exists a.
    + intros (a' & Heq & Hf). now injection Heq as ->.
  - split; [discriminate | intros (a & Heq & _); discriminate].
Qed.

Lemma defined_optional {A B : Type} (x : option A) (f : A -> option B) :
  Webhook.defined (optional x f) = true <-> exists a b, x = Some a /\ f a = Some b.
Proof.
  destruct x as [a |]; cbn [optional].
  - destruct (f a) as [b |] eqn:Hfa; cbn.
    + split; [intros _; now exists a, b | reflexivity].
    + split; [discriminate | intros (a' & b & Heq & Hf)].
      injection Heq as <-. congruence.
  - split; [discriminate | intros (a & b & Heq & _); discriminate].
Qed.

Lemma isIssueCreationEvent_true (p : Types.LinearWebhookPayload) :
  Webhook.isIssueCreationEvent p = true <-> Spec.issue_created p.
Proof.
  unfold Webhook.isIssueCreationEvent, Spec.issue_created.
  rewrite !andb_true_iff, !String.eqb_eq, !truthy_optional. split.
  - intros (((Ht & Ha) & d & Hd & Hid) & d' & Hd' & Htitle).
    rewrite Hd in Hd'. injection Hd' as <-.
    repeat split; [exact Ht | exact Ha |]. now exists d.
  - intros (Ht & Ha & d & Hd & Hid & Htitle).
    repeat split; [exact Ht | exact Ha | now exists d | now exists d].
Qed.

Lemma isIssueLabelUpdateEvent_true (p : Types.LinearWebhookPayload) :
  Webhook.isIssueLabelUpdateEvent p = true <-> Spec.issue_label_updated p.
Proof.
  unfold Webhook.isIssueLabelUpdateEvent, Spec.issue_label_updated.
  rewrite !andb_true_iff, orb_true_iff, !String.eqb_eq, truthy_optional,
    !defined_optional.
  split.
  - intros (((Ht & Ha) & d & Hd & Hid) & Hlabels).
    repeat split; [exact Ht | exact Ha |]. exists d.
    repeat split; [exact Hd | exact Hid |].
    destruct Hlabels as [(u & ids & Hu & Hids) | (l & ns & Hl & Hns)].
    + left. now exists u, ids.
    + right. exists l, ns. split; [| exact Hns].
      rewrite Hd in Hl. exact Hl.
  - intros (Ht & Ha & d & Hd & Hid & Hlabels).
    repeat split; [exact Ht | exact Ha | now exists d |].
    destruct Hlabels as [(u & ids & Hu & Hids) | (l & ns & Hl & Hns)].
    + left. now exists u, ids.
    + right. exists l, ns. split; [| exact Hns].
      rewrite Hd. exact Hl.
Qed.

Lemma actionable_iff (p : Types.LinearWebhookPayload) :
  Webhook.isIssueCreationEvent p || Webhook.isIssueLabelUpdateEvent p = true
  <-> Spec.issue_created p \/ Spec.issue_label_updated p.
Proof.
  now rewrite orb_true_iff, isIssueCreationEvent_true, isIssueLabelUpdateEvent_true.
Qed.

(** An accepted payload has data with a non-empty [id]. *)
Lemma actionable_has_id (p : Types.LinearWebhookPayload) :
  Webhook.isIssueCreationEvent p || Webhook.isIssueLabelUpdateEvent p = true ->
  exists d, Types.data p = Some d /\ truthy (Types.id d) = true.
Proof.
  intros Hacc. apply actionable_iff in Hacc.
  destruct Hacc as [(_ & _ & d & Hd & Hid & _) | (_ & _ & d & Hd & Hid & _)];
    exists d; (split; [exact Hd | now apply truthy_true]).
Qed.

End ClassifierFacts.

Module HandlerFacts.

Import ClassifierFacts WebhookFacts.

Section WithHost.
Context (h : host).

(** What the step [validate-webhook] has established when it returns
    a payload. *)
Lemma validate_webhook_valid headers body ip env v p :
  result (Index.validate_webhook h headers body ip env) = Returned v ->
  Index.payload v = Some p ->
  Webhook.validateWebhookRequest h headers body ip (env !! "linearWebhookSecret")
  = ([], Returned true)
  /\ JSON_parse h body = Gives p
  /\ Webhook.isIssueCreationEvent p || Webhook.isIssueLabelUpdateEvent p = true.
Proof.
  unfold Index.validate_webhook. intros Hv Hp.
  destruct (Webhook.validateWebhookRequest h headers body ip _) as [t [[] | e |]] eqn:Hval;
    try discriminate.
  assert (Hsilent : t = []).
  { pose proof (validateWebhookRequest_true_silent h headers body ip
                  (env !! "linearWebhookSecret")) as Hs.
    rewrite Hval in Hs. specialize (Hs eq_refl). now injection Hs. }
  subst t. unfold result, bind, pure, ret, throw, settled in Hv. cbn in Hv.
  destruct (JSON_parse h body) as [p' | e]; try discriminate.
  destruct (Webhook.isIssueCreationEvent p' || Webhook.isIssueLabelUpdateEvent p') eqn:Hacc;
    cbn in Hv; injection Hv as <-; cbn in Hp; [| discriminate].
  injection Hp as ->. now repeat split.
Qed.

(** The handler of [src/api/webhook.ts] on a request that validates
    and whose body parses to a payload that is not accepted. *)
Lemma handler_ignores (missing_id : M Api.Response) env req p :
  result (Webhook.validateWebhookRequest h (Api.request_headers req) (Api.req_text req)
            (Api.request_ip req) (env !! "linearWebhookSecret")) = Returned true ->
  JSON_parse h (Api.req_text req) = Gives p ->
  Webhook.isIssueCreationEvent p || Webhook.isIssueLabelUpdateEvent p = false ->
  Api.handler_with h missing_id env req = ([], Returned Sample.ignored_response).
Proof.
  intros Hvalid Hparse Hnot.
  apply validateWebhookRequest_true_silent in Hvalid.
  apply orb_false_iff in Hnot as [Hc Hu].
  unfold Api.handler_with. rewrite Hvalid.
  unfold bind, try_catch, pure, ret, settled. rewrite Hparse, Hc, Hu. reflexivity.
Qed.

(** C7.  A payload is accepted by the classifier exactly when it is an
    "issue created" or an "issue label updated" event in the sense of
    section 4.2; and the handler answers a validated request whose
    payload is neither with status 200 and the message "Event ignored",
    without a trace. *)
Theorem classification_and_ignored_events
    (env : gmap string string) (req : Api.Request) (p : Types.LinearWebhookPayload) :
  (Webhook.isIssueCreationEvent p = true <-> Spec.issue_created p)
  /\ (Webhook.isIssueLabelUpdateEvent p = true <-> Spec.issue_label_updated p)
  /\ (result (Webhook.validateWebhookRequest h (Api.request_headers req) (Api.req_text req)
                (Api.request_ip req) (env !! "linearWebhookSecret")) = Returned true ->
      JSON_parse h (Api.req_text req) = Gives p ->
      ~ (Spec.issue_created p \/ Spec.issue_label_updated p) ->
      Api.handler h env req
      = ([], Returned (Api.mk_response 200
                         [ ("message", "Event ignored");
                           ("details", "Event type not supported") ]))).
Proof.
  split; [apply isIssueCreationEvent_true |].
  split; [apply isIssueLabelUpdateEvent_true |].
  intros Hvalid Hparse Hnot.
  apply (handler_ignores _ env req p Hvalid Hparse).
  apply not_true_is_false. intros Hacc. apply Hnot. now apply actionable_iff.
Qed.

(** The statement of the branch [if (!issueId)] has no influence on the
    handler of [src/api/webhook.ts]. *)
Lemma handler_with_independent (k : M Api.Response) env req :
  Api.handler_with h k env req = Api.handler h env req.
Proof.
  unfold Api.handler, Api.handler_with. f_equal.
  apply RunFacts.bind_ext. intros [] _; [cbn [negb] | reflexivity].
  apply RunFacts.bind_ext. intros p _.
  destruct (Webhook.isIssueCreationEvent p || Webhook.isIssueLabelUpdateEvent p) eqn:Hacc.
  - destruct (actionable_has_id p Hacc) as (d & Hd & Hid).
    rewrite Hd, Hid. reflexivity.
  - apply orb_false_iff in Hacc as [-> ->]. reflexivity.
Qed.

(** The same for the workflow of [src/index.ts]. *)
Lemma serve_with_independent (k : M Index.served) env request :
  Index.serve_with h k env request = Index.serve h env request.
Proof.
  unfold Index.serve, Index.serve_with.
  apply RunFacts.bind_ext. intros env' _.
  apply RunFacts.bind_ext. intros v Hv.
  destruct (Index.status v =? "ignored")%string; [reflexivity |].
  destruct (Index.payload v) as [p |] eqn:Hp; [| reflexivity].
  destruct (validate_webhook_valid _ _ _ _ _ _ Hv Hp) as (_ & Hparse & Hacc).
  destruct (actionable_has_id p Hacc) as (d & Hd & Hid).
  rewrite Hd, Hid. reflexivity.
Qed.

(** C10.  When the address is allowed and the signature matches but the
    body is not JSON, [validateWebhookRequest] throws the error of
    [JSON.parse] instead of returning [false], and the handler of
    [src/api/webhook.ts] answers with status 500, not 401.  The body is
    parsed only after the two checks: from a refused address the same
    body is answered with [false]. *)
Theorem malformed_body_is_an_error_not_a_refusal
    (env : gmap string string) (req : Api.Request) (secret : string) (e : js_error) :
  env !! "linearWebhookSecret" = Some secret ->
  secret <> "" ->
  Api.request_ip req ∈ Webhook.ALLOWED_IPS ->
  Webhook.linear_signature (Api.request_headers req)
  = hmac_sha256_hex h secret (Api.req_text req) ->
  JSON_parse h (Api.req_text req) = Fails e ->
  Webhook.validateWebhookRequest h (Api.request_headers req) (Api.req_text req)
    (Api.request_ip req) (Some secret)
  = ([], Thrown e)
  /\ Api.handler h env req
     = ([ ConsoleError "Error processing webhook:" (LogError e) ],
        Returned (Api.mk_response 500
                    [ ("error", "Error processing webhook");
                      ("details", error_message e);
                      ("type", error_name e) ]))
  /\ (forall ip, Webhook.verifyWebhookIp ip = false ->
        result (Webhook.validateWebhookRequest h (Api.request_headers req)
                  (Api.req_text req) ip (Some secret)) = Returned false).
Proof.
  intros Henv Hsecret Hip Hsig Hparse.
  assert (Hval : Webhook.validateWebhookRequest h (Api.request_headers req)
                   (Api.req_text req) (Api.request_ip req) (Some secret)
                 = ([], Thrown e)).
  { unfold Webhook.validateWebhookRequest.
    apply String.eqb_neq in Hsecret. rewrite Hsecret.
    apply TableFacts.elem_of_existsb in Hip. unfold Webhook.verifyWebhookIp. rewrite Hip.
    apply verifyWebhookSignature_true in Hsig. rewrite Hsig.
    cbn [negb]. unfold bind, pure, settled. now rewrite Hparse. }
  split; [exact Hval |]. split.
  - unfold Api.handler, Api.handler_with. rewrite Henv, Hval. reflexivity.
  - intros ip' Hrefused. apply validateWebhookRequest_refused; [exact Hsecret | now left].
Qed.

End WithHost.

(** C9.  A payload accepted by the classifier has data with a non-empty
    [id]; and in both entry points the branch that throws
    "Invalid payload: missing issue ID" is never taken: whatever
    statement stands in that branch, the entry point behaves the
    same. *)
Theorem accepted_payload_has_an_id :
  (forall p : Types.LinearWebhookPayload,
     Webhook.isIssueCreationEvent p || Webhook.isIssueLabelUpdateEvent p = true ->
     exists d i, Types.data p = Some d /\ Types.id d = Some i /\ i <> "")
  /\ (forall (h : host) (k : M Api.Response) env req,
        Api.handler_with h k env req = Api.handler h env req)
  /\ (forall (h : host) (k : M Index.served) env request,
        Index.serve_with h k env request = Index.serve h env request).
Proof.
  split; [| split].
  - intros p Hacc. destruct (actionable_has_id p Hacc) as (d & Hd & Hid).
    apply truthy_true in Hid as (i & Hi & Hne). now exists d, i.
  - apply handler_with_independent.
  - apply serve_with_independent.
Qed.

Lemma accepted_payload_has_an_id_witness :
  exists d i, Types.data (Sample.created "Bug") = Some d
              /\ Types.id d = Some i /\ i <> "".
Proof.
  apply (proj1 accepted_payload_has_an_id (Sample.created "Bug")). reflexivity.
Defined.

Lemma malformed_body_is_an_error_not_a_refusal_witness :
  Api.handler Sample.host_ok Sample.env (Sample.api_request "{ not json")
  = ([ ConsoleError "Error processing webhook:"
         (LogError (SyntaxError "Unexpected token in JSON at position 0")) ],
     Returned (Sample.error_response
                 (SyntaxError "Unexpected token in JSON at position 0"))).
Proof.
  assert (Hsecret : Sample.secret <> "") by discriminate.
  assert (Hip : Api.request_ip (Sample.api_request "{ not json") ∈ Webhook.ALLOWED_IPS)
    by (apply TableFacts.elem_of_existsb; reflexivity).
  exact (proj1 (proj2 (malformed_body_is_an_error_not_a_refusal Sample.host_ok
                         Sample.env (Sample.api_request "{ not json") Sample.secret
                         (SyntaxError "Unexpected token in JSON at position 0")
                         eq_refl Hsecret Hip eq_refl eq_refl))).
Defined.

Lemma classification_and_ignored_events_witness :
  Api.handler Sample.host_ok Sample.env
    (Sample.api_request "comment-created")
  = ([], Returned Sample.ignored_response).
Proof.
  apply (proj2 (proj2 (classification_and_ignored_events Sample.host_ok _
                         (Sample.api_request "comment-created") Sample.comment_created))).
  - reflexivity.
  - reflexivity.
  - intros [(Ht & _) | (Ht & _)]; discriminate.
Defined.

End HandlerFacts.

(** ** The validated environment *)

Module EnvFacts.

(** When [validateEnv] returns, it has written nothing, the five
    required variables are non-empty, and the object it returns has the
    keys of [Env] and no other: [managerLinearApiKey], which
    [src/api/webhook.ts] reads, is not one of them. *)
Lemma validateEnv_returned (context_env env : gmap string string) :
  result (AgentUtils.validateEnv context_env) = Returned env ->
  AgentUtils.validateEnv context_env = ([], Returned env)
  /\ truthy (env !! "linearWebhookSecret") = true
  /\ truthy (env !! "managerApiKey") = true
  /\ truthy (env !! "bugApiKey") = true
  /\ truthy (env !! "featureApiKey") = true
  /\ truthy (env !! "improvementApiKey") = true
  /\ env !! "linearWebhookSecret" = context_env !! "LINEAR_WEBHOOK_SECRET"
  /\ env !! "managerApiKey" = context_env !! "MANAGER_API_KEY"
  /\ env !! "managerLinearApiKey" = None.
Proof.
  unfold AgentUtils.validateEnv, AgentUtils.required, result. cbn [List.filter].
  destruct (context_env !! "LINEAR_WEBHOOK_SECRET") as [s1 |];
    [cbn [truthy]; destruct (s1 =? "")%string eqn:E1 |]; cbn [truthy negb];
    try (cbn; discriminate).
  destruct (context_env !! "MANAGER_API_KEY") as [s2 |];
    [cbn [truthy]; destruct (s2 =? "")%string eqn:E2 |]; cbn [truthy negb];
    try (cbn; discriminate).
  destruct (context_env !! "BUG_API_KEY") as [s3 |];
    [cbn [truthy]; destruct (s3 =? "")%string eqn:E3 |]; cbn [truthy negb];
    try (cbn; discriminate).
  destruct (context_env !! "FEATURE_API_KEY") as [s4 |];
    [cbn [truthy]; destruct (s4 =? "")%string eqn:E4 |]; cbn [truthy negb];
    try (cbn; discriminate).
  destruct (context_env !! "IMPROVEMENT_API_KEY") as [s5 |];
    [cbn [truthy]; destruct (s5 =? "")%string eqn:E5 |]; cbn [truthy negb];
    try (cbn; discriminate).
  cbn [List.length Z.of_nat Z.ltb Z.compare snd ret].
  intros Henv. injection Henv as <-.
  unfold AgentUtils.object_of_optional.
  destruct (context_env !! "UPSTASH_REDIS_URL"), (context_env !! "UPSTASH_REDIS_TOKEN");
    cbn [omap list_omap fst snd];
    rewrite !TableFacts.list_to_map_lookup; cbn [assoc String.eqb Ascii.eqb Bool.eqb];
    unfold truthy; rewrite ?E1, ?E2, ?E3, ?E4, ?E5; repeat split.
Qed.

End EnvFacts.

(** ** Dispatch, its failure, and the label *)

Module DispatchFacts.

Import ClassifierFacts WebhookFacts HandlerFacts EnvFacts.

Section WithHost.
Context (h : host).

(** The comment that reports a failed task. *)
Lemma notice_comment (client : Types.LinearClient) (issueId : string) :
  Tools.createCommentTool h client "Manager Bot" issueId Label.error_notice
  = match client_createComment h (Types.apiKey client) issueId Label.notice_body with
    | Gives _ =>
        ([ ClientCreateComment (Types.apiKey client) issueId Label.notice_body ],
         Returned "Comment added successfully")
    | Fails e =>
        ([ ClientCreateComment (Types.apiKey client) issueId Label.notice_body ], Thrown e)
    end.
Proof.
  unfold Tools.createCommentTool, bind, call, ret, settled.
  change ("[" +:+ "Manager Bot" +:+ "] " +:+ Label.error_notice) with Label.notice_body.
  now destruct (client_createComment h _ _ _).
Qed.

(** [src/api/webhook.ts], lines 199 to 230: when the task throws,
    one comment is attempted, a failure of the comment is logged, and
    the error thrown is the error of the task. *)
Lemma dispatch_keeps_the_task_error
    (managerClient : Types.LinearClient) (issueId : string)
    (prompt : Types.task_prompt) (e : js_error) :
  task_run h prompt = Fails e ->
  result (Api.dispatch h managerClient issueId prompt) = Thrown e
  /\ comment_attempts (trace (Api.dispatch h managerClient issueId prompt)) = 1%nat
  /\ (forall e', client_createComment h (Types.apiKey managerClient) issueId Label.notice_body
                 = Fails e' ->
        Api.dispatch h managerClient issueId prompt
        = ([ TaskRun prompt;
             ConsoleError "Task execution error:" (LogError e);
             ClientCreateComment (Types.apiKey managerClient) issueId Label.notice_body;
             ConsoleError "Failed to comment error on issue:" (LogError e') ],
           Thrown e)).
Proof.
  intros Htask.
  unfold Api.dispatch. rewrite notice_comment.
  unfold result, trace, try_catch, bind, call, console_error, ret, throw, settled.
  rewrite Htask.
  destruct (client_createComment h (Types.apiKey managerClient) issueId Label.notice_body)
    as [[] | e'] eqn:Hcomment; cbn.
  - split; [reflexivity | split; [reflexivity |] ]. intros e' He'. discriminate.
  - split; [reflexivity | split; [reflexivity |] ]. intros e'' He''.
    now injection He'' as <-.
Qed.


(** C4 fails in [src/index.ts].  When the task throws [e] and the
    comment that reports it throws [e'], the step [process-issue] throws
    [e']: the error of the notification is neither logged nor discarded,
    and the error of the task is lost. *)
Theorem process_issue_loses_the_task_error
    (manager : Types.LinearClient) (issueId : string)
    (prompt : Types.task_prompt) (e e' : js_error) :
  task_run h prompt = Fails e ->
  client_createComment h (Types.apiKey manager) issueId Label.notice_body = Fails e' ->
  Index.process_issue h manager issueId prompt
  = ([ TaskRun prompt; ClientCreateComment (Types.apiKey manager) issueId Label.notice_body ],
     Thrown e').
Proof.
  intros Htask Hcomment.
  unfold Index.process_issue. rewrite notice_comment, Hcomment.
  unfold try_catch, bind, call, ret, throw, settled.
  now rewrite Htask.
Qed.

(** The workflow of [src/index.ts] on a validated request with an
    accepted payload: whatever the label, the clients are initialised
    and the task is run on the prompt that carries the label in lower
    case. *)
Lemma serve_accepted (context_env env : gmap string string)
    (request : Index.WebhookRequest) (p : Types.LinearWebhookPayload)
    (d : Types.issue_data) (key : string) :
  result (AgentUtils.validateEnv context_env) = Returned env ->
  env !! "managerApiKey" = Some key ->
  result (Webhook.validateWebhookRequest h (Index.request_headers request)
            (Index.body request) (Index.request_ip request)
            (env !! "linearWebhookSecret")) = Returned true ->
  JSON_parse h (Index.body request) = Gives p ->
  Webhook.isIssueCreationEvent p || Webhook.isIssueLabelUpdateEvent p = true ->
  Types.data p = Some d ->
  Index.serve h context_env request
  = let* text := Index.process_issue h (Types.mk_client key) (interpolate (Types.id d))
                   (Types.mk_prompt (interpolate (Types.id d))
                      (interpolate (Types.title d))
                      (interpolate (Types.description d))
                      (toLowerCase (Label.firstLabel (Types.labels d)))) in
    ret (Index.Processed "Issue processed successfully" text).
Proof.
  intros Henv Hkey Hvalid Hparse Hacc Hd.
  destruct (validateEnv_returned _ _ Henv)
    as (Hrun & _ & Hmanager & Hbug & Hfeature & Himprovement & _).
  apply validateWebhookRequest_true_silent in Hvalid.
  destruct (actionable_has_id p Hacc) as (d' & Hd' & Hid).
  rewrite Hd in Hd'. injection Hd' as <-.
  unfold Index.serve, Index.serve_with. rewrite Hrun, RunFacts.bind_returned.
  unfold Index.validate_webhook. rewrite Hvalid, RunFacts.bind_returned.
  cbn [negb]. unfold pure, settled. rewrite Hparse, RunFacts.bind_returned, Hacc.
  cbn [negb]. rewrite RunFacts.bind_ret.
  cbn [Index.status Index.payload String.eqb Ascii.eqb Bool.eqb].
  rewrite Hd, Hid. cbn [negb].
  unfold Index.initialize_clients, AgentUtils.initializeLinearClient, truthy in *.
  rewrite Hkey in Hmanager |- *.
  destruct (env !! "bugApiKey") as [k2 |]; [| discriminate].
  destruct (env !! "featureApiKey") as [k3 |]; [| discriminate].
  destruct (env !! "improvementApiKey") as [k4 |]; [| discriminate].
  destruct (key =? "")%string; [discriminate |].
  destruct (k2 =? "")%string; [discriminate |].
  destruct (k3 =? "")%string; [discriminate |].
  destruct (k4 =? "")%string; [discriminate |].
  rewrite !RunFacts.bind_ret. reflexivity.
Qed.


(** [src/api/webhook.ts] reads [managerLinearApiKey] from the
    environment object, which has no such key: every validated, accepted
    event ends in status 500 before the task is created. *)
Lemma api_handler_has_no_manager_key (context_env env : gmap string string)
    (req : Api.Request) (p : Types.LinearWebhookPayload) :
  result (AgentUtils.validateEnv context_env) = Returned env ->
  result (Webhook.validateWebhookRequest h (Api.request_headers req) (Api.req_text req)
            (Api.request_ip req) (env !! "linearWebhookSecret")) = Returned true ->
  JSON_parse h (Api.req_text req) = Gives p ->
  Webhook.isIssueCreationEvent p || Webhook.isIssueLabelUpdateEvent p = true ->
  Api.POST h context_env req
  = ([ ConsoleError "Error processing webhook:"
         (LogError (Error "Missing API key for manager role")) ],
     Returned (Sample.error_response (Error "Missing API key for manager role"))).
Proof.
  intros Henv Hvalid Hparse Hacc.
  destruct (validateEnv_returned _ _ Henv) as (Hrun & _ & _ & _ & _ & _ & _ & _ & Hnone).
  apply validateWebhookRequest_true_silent in Hvalid.
  destruct (actionable_has_id p Hacc) as (d & Hd & Hid).
  apply orb_true_iff in Hacc.
  assert (Hneg : negb (Webhook.isIssueCreationEvent p)
                 && negb (Webhook.isIssueLabelUpdateEvent p) = false)
    by (destruct Hacc as [-> | ->]; cbn; [| rewrite andb_false_r]; reflexivity).
  unfold Api.POST. rewrite Hrun, RunFacts.bind_returned.
  unfold Api.handler, Api.handler_with. rewrite Hvalid, RunFacts.bind_returned.
  cbn [negb]. unfold pure, settled. rewrite Hparse, RunFacts.bind_returned, Hneg, Hd, Hid.
  cbn [negb]. rewrite Hnone. reflexivity.
Qed.

End WithHost.

Lemma process_issue_loses_the_task_error_witness :
  Index.process_issue Sample.host_task_and_comment_fail Sample.manager "ISS-1"
    (Types.mk_prompt "ISS-1" "Crash on save" "The editor crashes." "bug")
  = ([ TaskRun (Types.mk_prompt "ISS-1" "Crash on save" "The editor crashes." "bug");
       ClientCreateComment "key-manager" "ISS-1" Label.notice_body ],
     Thrown (Error "comment failed")).
Proof.
  exact (process_issue_loses_the_task_error Sample.host_task_and_comment_fail
           Sample.manager "ISS-1"
           (Types.mk_prompt "ISS-1" "Crash on save" "The editor crashes." "bug")
           (Error "task failed") (Error "comment failed") eq_refl eq_refl).
Defined.

(** The whole workflow on that input: the caller sees "comment failed",
    where the task had failed with "task failed". *)
Example serve_reports_the_comment_error :
  result (Index.serve Sample.host_task_and_comment_fail Sample.process_env
            (Sample.index_request "issue-created-Bug"))
  = Thrown (Error "comment failed").
Proof. vm_compute. reflexivity. Qed.

(** The sibling entry point on the same failures keeps the error of the
    task. *)
Example dispatch_reports_the_task_error :
  result (Api.dispatch Sample.host_task_and_comment_fail Sample.manager "ISS-1"
            (Types.mk_prompt "ISS-1" "Crash on save" "The editor crashes." "bug"))
  = Thrown (Error "task failed").
Proof. vm_compute. reflexivity. Qed.



End DispatchFacts.

(** ** How runs end and what they leave in the trace *)

Module EndsFacts.

Import Observed.

Lemma ends_ret {A : Type} (a : A) (R : A -> Prop) (T : js_error -> Prop) :
  R a -> ends (ret a) R T.
Proof. intros Ha. exact Ha. Qed.

Lemma ends_throw {A : Type} (e : js_error) (R : A -> Prop) (T : js_error -> Prop) :
  T e -> ends (throw e : M A) R T.
Proof. intros He. exact He. Qed.

Lemma ends_call {A : Type} (ev : event) (c : completion A)
    (R : A -> Prop) (T : js_error -> Prop) :
  (forall a, c = Gives a -> R a) -> (forall e, c = Fails e -> T e) ->
  ends (call ev c) R T.
Proof. intros HR HT. destruct c as [a | e]; cbn; auto. Qed.

Lemma ends_settled {A : Type} (c : completion A) (R : A -> Prop) (T : js_error -> Prop) :
  (forall a, c = Gives a -> R a) -> (forall e, c = Fails e -> T e) ->
  ends (pure (settled c)) R T.
Proof. intros HR HT. destruct c as [a | e]; cbn; auto. Qed.

Lemma ends_bind {A B : Type} (m : M A) (k : A -> M B)
    (R : B -> Prop) (T : js_error -> Prop) :
  ends m (fun a => ends (k a) R T) T -> ends (bind m k) R T.
Proof.
  unfold ends, result. destruct m as [t [a | e |]]; cbn; try easy.
  now destruct (k a) as [t' r].
Qed.

Lemma ends_try_catch {A : Type} (m : M A) (handler : js_error -> M A)
    (R : A -> Prop) (T : js_error -> Prop) :
  ends m R (fun e => ends (handler e) R T) -> ends (try_catch m handler) R T.
Proof.
  unfold ends, result. destruct m as [t [a | e |]]; cbn; try easy.
  now destruct (handler e) as [t' r].
Qed.

Lemma ends_weaken {A : Type} (m : M A) (R R' : A -> Prop) (T T' : js_error -> Prop) :
  ends m R T -> (forall a, R a -> R' a) -> (forall e, T e -> T' e) -> ends m R' T'.
Proof. unfold ends. destruct (result m); auto. Qed.

Lemma ends_returned {A : Type} (m : M A) (R : A -> Prop) :
  ends m R (fun _ => False) -> exists a, result m = Returned a /\ R a.
Proof. unfold ends. destruct (result m) as [a | e |]; try easy. intros Ha. now exists a. Qed.

(** Traces. *)

Lemma trace_bind {A B : Type} (m : M A) (k : A -> M B) :
  trace (bind m k)
  = match result m with
    | Returned a => (trace m ++ trace (k a))%list
    | _ => trace m
    end.
Proof. destruct m as [t [a | e |]]; cbn; try reflexivity. now destruct (k a). Qed.

Lemma trace_try_catch {A : Type} (m : M A) (handler : js_error -> M A) :
  trace (try_catch m handler)
  = match result m with
    | Thrown e => (trace m ++ trace (handler e))%list
    | _ => trace m
    end.
Proof. destruct m as [t [a | e |]]; cbn; try reflexivity. now destruct (handler e). Qed.

Lemma only_console_bind {A B : Type} (m : M A) (k : A -> M B) :
  only_console m -> (forall a, result m = Returned a -> only_console (k a)) ->
  only_console (bind m k).
Proof.
  unfold only_console. intros Hm Hk. rewrite trace_bind.
  destruct (result m) as [a | e |] eqn:Hr; try exact Hm.
  rewrite forallb_app, Hm. now apply Hk.
Qed.

Lemma only_console_try_catch {A : Type} (m : M A) (handler : js_error -> M A) :
  only_console m -> (forall e, result m = Thrown e -> only_console (handler e)) ->
  only_console (try_catch m handler).
Proof.
  unfold only_console. intros Hm Hk. rewrite trace_try_catch.
  destruct (result m) as [a | e |] eqn:Hr; try exact Hm.
  rewrite forallb_app, Hm. now apply Hk.
Qed.

(** The environment of the samples is the validated one. *)
Lemma sample_env_validated :
  result (AgentUtils.validateEnv Sample.process_env) = Returned Sample.env.
Proof. reflexivity. Qed.

End EndsFacts.

(** ** The handler of [src/api/webhook.ts] and the refusals *)

Module AuthFacts.

Import Observed EndsFacts TableFacts ClassifierFacts WebhookFacts HandlerFacts EnvFacts.

Section WithHost.
Context (h : host).

Lemma validateWebhookRequest_only_console headers body ip webhookSecret :
  only_console (Webhook.validateWebhookRequest h headers body ip webhookSecret)
  /\ result (Webhook.validateWebhookRequest h headers body ip webhookSecret) <> HostDefined.
Proof.
  unfold only_console, Webhook.validateWebhookRequest, trace, result, bind, pure,
    console_error, call, ret, throw, settled.
  destruct webhookSecret as [secret |]; [| easy].
  destruct (secret =? "")%string; [easy |].
  destruct (Webhook.verifyWebhookIp ip); [| easy].
  destruct (Webhook.verifyWebhookSignature h body _ secret); [| easy].
  cbn. destruct (JSON_parse h body) as [p | e]; [| easy].
  destruct (Webhook.verifyWebhookTimestamp h p); easy.
Qed.

(** X1.  [validateWebhookRequest] writes to the console only when it
    returns [false], and then one line, for the first check that fails
    in the order address, signature, time stamp: the address is logged
    with the line, a wrong signature is reported only for an allowed
    address, and an old time stamp only for an allowed address, a right
    signature and a body that parses. *)
Theorem validateWebhookRequest_logs_the_first_failure
    (headers : Webhook.WebhookHeaders) (body ip : string) (webhookSecret : option string) :
  let run := Webhook.validateWebhookRequest h headers body ip webhookSecret in
  (result run <> Returned false -> trace run = [])
  /\ (result run = Returned false ->
      exists secret, webhookSecret = Some secret /\ secret <> ""
      /\ ((Webhook.verifyWebhookIp ip = false
           /\ trace run = [ ConsoleError "Invalid webhook IP:" (LogText ip) ])
          \/ (Webhook.verifyWebhookIp ip = true
              /\ Webhook.linear_signature headers <> hmac_sha256_hex h secret body
              /\ trace run = [ ConsoleError "Invalid webhook signature" LogNothing ])
          \/ (Webhook.verifyWebhookIp ip = true
              /\ Webhook.linear_signature headers = hmac_sha256_hex h secret body
              /\ (exists p, JSON_parse h body = Gives p
                            /\ Webhook.verifyWebhookTimestamp h p = false)
              /\ trace run = [ ConsoleError "Webhook timestamp is too old" LogNothing ]))).
Proof.
  cbn zeta.
  unfold Webhook.validateWebhookRequest, trace, result, bind, pure,
    console_error, call, ret, throw, settled.
  destruct webhookSecret as [secret |]; [| split; [reflexivity | discriminate] ].
  destruct (secret =? "")%string eqn:Hsecret; [split; [reflexivity | discriminate] |].
  apply String.eqb_neq in Hsecret.
  destruct (Webhook.verifyWebhookIp ip) eqn:Hip; cbn.
  2:{ split; [congruence |]. intros _. exists secret. repeat split; auto. }
  destruct (Webhook.verifyWebhookSignature h body _ secret) eqn:Hsig; cbn.
  2:{ split; [congruence |]. intros _. exists secret. repeat split; auto.
      right; left. repeat split; auto.
      intros Heq. apply verifyWebhookSignature_true in Heq. congruence. }
  apply verifyWebhookSignature_true in Hsig.
  destruct (JSON_parse h body) as [p | e] eqn:Hparse; [| split; [reflexivity | discriminate] ].
  destruct (Webhook.verifyWebhookTimestamp h p) eqn:Hts; cbn.
  - split; [reflexivity | discriminate].
  - split; [congruence |]. intros _. exists secret. repeat split; auto.
    right; right. repeat split; auto. now exists p.
Qed.


Lemma validateWebhookRequest_true_trace headers body ip webhookSecret t :
  Webhook.validateWebhookRequest h headers body ip webhookSecret = (t, Returned true) ->
  t = [].
Proof.
  intros Hval.
  pose proof (validateWebhookRequest_true_silent h headers body ip webhookSecret) as Hs.
  rewrite Hval in Hs. specialize (Hs eq_refl). now injection Hs.
Qed.

(** The answers of [src/api/webhook.ts]. *)

Lemma dispatch_ends managerClient issueId prompt :
  ends (Api.dispatch h managerClient issueId prompt)
    (fun r => Api.status r = 200) (fun _ => True).
Proof.
  unfold Api.dispatch, Tools.createCommentTool, ends, result, try_catch, bind, call,
    console_error, ret, throw, settled.
  destruct (task_run h prompt) as [text | e]; cbn; [reflexivity |].
  destruct (client_createComment h _ _ _) as [[] | e']; cbn; exact I.
Qed.

Lemma initializeLinearClient_ends apiKey role :
  ends (AgentUtils.initializeLinearClient apiKey role) (fun _ => True) (fun _ => True).
Proof.
  unfold AgentUtils.initializeLinearClient.
  destruct apiKey as [key |]; [destruct (key =? "")%string |]; exact I.
Qed.

Lemma ends_bind_all {A B : Type} (m : M A) (k : A -> M B)
    (R : B -> Prop) (T : js_error -> Prop) :
  ends m (fun _ => True) T -> (forall a, ends (k a) R T) -> ends (bind m k) R T.
Proof.
  intros Hm Hk. apply ends_bind. apply (ends_weaken _ _ _ _ _ Hm); auto.
Qed.

(** What follows a successful validation in the handler. *)
Lemma handler_after_validation (missing_id : M Api.Response) env req :
  ends missing_id (fun r => Api.status r = 200) (fun _ => True) ->
  Webhook.validateWebhookRequest h (Api.request_headers req) (Api.req_text req)
    (Api.request_ip req) (env !! "linearWebhookSecret") = ([], Returned true) ->
  ends (Api.handler_with h missing_id env req)
    (fun r => Api.status r = 200 \/ Api.status r = 500) (fun _ => False).
Proof.
  intros Hmissing Hval. unfold Api.handler_with. rewrite Hval.
  apply ends_try_catch. rewrite RunFacts.bind_returned. cbn [negb].
  eapply ends_weaken with (R := fun r => Api.status r = 200) (T := fun _ => True);
    [| intros r Hr; now left | intros e _; cbn; now right].
  apply ends_bind. apply ends_settled; [| easy]. intros p _.
  destruct (negb (Webhook.isIssueCreationEvent p)
            && negb (Webhook.isIssueLabelUpdateEvent p)); [reflexivity |].
  destruct (Types.data p) as [d |]; [| exact I].
  destruct (negb (truthy (Types.id d))); [exact Hmissing |].
  repeat (apply ends_bind_all; [apply initializeLinearClient_ends | intros ?]).
  apply dispatch_ends.
Qed.

(** X2.  The request handler of [src/api/webhook.ts] never throws:
    for every environment object and request it returns a response,
    whose status is 200, 401 or 500, and the status is 401 exactly when
    [validateWebhookRequest] returned [false]. *)
Theorem handler_always_answers (env : gmap string string) (req : Api.Request) :
  exists r,
    result (Api.handler h env req) = Returned r
    /\ (Api.status r = 200 \/ Api.status r = 401 \/ Api.status r = 500)
    /\ (Api.status r = 401 <->
        result (Webhook.validateWebhookRequest h (Api.request_headers req)
                  (Api.req_text req) (Api.request_ip req) (env !! "linearWebhookSecret"))
        = Returned false).
Proof.
  destruct (Webhook.validateWebhookRequest h (Api.request_headers req) (Api.req_text req)
              (Api.request_ip req) (env !! "linearWebhookSecret"))
    as [t [[] | e |]] eqn:Hval.
  - pose proof (validateWebhookRequest_true_trace _ _ _ _ _ Hval) as ->.
    destruct (ends_returned _ _
                (handler_after_validation (throw (Error "Invalid payload: missing issue ID"))
                   env req I Hval)) as (r & Hr & Hstatus).
    exists r. split; [exact Hr |]. split; [tauto |].
    cbn. split; [intros H401; destruct Hstatus as [H | H]; rewrite H in H401; discriminate
                | discriminate].
  - eexists. unfold Api.handler, Api.handler_with. rewrite Hval. cbn.
    split; [reflexivity |]. split; [right; left; reflexivity | split; reflexivity].
  - eexists. unfold Api.handler, Api.handler_with. rewrite Hval. cbn.
    split; [reflexivity |]. split; [right; right; reflexivity |].
    split; discriminate.
  - exfalso.
    pose proof (proj2 (validateWebhookRequest_only_console (Api.request_headers req)
                         (Api.req_text req) (Api.request_ip req)
                         (env !! "linearWebhookSecret"))) as Hne.
    rewrite Hval in Hne. now apply Hne.
Qed.


(** X3.  A request whose [x-forwarded-for] has an empty first entry
    or is absent, and whose [x-real-ip] is empty or absent, is checked
    under the address ["0.0.0.0"], which is not allowed: with a secret
    configured the handler logs the address and answers 401, whatever
    the signature. *)
Theorem request_without_address_is_refused
    (env : gmap string string) (req : Api.Request) (secret : string) :
  env !! "linearWebhookSecret" = Some secret ->
  secret <> "" ->
  (forall v, Api.req_headers req !! "x-forwarded-for" = Some v ->
             trim (split_comma_first v) = "") ->
  (forall v, Api.req_headers req !! "x-real-ip" = Some v -> v = "") ->
  Api.request_ip req = "0.0.0.0"
  /\ Api.handler h env req
     = ([ ConsoleError "Invalid webhook IP:" (LogText "0.0.0.0") ],
        Returned (Api.mk_response 401
                    [ ("error", "Invalid webhook request");
                      ("details", "Failed to validate webhook signature or request") ])).
Proof.
  intros Henv Hsecret Hforwarded Hreal.
  assert (Hip : Api.request_ip req = "0.0.0.0").
  { unfold Api.request_ip, Api.or_undefined.
    destruct (Api.req_headers req !! "x-forwarded-for") as [v |]; cbn.
    - rewrite (Hforwarded v eq_refl). cbn.
      destruct (Api.req_headers req !! "x-real-ip") as [w |]; [| reflexivity].
      now rewrite (Hreal w eq_refl).
    - destruct (Api.req_headers req !! "x-real-ip") as [w |]; [| reflexivity].
      now rewrite (Hreal w eq_refl). }
  split; [exact Hip |].
  unfold Api.handler, Api.handler_with, Webhook.validateWebhookRequest.
  rewrite Henv, Hip. apply String.eqb_neq in Hsecret. rewrite Hsecret. reflexivity.
Qed.

(** The address the handler checks is never empty. *)
Lemma request_ip_not_empty (req : Api.Request) : Api.request_ip req <> "".
Proof.
  unfold Api.request_ip, or_else.
  destruct (Api.or_undefined _ _) as [s |]; [| discriminate].
  destruct (s =? "")%string eqn:Hs; [discriminate | now apply String.eqb_neq].
Qed.

Lemma validateEnv_silent (context_env : gmap string string) :
  trace (AgentUtils.validateEnv context_env) = []
  /\ result (AgentUtils.validateEnv context_env) <> HostDefined.
Proof.
  unfold AgentUtils.validateEnv.
  destruct (0 <? Z.of_nat (List.length _)); split; easy.
Qed.

Lemma handler_without_manager_key (env : gmap string string) (req : Api.Request) :
  env !! "managerLinearApiKey" = None ->
  only_console (Api.handler h env req)
  /\ (forall r, result (Api.handler h env req) = Returned r -> Api.status r = 200 ->
                r = Sample.ignored_response).
Proof.
  intros Hnone.
  destruct (validateWebhookRequest_only_console (Api.request_headers req)
              (Api.req_text req) (Api.request_ip req) (env !! "linearWebhookSecret"))
    as [Hconsole Hdefined].
  unfold Api.handler, Api.handler_with.
  destruct (Webhook.validateWebhookRequest h (Api.request_headers req) (Api.req_text req)
              (Api.request_ip req) (env !! "linearWebhookSecret"))
    as [t [[] | e |]] eqn:Hval.
  - pose proof (validateWebhookRequest_true_trace _ _ _ _ _ Hval) as ->.
    rewrite RunFacts.bind_returned. cbn [negb]. unfold pure, settled.
    destruct (JSON_parse h (Api.req_text req)) as [p | e];
      [rewrite RunFacts.bind_returned | split; [reflexivity | intros r Hr; now injection Hr as <-] ].
    destruct (negb (Webhook.isIssueCreationEvent p)
              && negb (Webhook.isIssueLabelUpdateEvent p));
      [split; [reflexivity | intros r Hr _; now injection Hr as <-] |].
    destruct (Types.data p) as [d |];
      [| split; [reflexivity | intros r Hr; now injection Hr as <-] ].
    destruct (negb (truthy (Types.id d)));
      [split; [reflexivity | intros r Hr; now injection Hr as <-] |].
    rewrite Hnone. split; [reflexivity | intros r Hr; now injection Hr as <-].
  - unfold only_console, trace, result in *. cbn in *. rewrite app_nil_r.
    split; [exact Hconsole | intros r Hr; now injection Hr as <-].
  - unfold only_console, trace, result in *. cbn in *.
    rewrite forallb_app, Hconsole. split; [reflexivity | intros r Hr; now injection Hr as <-].
  - now contradiction Hdefined.
Qed.

(** X4.  [POST] of [src/api/webhook.ts] never calls the issue tracker
    and never runs the task, for any environment and any request: its
    trace is console output only, and the only response with status 200
    it gives is the one for an ignored event.  (The handler reads the
    keys of the clients under names the environment object does not
    have.) *)
Theorem POST_never_runs_the_task (context_env : gmap string string) (req : Api.Request) :
  only_console (Api.POST h context_env req)
  /\ (forall r, result (Api.POST h context_env req) = Returned r -> Api.status r = 200 ->
                Api.json r = [ ("message", "Event ignored");
                               ("details", "Event type not supported") ]).
Proof.
  unfold Api.POST.
  destruct (validateEnv_silent context_env) as [Htrace Hdefined].
  destruct (AgentUtils.validateEnv context_env) as [t [env | e |]] eqn:Hrun;
    cbn in Htrace; subst t.
  - assert (Hnone : env !! "managerLinearApiKey" = None).
    { apply (validateEnv_returned context_env env). now rewrite Hrun. }
    rewrite RunFacts.bind_returned.
    destruct (handler_without_manager_key env req Hnone) as [Hconsole Hok].
    split; [exact Hconsole |]. intros r Hr H200. now rewrite (Hok r Hr H200).
  - split; [reflexivity | discriminate].
  - now contradiction Hdefined.
Qed.

End WithHost.

Lemma validateWebhookRequest_logs_the_first_failure_witness :
  let run := Webhook.validateWebhookRequest Sample.host_ok
               (Webhook.mk_headers "d-1" "Issue" "forged") "issue-created-Bug"
               "35.231.147.226" (Some Sample.secret) in
  result run = Returned false
  /\ trace run = [ ConsoleError "Invalid webhook signature" LogNothing ].
Proof.
  cbn zeta. split; [reflexivity |].
  pose proof (validateWebhookRequest_logs_the_first_failure Sample.host_ok
                (Webhook.mk_headers "d-1" "Issue" "forged") "issue-created-Bug"
                "35.231.147.226" (Some Sample.secret)) as Hlogs.
  cbn zeta in Hlogs. destruct Hlogs as [_ Hrefused].
  destruct (Hrefused eq_refl)
    as (secret & Hsecret & _ & [ [Hip _] | [ (_ & _ & Ht) | (_ & Hsig & _) ] ]).
  - vm_compute in Hip. discriminate.
  - exact Ht.
  - injection Hsecret as <-. vm_compute in Hsig. discriminate.
Defined.

Lemma request_without_address_is_refused_witness :
  Api.handler Sample.host_ok Sample.env (Cases.anonymous_request "issue-created-Bug")
  = ([ ConsoleError "Invalid webhook IP:" (LogText "0.0.0.0") ],
     Returned (Api.mk_response 401
                 [ ("error", "Invalid webhook request");
                   ("details", "Failed to validate webhook signature or request") ])).
Proof.
  refine (proj2 (request_without_address_is_refused Sample.host_ok Sample.env
                   (Cases.anonymous_request "issue-created-Bug") Sample.secret _ _ _ _)).
  - vm_compute. reflexivity.
  - discriminate.
  - intros v Hv. vm_compute in Hv. discriminate.
  - intros v Hv. vm_compute in Hv. discriminate.
Defined.

Lemma POST_never_runs_the_task_witness :
  result (Api.POST Sample.host_ok Sample.process_env (Sample.api_request "comment-created"))
  = Returned Sample.ignored_response
  /\ Api.json Sample.ignored_response
     = [ ("message", "Event ignored"); ("details", "Event type not supported") ].
Proof.
  assert (Hr : result (Api.POST Sample.host_ok Sample.process_env
                         (Sample.api_request "comment-created"))
               = Returned Sample.ignored_response) by (vm_compute; reflexivity).
  split; [exact Hr |].
  exact (proj2 (POST_never_runs_the_task Sample.host_ok Sample.process_env
                  (Sample.api_request "comment-created")) _ Hr eq_refl).
Defined.

Lemma api_handler_has_no_manager_key_witness :
  Api.POST Sample.host_ok Sample.process_env (Sample.api_request "issue-created-Bug")
  = ([ ConsoleError "Error processing webhook:"
         (LogError (Error "Missing API key for manager role")) ],
     Returned (Sample.error_response (Error "Missing API key for manager role"))).
Proof.
  refine (DispatchFacts.api_handler_has_no_manager_key Sample.host_ok Sample.process_env
            Sample.env (Sample.api_request "issue-created-Bug") (Sample.created "Bug")
            sample_env_validated _ _ _); reflexivity.
Defined.

End AuthFacts.

(** ** The workflow of [src/index.ts] *)

Module WorkflowFacts.

Import Observed EndsFacts TableFacts ClassifierFacts WebhookFacts HandlerFacts EnvFacts
  DispatchFacts AuthFacts.

Section WithHost.
Context (h : host).

Lemma validateWebhookRequest_true_parses headers body ip webhookSecret :
  result (Webhook.validateWebhookRequest h headers body ip webhookSecret) = Returned true ->
  exists p, JSON_parse h body = Gives p.
Proof.
  unfold Webhook.validateWebhookRequest, result, bind, pure, console_error, call, ret, throw,
    settled.
  destruct webhookSecret as [secret |]; [| discriminate].
  destruct (secret =? "")%string; [discriminate |].
  destruct (Webhook.verifyWebhookIp ip); [| discriminate].
  destruct (Webhook.verifyWebhookSignature h body _ secret); [| discriminate].
  cbn. destruct (JSON_parse h body) as [p | e]; [| discriminate].
  intros _. now exists p.
Qed.




(** The four ways the workflow goes. *)
Lemma serve_cases (context_env : gmap string string) (request : Index.WebhookRequest) :
  let validation env :=
    Webhook.validateWebhookRequest h (Index.request_headers request) (Index.body request)
      (Index.request_ip request) (env !! "linearWebhookSecret") in
  (exists e, AgentUtils.validateEnv context_env = ([], Thrown e)
             /\ Index.serve h context_env request = ([], Thrown e))
  \/ (exists env e, result (AgentUtils.validateEnv context_env) = Returned env
                    /\ result (validation env) <> Returned true
                    /\ Index.serve h context_env request = (trace (validation env), Thrown e))
  \/ (exists env p, result (AgentUtils.validateEnv context_env) = Returned env
                    /\ result (validation env) = Returned true
                    /\ JSON_parse h (Index.body request) = Gives p
                    /\ Webhook.isIssueCreationEvent p || Webhook.isIssueLabelUpdateEvent p
                       = false
                    /\ Index.serve h context_env request
                       = ([], Returned (Index.Validation
                                          (Index.mk_validation "ignored"
                                             (Some "Event type not supported") None))))
  \/ (exists env p d key,
        result (AgentUtils.validateEnv context_env) = Returned env
        /\ result (validation env) = Returned true
        /\ JSON_parse h (Index.body request) = Gives p
        /\ Webhook.isIssueCreationEvent p || Webhook.isIssueLabelUpdateEvent p = true
        /\ Types.data p = Some d
        /\ truthy (Types.id d) = true
        /\ env !! "managerApiKey" = Some key
        /\ Index.serve h context_env request
           = let* text :=
               Index.process_issue h (Types.mk_client key) (interpolate (Types.id d))
                 (Types.mk_prompt (interpolate (Types.id d))
                    (interpolate (Types.title d))
                    (interpolate (Types.description d))
                    (toLowerCase (Label.firstLabel (Types.labels d)))) in
             ret (Index.Processed "Issue processed successfully" text)).
Proof.
  intros validation.
  destruct (validateEnv_silent context_env) as [Htrace Hdefined].
  destruct (AgentUtils.validateEnv context_env) as [t0 [env | e |]] eqn:Hrun;
    cbn in Htrace; subst t0; [| | now contradiction Hdefined].
  2:{ left. exists e. split; [reflexivity |].
      unfold Index.serve, Index.serve_with. now rewrite Hrun. }
  right.
  assert (Henv : result (AgentUtils.validateEnv context_env) = Returned env)
    by now rewrite Hrun.
  destruct (validateWebhookRequest_only_console h (Index.request_headers request)
              (Index.body request) (Index.request_ip request)
              (env !! "linearWebhookSecret")) as [_ Hdef].
  fold (validation env) in Hdef.
  destruct (validation env) as [t [[] | e |]] eqn:Hval; [| | | now contradiction Hdef].
  - pose proof (validateWebhookRequest_true_trace h _ _ _ _ _ Hval) as ->.
    assert (Hvalid : result (validation env) = Returned true) by now rewrite Hval.
    destruct (validateWebhookRequest_true_parses _ _ _ _ Hvalid) as [p Hparse].
    destruct (Webhook.isIssueCreationEvent p || Webhook.isIssueLabelUpdateEvent p) eqn:Hacc.
    + right; right.
      destruct (actionable_has_id p Hacc) as (d & Hd & Hid).
      destruct (validateEnv_returned _ _ Henv) as (_ & _ & Hmanager & _).
      destruct (env !! "managerApiKey") as [key |] eqn:Hkey; [| discriminate].
      exists env, p, d, key. repeat split; try assumption.
      exact (serve_accepted h _ _ _ _ _ _ Henv Hkey Hvalid Hparse Hacc Hd).
    + right; left. exists env, p. repeat split; try assumption.
      unfold Index.serve, Index.serve_with. rewrite Hrun, RunFacts.bind_returned.
      unfold Index.validate_webhook. fold (validation env).
      rewrite Hval, RunFacts.bind_returned.
      cbn [negb]. unfold pure, settled. now rewrite Hparse, RunFacts.bind_returned, Hacc.
  - left. exists env, (Error "Invalid webhook request").
    split; [reflexivity |]. split; [rewrite Hval; discriminate |].
    unfold Index.serve, Index.serve_with. rewrite Hrun, RunFacts.bind_returned.
    unfold Index.validate_webhook. fold (validation env). rewrite Hval. cbn.
    now rewrite !app_nil_r.
  - left. exists env, e.
    split; [reflexivity |]. split; [rewrite Hval; discriminate |].
    unfold Index.serve, Index.serve_with. rewrite Hrun, RunFacts.bind_returned.
    unfold Index.validate_webhook. fold (validation env). now rewrite Hval.
Qed.

(** X5.  The workflow of [src/index.ts] runs the task or calls the
    issue tracker only for an authentic, accepted event: if its trace
    holds more than console output, the environment was validated, the
    request passed [validateWebhookRequest], its body parsed to a
    payload that one of the two classifiers accepts, and the payload has
    data with an id. *)
Theorem serve_acts_only_on_authentic_accepted_events
    (context_env : gmap string string) (request : Index.WebhookRequest) :
  ~ only_console (Index.serve h context_env request) ->
  exists env p d,
    result (AgentUtils.validateEnv context_env) = Returned env
    /\ result (Webhook.validateWebhookRequest h (Index.request_headers request)
                 (Index.body request) (Index.request_ip request)
                 (env !! "linearWebhookSecret")) = Returned true
    /\ JSON_parse h (Index.body request) = Gives p
    /\ Webhook.isIssueCreationEvent p || Webhook.isIssueLabelUpdateEvent p = true
    /\ Types.data p = Some d
    /\ truthy (Types.id d) = true.
Proof.
  intros Hacts.
  destruct (serve_cases context_env request)
    as [(e & _ & Hserve)
       | [(env & e & _ & _ & Hserve)
         | [(env & p & _ & _ & _ & _ & Hserve)
           | (env & p & d & key & Henv & Hvalid & Hparse & Hacc & Hd & Hid & _)]]].
  - exfalso. apply Hacts. now rewrite Hserve.
  - exfalso. apply Hacts. rewrite Hserve.
    apply (validateWebhookRequest_only_console h).
  - exfalso. apply Hacts. now rewrite Hserve.
  - now exists env, p, d.
Qed.


(** X7.  A request that [validateWebhookRequest] refuses makes the
    workflow of [src/index.ts] throw [Error("Invalid webhook request")]
    (where [src/api/webhook.ts] answers 401); the trace is the line the
    validation logged. *)
Theorem serve_throws_on_a_refused_request
    (context_env env : gmap string string) (request : Index.WebhookRequest) :
  result (AgentUtils.validateEnv context_env) = Returned env ->
  result (Webhook.validateWebhookRequest h (Index.request_headers request)
            (Index.body request) (Index.request_ip request)
            (env !! "linearWebhookSecret")) = Returned false ->
  Index.serve h context_env request
  = (trace (Webhook.validateWebhookRequest h (Index.request_headers request)
              (Index.body request) (Index.request_ip request)
              (env !! "linearWebhookSecret")),
     Thrown (Error "Invalid webhook request"))
  /\ only_console (Index.serve h context_env request).
Proof.
  intros Henv Hrefused.
  destruct (validateEnv_returned _ _ Henv) as (Hrun & _).
  assert (Hserve : Index.serve h context_env request
                   = (trace (Webhook.validateWebhookRequest h
                               (Index.request_headers request) (Index.body request)
                               (Index.request_ip request) (env !! "linearWebhookSecret")),
                      Thrown (Error "Invalid webhook request"))).
  { unfold Index.serve, Index.serve_with. rewrite Hrun, RunFacts.bind_returned.
    unfold Index.validate_webhook.
    destruct (Webhook.validateWebhookRequest h _ _ _ _) as [t r]. cbn in Hrefused.
    subst r. cbn. now rewrite !app_nil_r. }
  split; [exact Hserve |]. rewrite Hserve.
  apply (validateWebhookRequest_only_console h).
Qed.

End WithHost.

Lemma serve_acts_only_on_authentic_accepted_events_witness :
  ~ only_console (Index.serve Sample.host_ok Sample.process_env
                    (Sample.index_request "issue-created-Bug"))
  /\ exists env p d,
       result (AgentUtils.validateEnv Sample.process_env) = Returned env
       /\ JSON_parse Sample.host_ok "issue-created-Bug" = Gives p
       /\ Types.data p = Some d
       /\ truthy (Types.id d) = true.
Proof.
  assert (Hacts : ~ only_console (Index.serve Sample.host_ok Sample.process_env
                                    (Sample.index_request "issue-created-Bug")))
    by (intros Honly; vm_compute in Honly; discriminate).
  split; [exact Hacts |].
  destruct (serve_acts_only_on_authentic_accepted_events Sample.host_ok Sample.process_env
              (Sample.index_request "issue-created-Bug") Hacts)
    as (env & p & d & Henv & _ & Hparse & _ & Hd & Hid).
  exists env, p, d. split; [exact Henv |]. split; [exact Hparse |].
  split; [exact Hd | exact Hid].
Defined.


Lemma serve_throws_on_a_refused_request_witness :
  result (AgentUtils.validateEnv Sample.process_env) = Returned Sample.env
  /\ Index.serve Sample.host_ok Sample.process_env
       (Cases.foreign_index_request "issue-created-Bug")
     = ([ ConsoleError "Invalid webhook IP:" (LogText "203.0.113.7") ],
        Thrown (Error "Invalid webhook request")).
Proof.
  pose proof EndsFacts.sample_env_validated as Henv.
  split; [exact Henv |].
  refine (proj1 (serve_throws_on_a_refused_request Sample.host_ok Sample.process_env
                   Sample.env (Cases.foreign_index_request "issue-created-Bug") Henv _)).
  vm_compute. reflexivity.
Defined.

End WorkflowFacts.

(** ** The environment and the keys of the agents *)

Module EnvironmentFacts.

Import Observed TableFacts EnvFacts.

Lemma object_of_optional_outside (props : list (string * option string)) (k : string) :
  assoc k props = None -> AgentUtils.object_of_optional props !! k = None.
Proof.
  unfold AgentUtils.object_of_optional.
  induction props as [| [k' [v |]] rest IH]; cbn [assoc omap list_omap snd fst].
  - intros _. apply lookup_empty.
  - destruct (String.eqb_spec k k') as [-> | Hne]; [discriminate |].
    intros Hrest. cbn [list_to_map foldr].
    rewrite lookup_insert_ne; [| intros Heq; apply Hne; symmetry; exact Heq]. now apply IH.
  - destruct (String.eqb_spec k k') as [-> | Hne]; [discriminate |]. exact IH.
Qed.

Lemma assoc_None_not_in {A : Type} (props : list (string * A)) (k : string) :
  k ∉ List.map fst props -> assoc k props = None.
Proof.
  induction props as [| [k' v] rest IH]; cbn; [easy |].
  rewrite not_elem_of_cons. intros [Hne Hrest].
  destruct (String.eqb_spec k k'); [congruence | auto].
Qed.

(** Reading the object [validateEnv] builds, when no key is written
    twice. *)
Lemma object_of_optional_lookup (props : list (string * option string)) (k : string) :
  NoDup (List.map fst props) ->
  AgentUtils.object_of_optional props !! k
  = match assoc k props with
    | Some v => v
    | None => None
    end.
Proof.
  induction props as [| [k' ov] rest IH]; intros Hnodup.
  - apply lookup_empty.
  - cbn [List.map fst] in Hnodup. apply NoDup_cons in Hnodup as [Hfresh Hnodup].
    cbn [assoc]. destruct (String.eqb_spec k k') as [-> | Hne].
    + destruct ov as [v |].
      * unfold AgentUtils.object_of_optional. cbn [omap list_omap snd fst list_to_map foldr].
        apply lookup_insert_eq.
      * unfold AgentUtils.object_of_optional. cbn [omap list_omap snd fst].
        apply object_of_optional_outside. now apply assoc_None_not_in.
    + rewrite <- (IH Hnodup).
      unfold AgentUtils.object_of_optional. destruct ov as [v |];
        cbn [omap list_omap snd fst list_to_map foldr]; [| reflexivity].
      rewrite lookup_insert_ne; [reflexivity | intros Heq; apply Hne; symmetry; exact Heq].
Qed.

Lemma validateEnv_result (context_env : gmap string string) :
  let missing :=
    List.filter (fun key => negb (truthy (context_env !! key))) AgentUtils.required in
  AgentUtils.validateEnv context_env
  = match missing with
    | [] => ([], Returned (AgentUtils.object_of_optional (env_properties context_env)))
    | _ :: _ =>
        ([], Thrown (Error ("Missing required environment variables: "
                            +:+ String.concat ", " missing)))
    end.
Proof.
  cbn zeta. unfold AgentUtils.validateEnv.
  destruct (List.filter _ AgentUtils.required) as [| k rest]; reflexivity.
Qed.

Lemma env_lookup (context_env env : gmap string string) (k : string) :
  result (AgentUtils.validateEnv context_env) = Returned env ->
  env !! k = match assoc k (env_properties context_env) with
             | Some v => v
             | None => None
             end.
Proof.
  rewrite validateEnv_result. cbn zeta.
  destruct (List.filter _ AgentUtils.required); [| discriminate].
  intros Hr. injection Hr as <-.
  apply object_of_optional_lookup.
  cbn. repeat (apply NoDup_cons; split; [not_listed |]). apply NoDup_nil. exact I.
Qed.


(** X8.  [validateEnv] returns exactly when the five required
    variables are set and non-empty; otherwise it throws, and the
    message lists, in the order of [required], exactly the required
    variables that are unset or empty.  The two Redis variables are not
    required. *)
Theorem validateEnv_returns_iff (context_env : gmap string string) :
  let missing :=
    List.filter (fun key => negb (truthy (context_env !! key))) AgentUtils.required in
  ((forall key, key ∈ AgentUtils.required -> truthy (context_env !! key) = true)
   <-> exists env, AgentUtils.validateEnv context_env = ([], Returned env))
  /\ ((exists key, key ∈ AgentUtils.required /\ truthy (context_env !! key) = false)
      <-> AgentUtils.validateEnv context_env
          = ([], Thrown (Error ("Missing required environment variables: "
                                +:+ String.concat ", " missing))))
  /\ (forall key, key ∈ missing
                  <-> key ∈ AgentUtils.required /\ truthy (context_env !! key) = false).
Proof.
  cbn zeta.
  assert (Hmissing : forall key,
             key ∈ List.filter (fun key => negb (truthy (context_env !! key)))
                     AgentUtils.required
             <-> key ∈ AgentUtils.required /\ truthy (context_env !! key) = false).
  { intros key. rewrite !list_elem_of_In, filter_In, negb_true_iff. reflexivity. }
  rewrite validateEnv_result. cbn zeta.
  destruct (List.filter _ AgentUtils.required) as [| k rest] eqn:Hfilter.
  - split; [| split; [| exact Hmissing] ].
    + split; [intros _; eexists; reflexivity |].
      intros _ key Hkey. destruct (truthy (context_env !! key)) eqn:Ht; [reflexivity |].
      exfalso. apply (not_elem_of_nil key). now apply Hmissing.
    + split; [| discriminate].
      intros (key & Hkey & Ht). exfalso. apply (not_elem_of_nil key). now apply Hmissing.
  - split; [| split; [| exact Hmissing] ].
    + split; [| intros [env Henv]; discriminate].
      intros Hall. exfalso.
      assert (Hk : k ∈ k :: rest) by apply list_elem_of_here.
      apply Hmissing in Hk as [Hreq Hfalse]. rewrite (Hall k Hreq) in Hfalse. discriminate.
    + split; [reflexivity |]. intros _. exists k.
      apply Hmissing. apply list_elem_of_here.
Qed.

(** X9.  The object [validateEnv] returns holds the value of its
    variable under each of the seven names of [Env], and nothing under
    any other name. *)
Theorem validateEnv_object (context_env env : gmap string string) :
  result (AgentUtils.validateEnv context_env) = Returned env ->
  env !! "upstashRedisUrl" = context_env !! "UPSTASH_REDIS_URL"
  /\ env !! "upstashRedisToken" = context_env !! "UPSTASH_REDIS_TOKEN"
  /\ env !! "linearWebhookSecret" = context_env !! "LINEAR_WEBHOOK_SECRET"
  /\ env !! "managerApiKey" = context_env !! "MANAGER_API_KEY"
  /\ env !! "bugApiKey" = context_env !! "BUG_API_KEY"
  /\ env !! "featureApiKey" = context_env !! "FEATURE_API_KEY"
  /\ env !! "improvementApiKey" = context_env !! "IMPROVEMENT_API_KEY"
  /\ (forall k, k ∉ [ "upstashRedisUrl"; "upstashRedisToken"; "linearWebhookSecret";
                      "managerApiKey"; "bugApiKey"; "featureApiKey";
                      "improvementApiKey" ] -> env !! k = None).
Proof.
  intros Henv. repeat split; try (rewrite (env_lookup _ _ _ Henv); reflexivity).
  intros k Hk. rewrite (env_lookup _ _ _ Henv).
  now rewrite (assoc_None_not_in (env_properties context_env) k Hk).
Qed.




Lemma validateEnv_returns_iff_witness :
  (exists key, key ∈ AgentUtils.required
               /\ truthy (Cases.env_without_bug_key !! key) = false)
  /\ AgentUtils.validateEnv Cases.env_without_bug_key
     = ([], Thrown (Error
         "Missing required environment variables: BUG_API_KEY, IMPROVEMENT_API_KEY")).
Proof.
  assert (Hmissing : exists key, key ∈ AgentUtils.required
                                 /\ truthy (Cases.env_without_bug_key !! key) = false)
    by (exists "BUG_API_KEY"; split; [in_schema | reflexivity]).
  split; [exact Hmissing |].
  pose proof (validateEnv_returns_iff Cases.env_without_bug_key) as Hiff.
  cbn zeta in Hiff. destruct Hiff as (_ & Hthrows & _).
  exact (proj1 Hthrows Hmissing).
Defined.

Lemma validateEnv_object_witness :
  result (AgentUtils.validateEnv Sample.process_env) = Returned Sample.env
  /\ Sample.env !! "managerApiKey" = Sample.process_env !! "MANAGER_API_KEY"
  /\ Sample.env !! "managerLinearApiKey" = None.
Proof.
  pose proof EndsFacts.sample_env_validated as Henv.
  split; [exact Henv |].
  destruct (validateEnv_object Sample.process_env Sample.env Henv)
    as (_ & _ & _ & Hmanager & _ & _ & _ & Hother).
  split; [exact Hmanager | apply Hother; not_listed].
Defined.



End EnvironmentFacts.

(** ** The tools on the issue tracker *)

Module ToolFacts.

Import Observed TableFacts PriorityFacts.

(** X12.  The four priority matrices are monotone: with the levels
    ranked from critical to low, the efforts from small to xlarge and
    the risks from low to high, arguments that are no more pressing in
    both places never give a more pressing priority (a smaller
    number). *)
Theorem priority_matrices_are_monotone :
  (forall i i' u u' : Spec.level,
     Spec.rank i <= Spec.rank i' -> Spec.rank u <= Spec.rank u' ->
     exists p p',
       Bug.updatePriority_priority (Spec.level_name i) (Spec.level_name u) = Returned p
       /\ Bug.updatePriority_priority (Spec.level_name i') (Spec.level_name u') = Returned p'
       /\ p <= p')
  /\ (forall i i' u u' : Spec.level,
     Spec.rank i <= Spec.rank i' -> Spec.rank u <= Spec.rank u' ->
     exists p p',
       Tools.createPriorityAssessmentTool_priority (Spec.level_name i) (Spec.level_name u)
       = Returned (Some p)
       /\ Tools.createPriorityAssessmentTool_priority (Spec.level_name i') (Spec.level_name u')
          = Returned (Some p')
       /\ p <= p')
  /\ (forall (v v' : Spec.level) (e e' : Spec.effort),
     Spec.rank v <= Spec.rank v' -> effort_rank e <= effort_rank e' ->
     exists p p',
       Feature.updatePriority_priority (Spec.level_name v) (Spec.effort_name e) = Returned p
       /\ Feature.updatePriority_priority (Spec.level_name v') (Spec.effort_name e')
          = Returned p'
       /\ p <= p')
  /\ (forall (i i' : Spec.level) (r r' : Spec.risk),
     Spec.rank i <= Spec.rank i' -> risk_rank r <= risk_rank r' ->
     exists p p',
       Improvement.updatePriority_priority (Spec.level_name i) (Spec.risk_name r) = Returned p
       /\ Improvement.updatePriority_priority (Spec.level_name i') (Spec.risk_name r')
          = Returned p'
       /\ p <= p').
Proof.
  split; [| split; [| split] ].
  - intros i i' u u' Hi Hu. rewrite !bug_priority_by_rank.
    eexists _, _. split; [reflexivity |]. split; [reflexivity |].
    apply Z.add_le_mono_l, Z.div_le_mono; lia.
  - intros i i' u u' Hi Hu. rewrite !assessment_priority_by_rank.
    eexists _, _. split; [reflexivity |]. split; [reflexivity |].
    apply Z.add_le_mono_l, Z.div_le_mono; lia.
  - intros v v' e e' Hv He. rewrite !feature_priority_on_levels.
    eexists _, _. split; [reflexivity |]. split; [reflexivity |].
    destruct v, v', e, e'; cbn in *; lia.
  - intros i i' r r' Hi Hr. rewrite !improvement_priority_on_levels.
    eexists _, _. split; [reflexivity |]. split; [reflexivity |].
    destruct i, i', r, r'; cbn in *; lia.
Qed.

Lemma priority_matrices_are_monotone_witness :
  Spec.rank Spec.critical <= Spec.rank Spec.high
  /\ effort_rank Spec.small <= effort_rank Spec.large
  /\ exists p p',
       Feature.updatePriority_priority "critical" "small" = Returned p
       /\ Feature.updatePriority_priority "high" "large" = Returned p'
       /\ p <= p'.
Proof.
  assert (Hv : Spec.rank Spec.critical <= Spec.rank Spec.high) by (cbn; lia).
  assert (He : effort_rank Spec.small <= effort_rank Spec.large) by (cbn; lia).
  split; [exact Hv |]. split; [exact He |].
  pose proof priority_matrices_are_monotone as (_ & _ & Hfeature & _).
  exact (Hfeature Spec.critical Spec.high Spec.small Spec.large Hv He).
Defined.

Section WithHost.
Context (h : host) (client : Types.LinearClient) (issueId reason : string).

(** X13.  When the tracker has no issue for the id, each of the three
    [updatePriority] tools asks for the issue and nothing more: no
    update, no comment; it logs ["Issue <id> not found"] and throws
    ["Failed to update priority: Issue <id> not found"], whatever the
    other arguments. *)
Theorem updatePriority_on_an_unknown_issue (a b : string) :
  client_issue h (Types.apiKey client) issueId = Gives false ->
  let not_found := Error ("Issue " +:+ issueId +:+ " not found") in
  let t := [ ClientIssue (Types.apiKey client) issueId;
             ConsoleError "Failed to update priority:" (LogError not_found) ] in
  let e := Error ("Failed to update priority: Issue " +:+ issueId +:+ " not found") in
  Bug.updatePriority h client issueId a b reason = (t, Thrown e)
  /\ Feature.updatePriority h client issueId a b reason = (t, Thrown e)
  /\ Improvement.updatePriority h client issueId a b reason = (t, Thrown e).
Proof.
  intros Hissue. cbn zeta.
  unfold Bug.updatePriority, Bug.updatePriority_invoke,
    Feature.updatePriority, Feature.updatePriority_invoke,
    Improvement.updatePriority, Improvement.updatePriority_invoke.
  run_tool. rewrite Hissue. cbn. repeat split.
Qed.

(** X14.  The update of the priority and the comment that explains it
    are two calls, and the first is not undone: when the tracker takes
    the priority and refuses the comment, each of the three
    [updatePriority] tools throws
    ["Failed to update priority: <message of the comment's error>"]
    although the trace holds the update with the priority of the
    matrix. *)
Theorem updatePriority_is_not_atomic (cause : js_error) :
  client_issue h (Types.apiKey client) issueId = Gives true ->
  (forall priority, issue_update h (Types.apiKey client) issueId priority = Gives tt) ->
  (forall body, client_createComment h (Types.apiKey client) issueId body = Fails cause) ->
  let e := Error ("Failed to update priority: " +:+ error_message cause) in
  (forall impact urgency : Spec.level,
     let run := Bug.updatePriority h client issueId
                  (Spec.level_name impact) (Spec.level_name urgency) reason in
     result run = Thrown e
     /\ IssueUpdate (Types.apiKey client) issueId (Some (Spec.bug_matrix impact urgency))
        ∈ trace run)
  /\ (forall (value : Spec.level) (effort : Spec.effort),
     let run := Feature.updatePriority h client issueId
                  (Spec.level_name value) (Spec.effort_name effort) reason in
     result run = Thrown e
     /\ IssueUpdate (Types.apiKey client) issueId (Some (Spec.feature_matrix value effort))
        ∈ trace run)
  /\ (forall (impact : Spec.level) (risk : Spec.risk),
     let run := Improvement.updatePriority h client issueId
                  (Spec.level_name impact) (Spec.risk_name risk) reason in
     result run = Thrown e
     /\ IssueUpdate (Types.apiKey client) issueId (Some (Spec.improvement_matrix impact risk))
        ∈ trace run).
Proof.
  intros Hissue Hupdate Hcomment. cbn zeta.
  split; [| split].
  - intros impact urgency.
    unfold Bug.updatePriority, Bug.updatePriority_invoke. run_tool.
    rewrite bug_priority_on_levels, Hissue. cbn. rewrite Hupdate. cbn.
    rewrite Hcomment. cbn. split; [reflexivity |].
    unfold trace. cbn. apply list_elem_of_further, list_elem_of_here.
  - intros value effort.
    unfold Feature.updatePriority, Feature.updatePriority_invoke. run_tool.
    rewrite feature_priority_on_levels, Hissue. cbn. rewrite Hupdate. cbn.
    rewrite Hcomment. cbn. split; [reflexivity |].
    unfold trace. cbn. apply list_elem_of_further, list_elem_of_here.
  - intros impact risk.
    unfold Improvement.updatePriority, Improvement.updatePriority_invoke. run_tool.
    rewrite improvement_priority_on_levels, Hissue. cbn. rewrite Hupdate. cbn.
    rewrite Hcomment. cbn. split; [reflexivity |].
    unfold trace. cbn. apply list_elem_of_further, list_elem_of_here.
Qed.

Lemma withErrorHandling_run {A : Type} (invoke : M A) (errorMessage : string) :
  AgentTools.withErrorHandling invoke errorMessage
  = match invoke with
    | (t, Thrown e) =>
        ((t ++ [ ConsoleError (errorMessage +:+ ":") (LogError e) ])%list,
         Thrown (Error (errorMessage +:+ ": " +:+ error_message e)))
    | other => other
    end.
Proof. destruct invoke as [t [a | e |] ]; reflexivity. Qed.

Lemma reported_wrapped {A : Type} (newPriority : A -> Z) (invoke : M A) :
  match result invoke with
  | Returned r =>
      comment_attempts (trace invoke) = 1%nat
      /\ IssueUpdate (Types.apiKey client) issueId (Some (newPriority r)) ∈ trace invoke
  | Thrown _ => True
  | HostDefined => False
  end ->
  reported (Types.apiKey client) issueId newPriority (AgentTools.withErrorHandling invoke "Failed to update priority").
Proof.
  rewrite withErrorHandling_run. unfold reported.
  destruct invoke as [t [r | e |] ]; cbn; [tauto | | tauto].
  intros _. exists e. split; [reflexivity |]. unfold trace. cbn. apply last_snoc.
Qed.

(** X15.  Keys that name a member of [Object.prototype] apart, a run
    of an [updatePriority] tool ends in one of two ways, whatever the
    tracker answers: it returns, having posted one comment and set the
    priority it reports; or it throws
    ["Failed to update priority: <message of the cause>"], the last
    event of the trace being the console line that logs the cause. *)
Theorem updatePriority_reports_every_failure (a b : string) :
  a ∉ Object_prototype_keys -> b ∉ Object_prototype_keys ->
  reported (Types.apiKey client) issueId Bug.newPriority (Bug.updatePriority h client issueId a b reason)
  /\ reported (Types.apiKey client) issueId Feature.newPriority
       (Feature.updatePriority h client issueId a b reason)
  /\ reported (Types.apiKey client) issueId Improvement.newPriority
       (Improvement.updatePriority h client issueId a b reason).
Proof.
  intros Ha Hb.
  destruct (bug_priority_default a b Ha Hb) as (n1 & Hn1 & _).
  destruct (feature_priority_default a b Ha Hb) as (n2 & Hn2 & _).
  destruct (improvement_priority_default a b Ha Hb) as (n3 & Hn3 & _).
  split; [| split]; apply reported_wrapped.
  - unfold Bug.updatePriority_invoke, Tools.createCommentTool, bind, call, pure, ret,
      throw, settled, result, trace.
    rewrite Hn1. destruct (client_issue h _ _) as [ [] | e1]; cbn; [| exact I | exact I].
    destruct (issue_update h _ _ _) as [ [] | e2]; cbn; [| exact I].
    destruct (client_createComment h _ _ _) as [ [] | e3]; cbn; [| exact I].
    split; [reflexivity |]. apply list_elem_of_further, list_elem_of_here.
  - unfold Feature.updatePriority_invoke, Tools.createCommentTool, bind, call, pure, ret,
      throw, settled, result, trace.
    rewrite Hn2. destruct (client_issue h _ _) as [ [] | e1]; cbn; [| exact I | exact I].
    destruct (issue_update h _ _ _) as [ [] | e2]; cbn; [| exact I].
    destruct (client_createComment h _ _ _) as [ [] | e3]; cbn; [| exact I].
    split; [reflexivity |]. apply list_elem_of_further, list_elem_of_here.
  - unfold Improvement.updatePriority_invoke, Tools.createCommentTool, bind, call, pure,
      ret, throw, settled, result, trace.
    rewrite Hn3. destruct (client_issue h _ _) as [ [] | e1]; cbn; [| exact I | exact I].
    destruct (issue_update h _ _ _) as [ [] | e2]; cbn; [| exact I].
    destruct (client_createComment h _ _ _) as [ [] | e3]; cbn; [| exact I].
    split; [reflexivity |]. apply list_elem_of_further, list_elem_of_here.
Qed.

(** X16.  [createPriorityAssessmentTool] (in [src/utils/tools.ts])
    scores before it asks the tracker, never posts a comment and never
    writes to the console: an impact outside its schema throws before
    any call; an urgency outside it sends an update whose priority is
    [undefined] and reports success; an error of [client.issue] is
    thrown as it is, and an issue that is [undefined] is a [TypeError]
    on [update]. *)
Theorem assessment_tool_scores_first (impact urgency : string) :
  let run := Tools.createPriorityAssessmentTool h client issueId impact urgency in
  comment_attempts (trace run) = 0%nat
  /\ forallb (fun ev => negb (is_console ev)) (trace run) = true
  /\ (impact ∉ Object_prototype_keys -> impact ∉ Tools.prioritySchema_levels ->
      run = ([], Thrown (TypeError ("Cannot read properties of undefined (reading '"
                                    +:+ urgency +:+ "')"))))
  /\ (urgency ∉ Object_prototype_keys ->
      impact ∈ Tools.prioritySchema_levels -> urgency ∉ Tools.prioritySchema_levels ->
      client_issue h (Types.apiKey client) issueId = Gives true ->
      issue_update h (Types.apiKey client) issueId None = Gives tt ->
      run = ([ ClientIssue (Types.apiKey client) issueId;
               IssueUpdate (Types.apiKey client) issueId None ],
             Returned (Tools.mk_assessment None impact urgency)))
  /\ (impact ∈ Tools.prioritySchema_levels -> urgency ∈ Tools.prioritySchema_levels ->
      (forall cause,
         client_issue h (Types.apiKey client) issueId = Fails cause ->
         run = ([ ClientIssue (Types.apiKey client) issueId ], Thrown cause))
      /\ (client_issue h (Types.apiKey client) issueId = Gives false ->
          run = ([ ClientIssue (Types.apiKey client) issueId ],
                 Thrown (TypeError "Cannot read properties of undefined (reading 'update')")))).
Proof.
  cbn zeta. unfold trace.
  unfold Tools.createPriorityAssessmentTool, bind, call, pure, ret, throw, settled.
  split; [| split; [| split; [| split] ] ].
  - destruct (Tools.createPriorityAssessmentTool_priority impact urgency) as [p | e |];
      [| reflexivity | reflexivity].
    destruct (client_issue h _ _) as [ [] | e1]; [| reflexivity | reflexivity].
    destruct (issue_update h _ _ _) as [ [] | e2]; reflexivity.
  - destruct (Tools.createPriorityAssessmentTool_priority impact urgency) as [p | e |];
      [| reflexivity | reflexivity].
    destruct (client_issue h _ _) as [ [] | e1]; [| reflexivity | reflexivity].
    destruct (issue_update h _ _ _) as [ [] | e2]; reflexivity.
  - intros Hp Hl. now rewrite (assessment_priority_no_row impact urgency Hp Hl).
  - intros Hp Hi Hu Hissue Hupdate.
    rewrite (assessment_priority_no_column impact urgency Hp Hi Hu), Hissue. cbn.
    now rewrite Hupdate.
  - intros Hi Hu.
    destruct (assessment_priority_in_schema impact urgency Hi Hu) as (n & Hn & _).
    rewrite Hn. split; [intros cause Hissue | intros Hissue]; now rewrite Hissue.
Qed.


End WithHost.

Lemma updatePriority_on_an_unknown_issue_witness :
  client_issue Cases.host_no_issue (Types.apiKey Sample.manager) "ISS-404" = Gives false
  /\ Feature.updatePriority Cases.host_no_issue Sample.manager "ISS-404"
       "high" "small" "because"
     = ([ ClientIssue (Types.apiKey Sample.manager) "ISS-404";
          ConsoleError "Failed to update priority:"
            (LogError (Error "Issue ISS-404 not found")) ],
        Thrown (Error "Failed to update priority: Issue ISS-404 not found")).
Proof.
  assert (Hissue : client_issue Cases.host_no_issue (Types.apiKey Sample.manager) "ISS-404"
                   = Gives false) by reflexivity.
  split; [exact Hissue |].
  pose proof (updatePriority_on_an_unknown_issue Cases.host_no_issue Sample.manager
                "ISS-404" "because" "high" "small" Hissue) as (_ & Hfeature & _).
  exact Hfeature.
Defined.

Lemma updatePriority_is_not_atomic_witness :
  client_issue Cases.host_comment_fails (Types.apiKey Sample.manager) "ISS-1" = Gives true
  /\ result (Bug.updatePriority Cases.host_comment_fails Sample.manager "ISS-1"
               "high" "critical" "because")
     = Thrown (Error "Failed to update priority: rate limited")
  /\ IssueUpdate (Types.apiKey Sample.manager) "ISS-1" (Some 1)
     ∈ trace (Bug.updatePriority Cases.host_comment_fails Sample.manager "ISS-1"
                "high" "critical" "because").
Proof.
  assert (Hissue : client_issue Cases.host_comment_fails (Types.apiKey Sample.manager)
                     "ISS-1" = Gives true) by reflexivity.
  split; [exact Hissue |].
  pose proof (updatePriority_is_not_atomic Cases.host_comment_fails Sample.manager
                "ISS-1" "because" (Error "rate limited") Hissue
                (fun _ => eq_refl) (fun _ => eq_refl)) as (Hbug & _).
  exact (Hbug Spec.high Spec.critical).
Defined.

Lemma updatePriority_reports_every_failure_witness :
  ("high" ∉ Object_prototype_keys)
  /\ ("small" ∉ Object_prototype_keys)
  /\ reported (Types.apiKey Sample.manager) "ISS-1" Feature.newPriority
       (Feature.updatePriority Sample.host_ok Sample.manager "ISS-1"
          "high" "small" "because").
Proof.
  assert (Ha : "high" ∉ Object_prototype_keys) by not_listed.
  assert (Hb : "small" ∉ Object_prototype_keys) by not_listed.
  split; [exact Ha |]. split; [exact Hb |].
  pose proof (updatePriority_reports_every_failure Sample.host_ok Sample.manager
                "ISS-1" "because" "high" "small" Ha Hb) as (_ & Hfeature & _).
  exact Hfeature.
Defined.

Lemma assessment_tool_scores_first_witness :
  ("blocker" ∉ Object_prototype_keys)
  /\ ("high" ∈ Tools.prioritySchema_levels)
  /\ ("blocker" ∉ Tools.prioritySchema_levels)
  /\ Tools.createPriorityAssessmentTool Sample.host_ok Sample.manager "ISS-1"
       "high" "blocker"
     = ([ ClientIssue (Types.apiKey Sample.manager) "ISS-1";
          IssueUpdate (Types.apiKey Sample.manager) "ISS-1" None ],
        Returned (Tools.mk_assessment None "high" "blocker")).
Proof.
  assert (Hp : "blocker" ∉ Object_prototype_keys) by not_listed.
  assert (Hi : "high" ∈ Tools.prioritySchema_levels) by in_schema.
  assert (Hu : "blocker" ∉ Tools.prioritySchema_levels) by not_listed.
  split; [exact Hp |]. split; [exact Hi |]. split; [exact Hu |].
  pose proof (assessment_tool_scores_first Sample.host_ok Sample.manager "ISS-1"
                "high" "blocker") as (_ & _ & _ & Hclears & _).
  exact (Hclears Hp Hi Hu eq_refl eq_refl).
Defined.

End ToolFacts.

(** ** The analyses *)

Module AnalysisFacts.

Import Text Analysis TableFacts.

(** *** Substrings *)

Lemma prefix_app (a b s : string) :
  String.prefix (a +:+ b) s = true -> String.prefix a s = true.
Proof.
  revert s. induction a as [| c a IH]; intros s; [now destruct s |].
  change (String c a +:+ b) with (String c (a +:+ b)).
  destruct s as [| c' s]; cbn [String.prefix]; [discriminate |].
  destruct (Ascii.ascii_dec c c'); [apply IH | discriminate].
Qed.

Lemma includes_app (s a b : string) :
  includes s (a +:+ b) = true -> includes s a = true.
Proof.
  induction s as [| c s IH]; cbn [includes]; rewrite !orb_true_iff.
  - intros [H | H]; [left; now apply prefix_app with b | discriminate].
  - intros [H | H]; [left; now apply prefix_app with b | right; now apply IH].
Qed.

Lemma pushed_elem (b : bool) (xs : list string) (x : string) :
  x ∈ pushed b xs <-> b = true /\ x ∈ xs.
Proof.
  destruct b; cbn; [tauto |]. split; [intros H; now apply elem_of_nil in H | now intros [? _] ].
Qed.

Lemma pushed_sublist (b : bool) (xs : list string) : sublist (pushed b xs) xs.
Proof. destruct b; cbn; [reflexivity | apply sublist_nil_l]. Qed.

Lemma array_includes_elem (xs : list string) (x : string) :
  array_includes xs x = true <-> x ∈ xs.
Proof. unfold array_includes. symmetry. apply elem_of_existsb. Qed.

(** X17.  [extractImpactedAreas] lists each area at most once, in the
    fixed order api, database, ui, authentication, integrations,
    workflows; ["database"] is listed exactly when the lower-cased
    description includes ["data"] (the test for ["database"] adds
    nothing), ["integrations"] exactly when it includes
    ["integration"], and ["authentication"] exactly when it includes
    ["auth"] or ["login"]. *)
Theorem extractImpactedAreas_areas (description : string) :
  let lowerDesc := toLowerCase description in
  let areas := extractImpactedAreas description in
  sublist areas [ "api"; "database"; "ui"; "authentication"; "integrations"; "workflows" ]
  /\ NoDup areas
  /\ ("database" ∈ areas <-> includes lowerDesc "data" = true)
  /\ ("integrations" ∈ areas <-> includes lowerDesc "integration" = true)
  /\ ("authentication" ∈ areas
      <-> includes lowerDesc "auth" = true \/ includes lowerDesc "login" = true).
Proof.
  cbn zeta.
  assert (Hsub : sublist (extractImpactedAreas description)
                   [ "api"; "database"; "ui"; "authentication"; "integrations";
                     "workflows" ]).
  { unfold extractImpactedAreas.
    change [ "api"; "database"; "ui"; "authentication"; "integrations"; "workflows" ]
      with ([ "api" ] ++ [ "database" ] ++ [ "ui" ] ++ [ "authentication" ]
            ++ [ "integrations" ] ++ [ "workflows" ])%list.
    repeat (apply sublist_app; [apply pushed_sublist |]). apply pushed_sublist. }
  split; [exact Hsub |]. split.
  { refine (sublist_NoDup _ _ _ Hsub).
    repeat (apply NoDup_cons; split; [not_listed |]). apply NoDup_nil. exact I. }
  unfold extractImpactedAreas.
  rewrite !elem_of_app, !pushed_elem, !orb_true_iff.
  split; [| split].
  - split.
    + intros [ [_ H] | [ [ [H | H] _] | [ [_ H] | [ [_ H] | [ [_ H] | [_ H] ] ] ] ] ];
        try (exfalso; revert H; not_listed).
      * now apply (includes_app _ "data" "base").
      * exact H.
    + intros H. right; left. split; [now right | in_schema].
  - split.
    + intros [ [_ H] | [ [_ H] | [ [_ H] | [ [_ H] | [ [H _] | [_ H] ] ] ] ] ];
        try (exfalso; revert H; not_listed). exact H.
    + intros H. do 4 right. left. split; [exact H | in_schema].
  - split.
    + intros [ [_ H] | [ [_ H] | [ [_ H] | [ [H _] | [ [_ H] | [_ H] ] ] ] ] ];
        try (exfalso; revert H; not_listed). exact H.
    + intros H. do 3 right. left. split; [exact H | in_schema].
Qed.

Lemma extractFeatureImpact_sublist (description : string) :
  sublist (extractFeatureImpact description)
    [ "performance"; "resource-usage"; "maintainability"; "security"; "scalability";
      "reliability" ].
Proof.
  unfold extractFeatureImpact.
  change [ "performance"; "resource-usage"; "maintainability"; "security"; "scalability";
           "reliability" ]
    with ([ "performance" ] ++ [ "resource-usage" ] ++ [ "maintainability" ]
          ++ [ "security" ] ++ [ "scalability" ] ++ [ "reliability" ])%list.
  repeat (apply sublist_app; [apply pushed_sublist |]). apply pushed_sublist.
Qed.

Lemma not_an_area (areas names : list string) (x : string) :
  sublist areas names -> x ∉ names -> array_includes areas x = false.
Proof.
  intros Hsub Hx. destruct (array_includes areas x) eqn:Hin; [exfalso | reflexivity].
  apply array_includes_elem in Hin. apply Hx. exact (elem_of_sublist _ _ _ Hin Hsub).
Qed.

(** X18.  In [analyzeFeature] the recommendations never depend on the
    impacted areas: [generateFeatureRecommendations] tests the areas
    for ["api"], ["ui/ux"] and ["database"], and [extractFeatureImpact]
    produces none of them, so the six recommendations of these three
    branches are never given and the list has two to four entries. *)
Theorem analyzeFeature_area_recommendations_are_dead
    (description : string) (userStory : option string)
    (acceptanceCriteria : option (list string)) :
  let analysis := analyzeFeature_analysis description userStory acceptanceCriteria in
  generateFeatureRecommendations analysis
  = (pushed (feature_type analysis =? "integration")%string
       [ "Document integration requirements"; "Define data exchange formats" ]
     ++ pushed (feature_type analysis =? "optimization")%string
          [ "Define performance metrics"; "Set optimization targets" ])%list
  /\ (forall r,
        r ∈ [ "Design API endpoints"; "Document API changes";
              "Create wireframes/mockups"; "Plan user testing";
              "Design data schema changes"; "Plan data migration if needed" ] ->
        r ∉ analyzeFeature_recommendations analysis)
  /\ (2 <= List.length (analyzeFeature_recommendations analysis) <= 4)%nat.
Proof.
  cbn zeta.
  assert (Hgen : generateFeatureRecommendations
                   (analyzeFeature_analysis description userStory acceptanceCriteria)
                 = (pushed (feature_type (analyzeFeature_analysis description userStory
                                            acceptanceCriteria) =? "integration")%string
                      [ "Document integration requirements"; "Define data exchange formats" ]
                    ++ pushed (feature_type (analyzeFeature_analysis description userStory
                                               acceptanceCriteria) =? "optimization")%string
                         [ "Define performance metrics"; "Set optimization targets" ])%list).
  { unfold generateFeatureRecommendations.
    cbn [feature_impactedAreas analyzeFeature_analysis].
    rewrite !(not_an_area _ _ _ (extractFeatureImpact_sublist description)) by not_listed.
    cbn [pushed]. now rewrite !app_nil_r. }
  split; [exact Hgen |].
  unfold analyzeFeature_recommendations. rewrite Hgen.
  cbn [feature_type hasUserStory hasAcceptanceCriteria analyzeFeature_analysis].
  split.
  - intros r Hr.
    repeat (apply elem_of_cons in Hr as [-> | Hr]); [.. | now apply elem_of_nil in Hr].
    all: destruct (truthy userStory);
      destruct (match acceptanceCriteria with Some _ => _ | None => _ end);
      destruct (includes (toLowerCase description) "enhancement");
      destruct (includes (toLowerCase description) "integration");
      destruct (includes (toLowerCase description) "optimization");
      not_listed.
  - destruct (includes (toLowerCase description) "enhancement");
      destruct (includes (toLowerCase description) "integration");
      destruct (includes (toLowerCase description) "optimization");
      cbn; lia.
Qed.

(** X19.  The analysis [analyzeBug] builds: the type is one of crash,
    security, performance, functional; the severity is a level of the
    schema of [updatePriority], on which the tool's matrix gives 1
    exactly for critical and 4 exactly for low; there are two to six
    recommendations, and at most four for a functional bug. *)
Theorem analyzeBug_analysis_is_well_formed
    (description : string) (stackTrace environment : option string) :
  let analysis := analyzeBug_analysis description stackTrace environment in
  bug_type analysis ∈ [ "crash"; "security"; "performance"; "functional" ]
  /\ severity analysis ∈ AgentTools.createBugAgentTools.schema_impact
  /\ (exists p, AgentTools.createBugAgentTools.updatePriority_priority
                  (severity analysis) (severity analysis) = Returned p
                /\ (severity analysis = "critical" <-> p = 1)
                /\ (severity analysis = "low" <-> p = 4))
  /\ (2 <= List.length (analyzeBug_recommendations analysis) <= 6)%nat
  /\ (bug_type analysis = "functional" ->
      (List.length (analyzeBug_recommendations analysis) <= 4)%nat).
Proof.
  cbn zeta. unfold analyzeBug_recommendations, generateRecommendations.
  cbn [bug_type severity hasStackTrace hasEnvironmentInfo bug_impactedAreas
       analyzeBug_analysis].
  split; [| split; [| split; [| split] ] ].
  - destruct (includes (toLowerCase description) "crash");
      destruct (includes (toLowerCase description) "security");
      destruct (includes (toLowerCase description) "performance"); in_schema.
  - destruct (includes (toLowerCase description) "critical");
      destruct (includes (toLowerCase description) "high");
      destruct (includes (toLowerCase description) "medium"); in_schema.
  - destruct (includes (toLowerCase description) "critical");
      destruct (includes (toLowerCase description) "high");
      destruct (includes (toLowerCase description) "medium");
      eexists; (split; [vm_compute; reflexivity |]); split; split; congruence.
  - destruct (includes (toLowerCase description) "crash");
      destruct (includes (toLowerCase description) "security");
      destruct (includes (toLowerCase description) "performance");
      destruct (array_includes (extractImpactedAreas description) "api");
      destruct (array_includes (extractImpactedAreas description) "database");
      cbn; lia.
  - destruct (includes (toLowerCase description) "crash");
      destruct (includes (toLowerCase description) "security");
      destruct (includes (toLowerCase description) "performance");
      destruct (array_includes (extractImpactedAreas description) "api");
      destruct (array_includes (extractImpactedAreas description) "database");
      cbn; intros; try discriminate; lia.
Qed.

(** X20.  The analysis [analyzeImprovement] builds: the type is
    ["technical-debt"] or one of the impacted areas; it is one of four
    names; the areas are listed at most once in a fixed order; and there
    are two to eight recommendations. *)
Theorem analyzeImprovement_type_is_an_area
    {A : Type} (description : string) (currentMetrics targetMetrics : option A) :
  let analysis := analyzeImprovement_analysis description currentMetrics targetMetrics in
  (improvement_type analysis = "technical-debt"
   \/ improvement_type analysis ∈ improvement_impactedAreas analysis)
  /\ improvement_type analysis
     ∈ [ "performance"; "security"; "maintainability"; "technical-debt" ]
  /\ sublist (improvement_impactedAreas analysis)
       [ "performance"; "resource-usage"; "maintainability"; "security"; "scalability";
         "reliability" ]
  /\ (2 <= List.length (analyzeImprovement_recommendations analysis) <= 8)%nat.
Proof.
  cbn zeta. unfold analyzeImprovement_recommendations, generateImprovementRecommendations.
  cbn [improvement_type hasCurrentMetrics hasTargetMetrics improvement_impactedAreas
       analyzeImprovement_analysis].
  split; [| split; [| split] ].
  - unfold extractImprovementAreas.
    destruct (includes (toLowerCase description) "performance") eqn:Hp.
    { right. cbn [orb pushed]. apply list_elem_of_here. }
    destruct (includes (toLowerCase description) "security") eqn:Hs.
    { right. rewrite !elem_of_app, !pushed_elem. do 3 right. left.
      split; [reflexivity | in_schema]. }
    destruct (includes (toLowerCase description) "maintainability") eqn:Hm.
    { right. rewrite !elem_of_app, !pushed_elem. do 2 right. left.
      split; [reflexivity | in_schema]. }
    now left.
  - destruct (includes (toLowerCase description) "performance");
      destruct (includes (toLowerCase description) "security");
      destruct (includes (toLowerCase description) "maintainability"); in_schema.
  - unfold extractImprovementAreas.
    change [ "performance"; "resource-usage"; "maintainability"; "security"; "scalability";
             "reliability" ]
      with ([ "performance" ] ++ [ "resource-usage" ] ++ [ "maintainability" ]
            ++ [ "security" ] ++ [ "scalability" ] ++ [ "reliability" ])%list.
    repeat (apply sublist_app; [apply pushed_sublist |]). apply pushed_sublist.
  - destruct (includes (toLowerCase description) "performance");
      destruct (includes (toLowerCase description) "security");
      destruct (includes (toLowerCase description) "maintainability");
      destruct (array_includes (extractImprovementAreas description) "resource-usage");
      destruct (array_includes (extractImprovementAreas description) "scalability");
      cbn; lia.
Qed.

Lemma analyzeFeature_area_recommendations_are_dead_witness :
  ("Design API endpoints"
   ∈ [ "Design API endpoints"; "Document API changes";
       "Create wireframes/mockups"; "Plan user testing";
       "Design data schema changes"; "Plan data migration if needed" ])
  /\ ("Design API endpoints"
      ∉ analyzeFeature_recommendations
          (analyzeFeature_analysis "Integration with the billing API and its database"
             None None)).
Proof.
  assert (Hr : "Design API endpoints"
               ∈ [ "Design API endpoints"; "Document API changes";
                   "Create wireframes/mockups"; "Plan user testing";
                   "Design data schema changes"; "Plan data migration if needed" ])
    by in_schema.
  split; [exact Hr |].
  pose proof (analyzeFeature_area_recommendations_are_dead
                "Integration with the billing API and its database" None None) as Hdead.
  cbn zeta in Hdead. destruct Hdead as (_ & Hnever & _).
  exact (Hnever _ Hr).
Defined.

Lemma analyzeBug_analysis_is_well_formed_witness :
  let analysis :=
    analyzeBug_analysis "Button misaligned in the data view of the api console"
      None None in
  bug_type analysis = "functional"
  /\ (List.length (analyzeBug_recommendations analysis) <= 4)%nat.
Proof.
  cbn zeta.
  assert (Ht : bug_type (analyzeBug_analysis
                           "Button misaligned in the data view of the api console"
                           None None) = "functional") by (vm_compute; reflexivity).
  split; [exact Ht |].
  pose proof (analyzeBug_analysis_is_well_formed
                "Button misaligned in the data view of the api console" None None)
    as Hwell.
  cbn zeta in Hwell. destruct Hwell as (_ & _ & _ & _ & Hfunctional).
  exact (Hfunctional Ht).
Defined.

End AnalysisFacts.

(** ** The analysis of requirements *)

Module RequirementsFacts.

Import Text TableFacts.

(** X21.  [createRequirementsAnalysisTool] returns exactly for the
    types bug, feature and improvement.  Its complexity is never
    ["low"]: it is ["medium"] for a bug whose description does not
    include ["critical"] and ["high"] otherwise, so the estimated
    effort is 1-2 days or 3-5 days for a bug, 2-3 weeks for a feature
    and 1-2 weeks for an improvement, and the row [low] of
    [effortMatrix] is never read.  Another type (names of
    [Object.prototype] apart) throws a [TypeError] on [sections]. *)
Theorem requirements_complexity_is_never_low (description type : string) :
  let critical := includes (toLowerCase description) "critical" in
  ((exists r, Requirements.invoke description type = Returned r)
   <-> type ∈ [ "bug"; "feature"; "improvement" ])
  /\ (forall r, Requirements.invoke description type = Returned r ->
        Requirements.complexity r <> "low"
        /\ Requirements.complexity r
           = (if (type =? "bug")%string && negb critical then "medium" else "high")
        /\ Requirements.estimatedEffort r
           = Some (if (type =? "bug")%string then (if critical then "3-5 days" else "1-2 days")
                   else if (type =? "feature")%string then "2-3 weeks"
                   else "1-2 weeks"))
  /\ (type ∉ Object_prototype_keys -> type ∉ [ "bug"; "feature"; "improvement" ] ->
      Requirements.invoke description type
      = Thrown (TypeError "Cannot read properties of undefined (reading 'sections')")).
Proof.
  cbn zeta. unfold Requirements.invoke, Requirements.aspects.
  rewrite get_property_object. cbn [assoc]. key_cases type.
  - destruct (includes (toLowerCase description) "critical").
    + split; [split; [intros _; in_schema | intros _; eexists; reflexivity] |].
      split; [| intros _ Hn; exfalso; apply Hn; in_schema].
      intros r Hr. vm_compute in Hr. injection Hr as <-. repeat split. discriminate.
    + split; [split; [intros _; in_schema | intros _; eexists; reflexivity] |].
      split; [| intros _ Hn; exfalso; apply Hn; in_schema].
      intros r Hr. vm_compute in Hr. injection Hr as <-. repeat split. discriminate.
  - split; [split; [intros _; in_schema | intros _; eexists; reflexivity] |].
    split; [| intros _ Hn; exfalso; apply Hn; in_schema].
    intros r Hr. vm_compute in Hr. injection Hr as <-. repeat split. discriminate.
  - split; [split; [intros _; in_schema | intros _; eexists; reflexivity] |].
    split; [| intros _ Hn; exfalso; apply Hn; in_schema].
    intros r Hr. vm_compute in Hr. injection Hr as <-. repeat split. discriminate.
  - assert (Hout : type ∉ [ "bug"; "feature"; "improvement" ]).
    { rewrite !not_elem_of_cons. repeat split; try assumption. apply not_elem_of_nil. }
    split; [split; [| intros Hin; now contradiction Hout] |].
    + intros [r Hr]. destruct (bool_decide _); discriminate.
    + split; [intros r Hr; destruct (bool_decide _); discriminate |].
      intros Hp _. now rewrite (bool_decide_eq_false_2 _ Hp).
Qed.

Lemma requirements_complexity_is_never_low_witness :
  exists r,
    Requirements.invoke "A critical crash on save" "bug" = Returned r
    /\ Requirements.complexity r = "high"
    /\ Requirements.estimatedEffort r = Some "3-5 days".
Proof.
  pose proof (requirements_complexity_is_never_low "A critical crash on save" "bug")
    as Hnever.
  cbn zeta in Hnever. destruct Hnever as (Hreturns & Hresult & _).
  assert (Hbug : "bug" ∈ [ "bug"; "feature"; "improvement" ]) by in_schema.
  destruct (proj2 Hreturns Hbug) as [r Hr].
  exists r. split; [exact Hr |].
  destruct (Hresult r Hr) as (_ & Hcomplexity & Heffort).
  split; [exact Hcomplexity | exact Heffort].
Defined.

End RequirementsFacts.

(** ** The analysis of dependencies *)

Module DependencyFacts.

Import Text TableFacts Dependencies.










End DependencyFacts.
